(** * Neuralynx header parsing ([neo/rawio/neuralynxrawio/nlxheader.py])

    A shallow embedding of [NlxHeader]: the property table parser, the
    post-processing passes, the dialect resolver with its timestamp
    parser, and the acquisition-type classifier.

    Python values are modelled as follows.
    - [str]: the header is decoded as Latin-1, so every character is one
      of the 256 code points below U+0100; a [str] is a [string] whose
      [ascii] characters are those code points.
    - the [NlxHeader] object (an [OrderedDict]): a [gmap string value];
      no property proved here depends on the insertion order.
    - exceptions: the [result] monad; a raised exception aborts the call.
    - [re]: a backtracking matcher for the subset of the pattern language
      that the source uses; patterns are kept as the source's strings and
      compiled by [Re.compile].
    - [float], [packaging.version.Version(str)] and
      [datetime.datetime.strptime]: operations of the class [PyLib]. *)

From Stdlib Require Import ZArith NArith Ascii String List Bool Lia.
From Stdlib Require Import PrimFloat SpecFloat FloatOps.
From stdpp Require Import base option strings gmap.

Local Open Scope string_scope.
Local Open Scope nat_scope.

(** ** Characters and [str] methods *)

Module Py.

Definition ord (c : ascii) : N := N_of_ascii c.

(** [str.isspace] on Latin-1, also the class [\s] of a [str] pattern. *)
Definition isspace (c : ascii) : bool :=
  let n := ord c in
  ((9 <=? n) && (n <=? 13) || (28 <=? n) && (n <=? 32)
   || (n =? 133) || (n =? 160))%N.

(** The class [\d] of a [str] pattern on Latin-1: the decimal digits. *)
Definition isdecimal (c : ascii) : bool :=
  let n := ord c in ((48 <=? n) && (n <=? 57))%N.

(** The class [\w] of a [str] pattern on Latin-1: alphanumeric
    (alphabetic, decimal, digit or numeric) or the underscore. *)
Definition isword (c : ascii) : bool :=
  let n := ord c in
  ((48 <=? n) && (n <=? 57) || (65 <=? n) && (n <=? 90)
   || (97 <=? n) && (n <=? 122) || (n =? 95)
   || (n =? 170) || (n =? 178) || (n =? 179) || (n =? 181)
   || (n =? 185) || (n =? 186) || (188 <=? n) && (n <=? 190)
   || (192 <=? n) && (n <=? 214) || (216 <=? n) && (n <=? 246)
   || (248 <=? n) && (n <=? 255))%N.

Definition dquote : string := String (ascii_of_nat 34) "".
Definition newline : string := String (ascii_of_nat 10) "".

Fixpoint startswith (s p : string) : bool :=
  match p, s with
  | "", _ => true
  | String c p', String d s' => if Ascii.eqb c d then startswith s' p' else false
  | String _ _, "" => false
  end.

Fixpoint drop (n : nat) (s : string) : string :=
  match n, s with
  | S n', String _ s' => drop n' s'
  | _, _ => s
  end.

Fixpoint take (n : nat) (s : string) : string :=
  match n, s with
  | S n', String c s' => String c (take n' s')
  | _, _ => ""
  end.

Fixpoint rev_onto (s acc : string) : string :=
  match s with
  | "" => acc
  | String c s' => rev_onto s' (String c acc)
  end.

Definition rev (s : string) : string := rev_onto s "".

Fixpoint lstrip_char (c : ascii) (s : string) : string :=
  match s with
  | String d s' => if Ascii.eqb c d then lstrip_char c s' else s
  | "" => ""
  end.

(** [s.rstrip(c)] for a one-character argument. *)
Definition rstrip_char (c : ascii) (s : string) : string :=
  rev (lstrip_char c (rev s)).

(** [s.strip(c)] for a one-character argument. *)
Definition strip_char (c : ascii) (s : string) : string :=
  rstrip_char c (lstrip_char c s).

(** [sub in s] for strings. *)
Fixpoint contains (s sub : string) : bool :=
  startswith s sub ||
  match s with
  | "" => false
  | String _ s' => contains s' sub
  end.

(** [s.replace(old, new)] for a non-empty [old]: non-overlapping
    occurrences, leftmost first. *)
Fixpoint replace_fuel (fuel : nat) (s old new : string) : string :=
  match fuel with
  | O => s
  | S f =>
    match s with
    | "" => ""
    | String c s' =>
      if startswith s old
      then new +:+ replace_fuel f (drop (String.length old) s) old new
      else String c (replace_fuel f s' old new)
    end
  end.

Definition replace (s old new : string) : string :=
  replace_fuel (S (String.length s)) s old new.

(** [s.split()]: the maximal runs of non-whitespace characters. *)
Fixpoint split_go (s cur : string) : list string :=
  match s with
  | "" => if String.eqb cur "" then [] else [rev cur]
  | String c s' =>
    if isspace c
    then (if String.eqb cur "" then split_go s' "" else rev cur :: split_go s' "")
    else split_go s' (String c cur)
  end.

Definition split (s : string) : list string := split_go s "".

(** [s.upper()] on Latin-1. The capitals of U+00B5 and U+00FF lie outside
    Latin-1 (U+039C, U+0178): [None] stands for a result that no Latin-1
    string equals. U+00DF becomes "SS". *)
Definition upper_char (c : ascii) : option string :=
  let n := ord c in
  if ((97 <=? n) && (n <=? 122) || (224 <=? n) && (n <=? 246)
      || (248 <=? n) && (n <=? 254))%N
  then Some (String (ascii_of_N (n - 32)) "")
  else if (n =? 223)%N then Some "SS"
  else if ((n =? 181) || (n =? 255))%N then None
  else Some (String c "").

Fixpoint upper (s : string) : option string :=
  match s with
  | "" => Some ""
  | String c s' =>
    match upper_char c, upper s' with
    | Some u, Some us => Some (u +:+ us)
    | _, _ => None
    end
  end.

(** [int(s)] for a string: optional surrounding whitespace, an optional
    sign, decimal digits that single underscores may separate. [None]
    stands for [ValueError]. *)
Fixpoint int_digits (s : string) (acc : Z) (after_digit : bool) : option Z :=
  match s with
  | "" => if after_digit then Some acc else None
  | String c s' =>
    if isdecimal c
    then int_digits s' (10 * acc + Z.of_N (ord c - 48))%Z true
    else if Ascii.eqb c "_" && after_digit
    then match s' with
         | "" => None
         | String d _ => if isdecimal d then int_digits s' acc false else None
         end
    else None
  end.

(** The whitespace that [int] and [float] strip from a string: the
    ASCII characters tab to carriage return and the space, and the two
    whitespace characters of Latin-1 above U+007F. *)
Definition isspace_number (c : ascii) : bool :=
  let n := ord c in
  ((9 <=? n) && (n <=? 13) || (n =? 32) || (n =? 133) || (n =? 160))%N.

Fixpoint lstrip_space (s : string) : string :=
  match s with
  | String c s' => if isspace_number c then lstrip_space s' else s
  | "" => ""
  end.

Definition strip_space (s : string) : string :=
  rev (lstrip_space (rev (lstrip_space s))).

Definition int (s : string) : option Z :=
  match strip_space s with
  | String "-" s' => Z.opp <$> int_digits s' 0%Z false
  | String "+" s' => int_digits s' 0%Z false
  | s' => int_digits s' 0%Z false
  end.

End Py.

(** ** The [re] module

    The subset of the pattern language used in [nlxheader.py]: literal
    characters, escaped punctuation, the classes [\s \S \w \W \d \D],
    bracketed sets, [.], greedy [* + ?], alternation, and numbered,
    named and non-capturing groups. No flags are set, as in the source.
    [x+] is compiled as [xx*]. *)

Module Re.

Inductive set_item :=
| IChar (c : ascii)
| IRange (lo hi : ascii)
| ISpace | INotSpace | IWord | INotWord | IDigit | INotDigit.

Inductive regex :=
| REps
| RChr (c : ascii)
| RAny                                  (* [.]: anything but a newline *)
| RSet (negated : bool) (items : list set_item)
| RSeq (r1 r2 : regex)
| RAlt (r1 r2 : regex)
| RStar (r : regex)
| ROpt (r : regex)
| RGroup (idx : nat) (r : regex).       (* capturing group number [idx] *)

(** A compiled pattern: the expression, the number of capturing groups
    and the names of the named ones. *)
Record pattern := {
  p_regex : regex;
  p_groups : nat;
  p_names : list (string * nat)
}.

(** *** Compilation of a pattern string *)

Record pstate := { ps_next : nat; ps_names : list (string * nat) }.

Definition class_escape (c : ascii) : option set_item :=
  if Ascii.eqb c "s" then Some ISpace
  else if Ascii.eqb c "S" then Some INotSpace
  else if Ascii.eqb c "w" then Some IWord
  else if Ascii.eqb c "W" then Some INotWord
  else if Ascii.eqb c "d" then Some IDigit
  else if Ascii.eqb c "D" then Some INotDigit
  else None.

(** After a backslash: a class, or a punctuation character standing for
    itself. Escaped letters and digits other than the classes (anchors,
    back-references, control characters) are outside the subset. *)
Definition parse_escape (c : ascii) : option set_item :=
  match class_escape c with
  | Some i => Some i
  | None => if Py.isword c then None else Some (IChar c)
  end.

Definition item_regex (i : set_item) : regex :=
  match i with
  | IChar c => RChr c
  | _ => RSet false [i]
  end.

(** The items of a bracketed set, up to the closing bracket. *)
Fixpoint parse_set_items (s : string) (first : bool) (acc : list set_item)
  : option (list set_item * string) :=
  match s with
  | "" => None
  | String c s1 =>
    if Ascii.eqb c "]" && negb first then Some (List.rev acc, s1)
    else if Ascii.eqb c "\" then
      match s1 with
      | String e s2 =>
        match parse_escape e with
        | Some i => parse_set_items s2 false (i :: acc)
        | None => None
        end
      | "" => None
      end
    else
      match s1 with
      | String "-" (String hi s3) =>
        if Ascii.eqb hi "]" then parse_set_items s1 false (IChar c :: acc)
        else if Ascii.eqb hi "\" then None
        else parse_set_items s3 false (IRange c hi :: acc)
      | _ => parse_set_items s1 false (IChar c :: acc)
      end
  end.

Fixpoint parse_name (s acc : string) : option (string * string) :=
  match s with
  | "" => None
  | String c s' =>
    if Ascii.eqb c ">" then Some (Py.rev acc, s')
    else parse_name s' (String c acc)
  end.

(** Greedy quantifiers after an atom; a lazy or possessive suffix and a
    repeated quantifier are outside the subset. *)
Definition parse_quant (r : regex) (s : string) : option (regex * string) :=
  let ok (q : regex) (s' : string) :=
    match s' with
    | String c _ =>
      if Ascii.eqb c "?" || Ascii.eqb c "+" || Ascii.eqb c "*" || Ascii.eqb c "{"
      then None else Some (q, s')
    | "" => Some (q, s')
    end in
  match s with
  | String "*" s' => ok (RStar r) s'
  | String "+" s' => ok (RSeq r (RStar r)) s'
  | String "?" s' => ok (ROpt r) s'
  | String "{" _ => None
  | _ => Some (r, s)
  end.

Fixpoint parse_alt (fuel : nat) (s : string) (st : pstate)
  : option (regex * string * pstate) :=
  match fuel with
  | O => None
  | S f =>
    match parse_seq f s st with
    | Some (r1, String "|" s', st') =>
      match parse_alt f s' st' with
      | Some (r2, s'', st'') => Some (RAlt r1 r2, s'', st'')
      | None => None
      end
    | other => other
    end
  end
with parse_seq (fuel : nat) (s : string) (st : pstate)
  : option (regex * string * pstate) :=
  match fuel with
  | O => None
  | S f =>
    match s with
    | "" => Some (REps, s, st)
    | String c _ =>
      if Ascii.eqb c "|" || Ascii.eqb c ")" then Some (REps, s, st)
      else
        match parse_atom f s st with
        | Some (a, s1, st1) =>
          match parse_quant a s1 with
          | Some (q, s2) =>
            match parse_seq f s2 st1 with
            | Some (REps, s3, st3) => Some (q, s3, st3)
            | Some (r, s3, st3) => Some (RSeq q r, s3, st3)
            | None => None
            end
          | None => None
          end
        | None => None
        end
    end
  end
with parse_atom (fuel : nat) (s : string) (st : pstate)
  : option (regex * string * pstate) :=
  match fuel with
  | O => None
  | S f =>
    match s with
    | "" => None
    | String "(" (String "?" (String "P" (String "<" s1))) =>
      match parse_name s1 "" with
      | Some (name, s2) =>
        let idx := ps_next st in
        let st1 := {| ps_next := S idx; ps_names := ps_names st ++ [(name, idx)] |} in
        match parse_alt f s2 st1 with
        | Some (r, String ")" s3, st2) => Some (RGroup idx r, s3, st2)
        | _ => None
        end
      | None => None
      end
    | String "(" (String "?" (String ":" s1)) =>
      match parse_alt f s1 st with
      | Some (r, String ")" s2, st1) => Some (r, s2, st1)
      | _ => None
      end
    | String "(" (String "?" _) => None
    | String "(" s1 =>
      let idx := ps_next st in
      let st1 := {| ps_next := S idx; ps_names := ps_names st |} in
      match parse_alt f s1 st1 with
      | Some (r, String ")" s2, st2) => Some (RGroup idx r, s2, st2)
      | _ => None
      end
    | String "[" (String "^" s1) =>
      match parse_set_items s1 true [] with
      | Some (items, s2) => Some (RSet true items, s2, st)
      | None => None
      end
    | String "[" s1 =>
      match parse_set_items s1 true [] with
      | Some (items, s2) => Some (RSet false items, s2, st)
      | None => None
      end
    | String "\" (String e s1) =>
      match parse_escape e with
      | Some i => Some (item_regex i, s1, st)
      | None => None
      end
    | String "\" "" => None
    | String "." s1 => Some (RAny, s1, st)
    | String c s1 =>
      if Ascii.eqb c "*" || Ascii.eqb c "+" || Ascii.eqb c "?" || Ascii.eqb c "{"
         || Ascii.eqb c "^" || Ascii.eqb c "$"
      then None
      else Some (RChr c, s1, st)
    end
  end.

(** [re.compile(p)]; [None] stands for a pattern that is malformed or
    outside the subset. Group 0 is the whole match. *)
Definition compile (p : string) : option pattern :=
  match parse_alt (4 * String.length p + 8) p {| ps_next := 1; ps_names := [] |} with
  | Some (r, "", st) =>
    Some {| p_regex := r; p_groups := ps_next st - 1; p_names := ps_names st |}
  | _ => None
  end.

(** *** Matching *)

Definition item_matches (i : set_item) (c : ascii) : bool :=
  match i with
  | IChar d => Ascii.eqb d c
  | IRange lo hi => ((Py.ord lo <=? Py.ord c) && (Py.ord c <=? Py.ord hi))%N
  | ISpace => Py.isspace c
  | INotSpace => negb (Py.isspace c)
  | IWord => Py.isword c
  | INotWord => negb (Py.isword c)
  | IDigit => Py.isdecimal c
  | INotDigit => negb (Py.isdecimal c)
  end.

Definition set_matches (negated : bool) (items : list set_item) (c : ascii) : bool :=
  xorb negated (existsb (fun i => item_matches i c) items).

(** The text of the capturing groups 1, 2, ... in this order; [None] for
    a group that took no part in the match. *)
Definition captures := list (option string).

Fixpoint set_capture (idx : nat) (v : string) (caps : captures) : captures :=
  match idx, caps with
  | O, _ :: t => Some v :: t
  | O, [] => [Some v]
  | S i, h :: t => h :: set_capture i v t
  | S i, [] => None :: set_capture i v []
  end.

Section Matcher.
Context {R : Type}.

(** The greedy repetition of [body], which matches one more occurrence
    and hands over to its continuation: as many occurrences as possible,
    then the rest by [k]. An occurrence that matched the empty text is
    not followed by another one. [n] bounds the number of occurrences. *)
Fixpoint star_loop
         (body : string -> captures -> (string -> captures -> option R) -> option R)
         (k : string -> captures -> option R)
         (n : nat) (s : string) (caps : captures) {struct n} : option R :=
  match n with
  | O => k s caps
  | S n' =>
    match body s caps
            (fun s' caps' =>
               if String.length s' <? String.length s
               then star_loop body k n' s' caps' else k s' caps') with
    | Some x => Some x
    | None => k s caps
    end
  end.

(** [rmatch r s caps k]: match [r] at the front of [s], then hand the
    rest of the text and the captures to [k]; the alternatives are tried
    in the order of a backtracking matcher (left branch first, longest
    repetition first), and the first one that [k] accepts wins. *)
Fixpoint rmatch (r : regex) (s : string) (caps : captures)
         (k : string -> captures -> option R) {struct r} : option R :=
  match r with
  | REps => k s caps
  | RChr c =>
    match s with
    | String d s' => if Ascii.eqb c d then k s' caps else None
    | "" => None
    end
  | RAny =>
    match s with
    | String d s' => if Ascii.eqb d (ascii_of_nat 10) then None else k s' caps
    | "" => None
    end
  | RSet negated items =>
    match s with
    | String d s' => if set_matches negated items d then k s' caps else None
    | "" => None
    end
  | RSeq r1 r2 => rmatch r1 s caps (fun s' caps' => rmatch r2 s' caps' k)
  | RAlt r1 r2 =>
    match rmatch r1 s caps k with
    | Some x => Some x
    | None => rmatch r2 s caps k
    end
  | ROpt r1 =>
    match rmatch r1 s caps k with
    | Some x => Some x
    | None => k s caps
    end
  | RStar r1 => star_loop (rmatch r1) k (S (String.length s)) s caps
  | RGroup idx r1 =>
    rmatch r1 s caps
      (fun s' caps' =>
         k s' (set_capture (idx - 1)
                 (Py.take (String.length s - String.length s') s) caps'))
  end.
End Matcher.

(** A match object: where the match starts, its text (group 0) and the
    groups 1, 2, ... *)
Record rematch := {
  m_start : nat;
  m_text : string;
  m_groups : list (option string);
  m_names : list (string * nat)
}.

(** [pattern.match(s)] at offset [pos] of the searched text, [s] being
    the text from that offset on. With [must_advance] a match that ends
    where it starts is refused and the matcher backtracks. *)
Definition match_at (p : pattern) (must_advance : bool) (pos : nat) (s : string)
  : option rematch :=
  rmatch (p_regex p) s (repeat None (p_groups p))
    (fun s' caps =>
       if must_advance && (String.length s' =? String.length s) then None
       else
         Some {| m_start := pos;
                 m_text := Py.take (String.length s - String.length s') s;
                 m_groups := caps;
                 m_names := p_names p |}).

(** [pattern.search(s)]: the leftmost match; [must_advance] bears on the
    first place only. *)
Fixpoint search_from (p : pattern) (must_advance : bool) (pos : nat) (s : string)
  : option rematch :=
  match match_at p must_advance pos s with
  | Some m => Some m
  | None =>
    match s with
    | "" => None
    | String _ s' => search_from p false (S pos) s'
    end
  end.

(** [pattern.finditer(s)]: the matches from left to right, each search
    starting where the last match ended; after an empty match the next
    one must advance. *)
Fixpoint finditer_fuel (fuel : nat) (p : pattern) (must_advance : bool)
         (pos : nat) (s : string) : list rematch :=
  match fuel with
  | O => []
  | S f =>
    match search_from p must_advance pos s with
    | None => []
    | Some m =>
      let len := String.length (m_text m) in
      let adv := (m_start m - pos) + len in
      m :: finditer_fuel f p (len =? 0) (pos + adv) (Py.drop adv s)
    end
  end.

Definition finditer (p : pattern) (s : string) : list rematch :=
  finditer_fuel (2 * String.length s + 2) p false 0 s.

(** [m.group(i)] for [i >= 1], with [findall]'s reading of a group that
    took no part in the match: the empty string. *)
Definition group (m : rematch) (i : nat) : string :=
  match nth_error (m_groups m) (i - 1) with
  | Some (Some v) => v
  | _ => ""
  end.

(** [m.groupdict()[name]]; [None] when the pattern has no such group or
    the group took no part in the match. *)
Definition groupdict (m : rematch) (name : string) : option string :=
  match List.find (fun e => String.eqb (fst e) name) (m_names m) with
  | Some (_, i) =>
    match nth_error (m_groups m) (i - 1) with
    | Some v => v
    | None => None
    end
  | None => None
  end.

End Re.

(** ** Exceptions *)

(** The exceptions that the code raises. An [IOError] of [readTimeDate]
    carries the start of its message and the application name that the
    message goes on with. *)
Inductive exn :=
| AssertionError (msg : string)
| IOError (msg : string) (an : string)
| ValueError (msg : string)
| KeyError (key : string)
| IndexError
| TypeError
| AttributeError
| Exception (msg : string)
| InvalidVersion (text : string)
| ReError (pattern : string).

Inductive result (A : Type) :=
| Ok (a : A)
| Err (e : exn).
Arguments Ok {A} a.
Arguments Err {A} e.

Definition bind {A B : Type} (m : result A) (k : A -> result B) : result B :=
  match m with
  | Ok a => k a
  | Err e => Err e
  end.

Notation "x <- m ;; k" := (bind m (fun x => k))
  (at level 100, m at next level, right associativity).

(** [raise e]. *)
Definition raise {A : Type} (e : exn) : result A := Err e.

(** [assert c, msg]. *)
Definition assert (c : bool) (msg : string) : result unit :=
  if c then Ok tt else Err (AssertionError msg).

(** An expression statement: the value is built and dropped. *)
Definition discard {A : Type} (x : A) : result unit := Ok tt.

(** [[f(x) for x in l]], stopping at the first exception. *)
Fixpoint mapM {A B : Type} (f : A -> result B) (l : list A) : result (list B) :=
  match l with
  | [] => Ok []
  | x :: t => y <- f x ;; ys <- mapM f t ;; Ok (y :: ys)
  end.

(** [for x in l: s = body(x, s)], stopping at the first exception. *)
Fixpoint foldM {A S : Type} (body : A -> S -> result S) (l : list A) (s : S)
  : result S :=
  match l with
  | [] => Ok s
  | x :: t => s' <- body x s ;; foldM body t s'
  end.

(** The spec's single error kind [FormatError]: the call raises. *)
Definition fails {A : Type} (r : result A) : Prop := exists e, r = Err e.

(** The call returns. *)
Definition succeeds {A : Type} (r : result A) : Prop := exists a, r = Ok a.

(** [succeeds], as a test. *)
Definition is_ok {A : Type} (r : result A) : bool :=
  match r with
  | Ok _ => true
  | Err _ => false
  end.

(** ** [packaging.version.Version] *)

Inductive pre_letter := PreA | PreB | PreRC.

(** A parsed version: epoch, release numbers, pre-release (letter and
    number), post-release number, development-release number, and the
    segments of the local version (numeric or alphanumeric). *)
Record Version := {
  v_epoch : N;
  v_release : list N;
  v_pre : option (pre_letter * N);
  v_post : option N;
  v_dev : option N;
  v_local : option (list (N + string))
}.

(** [Version("a.b.c")] for a plain release. *)
Definition release (l : list N) : Version :=
  {| v_epoch := 0; v_release := l; v_pre := None; v_post := None;
     v_dev := None; v_local := None |}.

(** A value between the library's [NegativeInfinity] and [Infinity]. *)
Inductive ext (A : Type) := NegInf | Fin (a : A) | PosInf.
Arguments NegInf {A}.
Arguments Fin {A} a.
Arguments PosInf {A}.

Definition ext_compare {A} (cmp : A -> A -> comparison) (x y : ext A) : comparison :=
  match x, y with
  | NegInf, NegInf => Eq
  | NegInf, _ => Lt
  | _, NegInf => Gt
  | PosInf, PosInf => Eq
  | PosInf, _ => Gt
  | _, PosInf => Lt
  | Fin a, Fin b => cmp a b
  end.

(** Tuples compare lexicographically; a proper prefix is smaller. *)
Fixpoint list_compare {A} (cmp : A -> A -> comparison) (l1 l2 : list A) : comparison :=
  match l1, l2 with
  | [], [] => Eq
  | [], _ :: _ => Lt
  | _ :: _, [] => Gt
  | a :: t1, b :: t2 =>
    match cmp a b with
    | Eq => list_compare cmp t1 t2
    | c => c
    end
  end.

Definition pair_compare {A B} (ca : A -> A -> comparison) (cb : B -> B -> comparison)
           (x y : A * B) : comparison :=
  match ca (fst x) (fst y) with
  | Eq => cb (snd x) (snd y)
  | c => c
  end.

(** The letters are compared as the strings "a", "b", "rc". *)
Definition pre_letter_rank (l : pre_letter) : N :=
  match l with PreA => 0 | PreB => 1 | PreRC => 2 end.

Definition pre_letter_compare (a b : pre_letter) : comparison :=
  N.compare (pre_letter_rank a) (pre_letter_rank b).

(** A local segment's key: [(i, "")] for a number, [(NegativeInfinity, s)]
    for a string. *)
Definition local_seg_key (x : N + string) : ext N * string :=
  match x with
  | inl i => (Fin i, "")
  | inr s => (NegInf, s)
  end.

(** [itertools.dropwhile(lambda x: x == 0, l)]; [_cmpkey] applies it to
    the reversed release, which drops the trailing zeros. *)
Fixpoint strip_leading_zeros (l : list N) : list N :=
  match l with
  | 0%N :: t => strip_leading_zeros t
  | _ => l
  end.

Definition Version_key_t : Type :=
  N * list N * ext (pre_letter * N) * ext N * ext N * ext (list (ext N * string)).

(** [_cmpkey]: the tuple that orders versions. *)
Definition Version_key (v : Version) : Version_key_t :=
  let _release := List.rev (strip_leading_zeros (List.rev (v_release v))) in
  let _pre :=
    match v_pre v, v_post v, v_dev v with
    | None, None, Some _ => NegInf
    | None, _, _ => PosInf
    | Some p, _, _ => Fin p
    end in
  let _post := match v_post v with None => NegInf | Some n => Fin n end in
  let _dev := match v_dev v with None => PosInf | Some n => Fin n end in
  let _local :=
    match v_local v with
    | None => NegInf
    | Some l => Fin (map local_seg_key l)
    end in
  (v_epoch v, _release, _pre, _post, _dev, _local).

Definition Version_key_compare (x y : Version_key_t) : comparison :=
  pair_compare
    (pair_compare
      (pair_compare
        (pair_compare
          (pair_compare N.compare (list_compare N.compare))
          (ext_compare (pair_compare pre_letter_compare N.compare)))
        (ext_compare N.compare))
      (ext_compare N.compare))
    (ext_compare (list_compare (pair_compare (ext_compare N.compare) String.compare)))
    x y.

Definition Version_compare (a b : Version) : comparison :=
  Version_key_compare (Version_key a) (Version_key b).

(** [a == b], [a < b], [a <= b] on versions. *)
Definition Version_eqb (a b : Version) : bool :=
  match Version_compare a b with Eq => true | _ => false end.
Definition Version_ltb (a b : Version) : bool :=
  match Version_compare a b with Lt => true | _ => false end.
Definition Version_leb (a b : Version) : bool :=
  match Version_compare a b with Gt => false | _ => true end.

(** ** [datetime.datetime] and the header's values *)

Record datetime := {
  year : Z; month : Z; day : Z;
  hour : Z; minute : Z; second : Z; microsecond : Z
}.

#[warnings="-register-all"]
Inductive value :=
| VStr (s : string)
| VInt (z : Z)
| VFloat (x : PrimFloat.float)
| VBool (b : bool)
| VList (l : list value)
| VVersion (v : Version)
| VDatetime (d : datetime)
| VNone.

(** [v == s] for a string literal [s]. *)
Definition eq_str (v : value) (s : string) : bool :=
  match v with
  | VStr t => String.eqb t s
  | _ => false
  end.

(** [len(v)]. *)
Definition len (v : value) : result nat :=
  match v with
  | VStr s => Ok (String.length s)
  | VList l => Ok (length l)
  | _ => raise TypeError
  end.

(** ** Library operations taken as parameters

    [float(s)] on a string, [Version(s)] and [datetime.strptime(s, fmt)];
    [None] stands for the exception each raises on a text it rejects
    ([ValueError], [InvalidVersion], [ValueError]). *)
Class PyLib := {
  float_of_str : string -> option PrimFloat.float;
  Version_of_str : string -> option Version;
  strptime : string -> string -> option datetime
}.

(** The enumeration [AcqType] of [neo/rawio/neuralynxrawio/ncssections.py],
    which [nlxheader.py] imports and which is not among the sources, taken
    as a parameter: the members that the classifier names are fields, and
    [AcqType_getitem] is the lookup [AcqType[name]] of a member by its
    name ([None]: no such member, a [KeyError]). *)
Class AcqTypeEnum := {
  AcqType : Type;
  PRE4 : AcqType;
  BML : AcqType;
  DIGITALLYNX : AcqType;
  DIGITALLYNXSX : AcqType;
  CHEETAH64 : AcqType;
  RAWDATAFILE : AcqType;
  CHEETAH560 : AcqType;
  UNKNOWN : AcqType;
  AcqType_getitem : string -> option AcqType
}.

(** ** [class NlxHeader(OrderedDict)] *)

Module NlxHeader.

(** [re.findall(p, s)] and [re.search(p, s)], as match objects. *)
Definition re_findall (p s : string) : result (list Re.rematch) :=
  match Re.compile p with
  | Some c => Ok (Re.finditer c s)
  | None => raise (ReError p)
  end.

Definition re_search (p s : string) : result (option Re.rematch) :=
  match Re.compile p with
  | Some c => Ok (Re.search_from c false 0 s)
  | None => raise (ReError p)
  end.

(** [self[key]]. *)
Definition getitem (self : gmap string value) (key : string) : result value :=
  match self !! key with
  | Some v => Ok v
  | None => raise (KeyError key)
  end.

(** [re.findall(p, v)] for a pattern without groups: the matched texts.
    A value that is not a string is a [TypeError]. *)
Definition findall_in (p : string) (v : value) : result (list string) :=
  match v with
  | VStr s => ms <- re_findall p s ;; Ok (map Re.m_text ms)
  | _ => raise TypeError
  end.

Definition HEADER_SIZE : nat := 2 ^ 14.

(** The third entry of a row of [txt_header_keys]. *)
Inductive converter := to_none | to_float | to_int | _to_bool.

Definition micro : string := String (ascii_of_nat 181) "".

Definition txt_header_keys : list (string * string * converter) := [
  ("AcqEntName", "channel_names", to_none);
  ("FileType", "", to_none);
  ("FileVersion", "", to_none);
  ("RecordSize", "", to_none);
  ("HardwareSubSystemName", "", to_none);
  ("HardwareSubSystemType", "", to_none);
  ("SamplingFrequency", "sampling_rate", to_float);
  ("ADMaxValue", "", to_none);
  ("ADBitVolts", "bit_to_microVolt", to_none);
  ("NumADChannels", "", to_none);
  ("ADChannel", "channel_ids", to_none);
  ("InputRange", "", to_none);
  ("InputInverted", "input_inverted", _to_bool);
  ("DSPLowCutFilterEnabled", "", to_none);
  ("DspLowCutFrequency", "", to_none);
  ("DspLowCutNumTaps", "", to_none);
  ("DspLowCutFilterType", "", to_none);
  ("DSPHighCutFilterEnabled", "", to_none);
  ("DspHighCutFrequency", "", to_none);
  ("DspHighCutNumTaps", "", to_none);
  ("DspHighCutFilterType", "", to_none);
  ("DspDelayCompensation", "", to_none);
  ("DspFilterDelay_" +:+ micro +:+ "s", "", to_none);
  ("DisabledSubChannels", "", to_none);
  ("WaveformLength", "", to_int);
  ("AlignmentPt", "", to_none);
  ("ThreshVal", "", to_none);
  ("MinRetriggerSamples", "", to_none);
  ("SpikeRetriggerTime", "", to_none);
  ("DualThresholding", "", to_none);
  ("Feature \w+ \d+", "", to_none);
  ("SessionUUID", "", to_none);
  ("FileUUID", "", to_none);
  ("CheetahRev", "", to_none);
  ("ProbeName", "", to_none);
  ("OriginalFileName", "", to_none);
  ("TimeCreated", "", to_none);
  ("TimeClosed", "", to_none);
  ("ApplicationName", "", to_none);
  ("AcquisitionSystem", "", to_none);
  ("ReferenceChannel", "", to_none);
  ("NLX_Base_Class_Type", "", to_none)
].

(** One of the dictionaries of [header_pattern_dicts]; an absent key is
    [None]. Every dictionary has [datetime1_regex] and [datetimeformat]. *)
Record DialectSpec := {
  datetime1_regex : string;
  datetime2_regex : option string;
  filename_regex : option string;
  datetimeformat : string;
  datetime2format : option string
}.

Definition bml : DialectSpec := {|
  datetime1_regex := "## Time Opened: \(m/d/y\): (?P<date>\S+)  At Time: (?P<time>\S+)";
  datetime2_regex := None;
  filename_regex := Some "## File Name: (?P<filename>\S+)";
  datetimeformat := "%m/%d/%y %H:%M:%S.%f";
  datetime2format := None
|}.

Definition v5_4_0 : DialectSpec := {|
  datetime1_regex := "## Time Opened \(m/d/y\): (?P<date>\S+)  At Time: (?P<time>\S+)";
  datetime2_regex := Some "## Time Closed \(m/d/y\): (?P<date>\S+)  At Time: (?P<time>\S+)";
  filename_regex := Some "## File Name: (?P<filename>\S+)";
  datetimeformat := "%m/%d/%Y %H:%M:%S.%f";
  datetime2format := None
|}.

Definition bv5_6_4 : DialectSpec := {|
  datetime1_regex := "## Time Opened \(m/d/y\): (?P<date>\S+)  \(h:m:s\.ms\) (?P<time>\S+)";
  datetime2_regex := Some "## Time Closed \(m/d/y\): (?P<date>\S+)  \(h:m:s\.ms\) (?P<time>\S+)";
  filename_regex := Some "## File Name (?P<filename>\S+)";
  datetimeformat := "%m/%d/%Y %H:%M:%S.%f";
  datetime2format := None
|}.

Definition neuraview2 : DialectSpec := {|
  datetime1_regex := "## Date Opened: \(mm/dd/yyy\): (?P<date>\S+) At Time: (?P<time>\S+)";
  datetime2_regex := Some "## Date Closed: \(mm/dd/yyy\): (?P<date>\S+) At Time: (?P<time>\S+)";
  filename_regex := Some "## File Name: (?P<filename>\S+)";
  datetimeformat := "%m/%d/%Y %H:%M:%S";
  datetime2format := None
|}.

Definition inProps : DialectSpec := {|
  datetime1_regex := "-TimeCreated (?P<date>\S+) (?P<time>\S+)";
  datetime2_regex := Some "-TimeClosed (?P<date>\S+) (?P<time>\S+)";
  filename_regex :=
    Some ("-OriginalFileName " +:+ Py.dquote +:+ "?(?P<filename>\S+)" +:+ Py.dquote +:+ "?");
  datetimeformat := "%Y/%m/%d %H:%M:%S";
  datetime2format := Some "%Y/%m/%d %H:%M:%S.%f"
|}.

Definition inHeader : DialectSpec := {|
  datetime1_regex := "## Time Opened: \(m/d/y\): (?P<date>\S+)  At Time: (?P<time>\S+)";
  datetime2_regex := None;
  filename_regex := None;
  datetimeformat := "%m/%d/%y %H:%M:%S.%f";
  datetime2format := None
|}.

(** The class attribute [header_pattern_dicts], keyed by the
    abbreviation of the style. *)
Definition header_pattern_dicts : list (string * DialectSpec) := [
  ("bml", bml);
  ("v5.4.0", v5_4_0);
  ("bv5.6.4", bv5_6_4);
  ("neuraview2", neuraview2);
  ("inProps", inProps);
  ("inHeader", inHeader)
].

(** [NlxHeader.header_pattern_dicts[key]]. *)
Definition hpd_getitem (key : string) : result DialectSpec :=
  match List.find (fun e => String.eqb (fst e) key) header_pattern_dicts with
  | Some (_, d) => Ok d
  | None => raise (KeyError key)
  end.

(** The pattern that [read_properties] builds for the key [k1] of a row. *)
Definition prop_pattern (k1 : string) : string :=
  "-(?P<name>" +:+ k1 +:+ ")\s+(?P<value>[\S ]*)".

Section Methods.
Context `{PyLib}.

(** [type_(value)] for the converter of a row. *)
Definition convert (type_ : converter) (text : string) : result value :=
  match type_ with
  | to_none => Ok (VStr text)
  | to_float =>
    match float_of_str text with
    | Some x => Ok (VFloat x)
    | None => raise (ValueError "could not convert string to float")
    end
  | to_int =>
    match Py.int text with
    | Some z => Ok (VInt z)
    | None => raise (ValueError "invalid literal for int()")
    end
  | _to_bool =>
    if String.eqb text "True" then Ok (VBool true)
    else if String.eqb text "False" then Ok (VBool false)
    else raise (Exception "Can not convert to bool")
  end.

(** The body of the inner loop of [read_properties], for one match of
    the pattern of the row [(k1, k2, type_)]. *)
Definition read_match (k2 : string) (type_ : converter)
           (match_ : Re.rematch) (self : gmap string value)
  : result (gmap string value) :=
  let name := if String.eqb k2 "" then Re.group match_ 1 else k2 in
  let text := Py.rstrip_char " " (Re.group match_ 2) in
  converted <- convert type_ text ;;
  Ok (<[name := converted]> self).

(** The body of the outer loop of [read_properties], for one row. *)
Definition read_key (txt_header : string) (row : string * string * converter)
           (self : gmap string value) : result (gmap string value) :=
  let '(k1, k2, type_) := row in
  let pattern := prop_pattern k1 in
  matches <- re_findall pattern txt_header ;;
  foldM (read_match k2 type_) matches self.

Definition read_properties (filename txt_header : string)
           (self : gmap string value) : result (gmap string value) :=
  foldM (read_key txt_header) txt_header_keys self.

Definition setInputRanges (numChidEntries : nat) (self : gmap string value)
  : result (gmap string value) :=
  match self !! "InputRange" with
  | Some v =>
    ir_entries <- findall_in "\w+" v ;;
    let to_int_value (e : string) : result value :=
      match Py.int e with
      | Some z => Ok (VInt z)
      | None => raise (ValueError "invalid literal for int()")
      end in
    range <-
      match ir_entries with
      | [e] => x <- to_int_value e ;; Ok (repeat x numChidEntries)
      | _ => mapM to_int_value ir_entries
      end ;;
    let self := <["InputRange" := VList range]> self in
    _ <- assert (length range =? numChidEntries)
           "Number of channel ids does not match input range values." ;;
    Ok self
  | None => Ok self
  end.

Definition setBitToMicroVolt (self : gmap string value)
  : result (gmap string value) :=
  match self !! "bit_to_microVolt" with
  | Some v =>
    btm_entries <- findall_in "\S+" v ;;
    btm_entries <-
      match btm_entries with
      | [_] =>
        ids <- getitem self "channel_ids" ;;
        n <- len ids ;;
        Ok (concat (repeat btm_entries n))
      | _ => Ok btm_entries
      end ;;
    scaled <-
      mapM (fun e =>
              match float_of_str e with
              | Some x => Ok (VFloat (PrimFloat.mul x 1e6))
              | None => raise (ValueError "could not convert string to float")
              end) btm_entries ;;
    let self := <["bit_to_microVolt" := VList scaled]> self in
    ids <- getitem self "channel_ids" ;;
    n <- len ids ;;
    _ <- assert (length scaled =? n)
           "Number of channel ids does not match bit_to_microVolt conversion factors." ;;
    Ok self
  | None => Ok self
  end.

(** [s in v] and [v.replace(old, new)], for a string [v]. *)
Definition str_of (v : value) : result string :=
  match v with
  | VStr s => Ok s
  | _ => raise TypeError
  end.

Definition setApplicationAndVersion (self : gmap string value)
  : result (gmap string value) :=
  named <-
    match self !! "CheetahRev" with
    | Some rev =>
      _ <- assert (negb (bool_decide (is_Some (self !! "ApplicationName")))) "" ;;
      Ok (<["ApplicationName" := VStr "Cheetah"]> self, rev)
    | None =>
      match self !! "ApplicationName" with
      | Some v =>
        let pattern := "(\S*) " +:+ Py.dquote +:+ "([\S ]*)" +:+ Py.dquote in
        s <- str_of v ;;
        match_ <- re_findall pattern s ;;
        _ <- assert (length match_ =? 1)
               "impossible to find application name and version" ;;
        match match_ with
        | m :: _ =>
          Ok (<["ApplicationName" := VStr (Re.group m 1)]> self, VStr (Re.group m 2))
        | [] => raise IndexError
        end
      | None =>
        match self !! "NLX_Base_Class_Type" with
        | Some _ => Ok (<["ApplicationName" := VStr "BML"]> self, VStr "2.0")
        | None => Ok (<["ApplicationName" := VStr "Neuraview"]> self, VStr "2")
        end
      end
    end ;;
  let '(self, app_version) := named in
  app_version <- str_of app_version ;;
  let app_version :=
    if Py.contains app_version " Development"
    then Py.replace app_version " Development" ".dev0"
    else app_version in
  match Version_of_str app_version with
  | Some v => Ok (<["ApplicationVersion" := VVersion v]> self)
  | None => raise (InvalidVersion app_version)
  end.

(** Returns the header and the number of channel id entries. The local
    [name] that the source derives from [filename] is never used. *)
Definition convert_channel_ids_names (filename : string)
           (self : gmap string value) : result (gmap string value * nat) :=
  converted <-
    match self !! "channel_ids" with
    | Some v =>
      chid_entries <- findall_in "\S+" v ;;
      ids <- mapM (fun c =>
                     match Py.int c with
                     | Some z => Ok (VInt z)
                     | None => raise (ValueError "invalid literal for int()")
                     end) chid_entries ;;
      Ok (<["channel_ids" := VList ids]> self, chid_entries)
    | None => Ok (<["channel_ids" := VList [VStr "unknown"]]> self, [])
    end ;;
  let '(self, chid_entries) := converted in
  self <-
    match self !! "channel_names" with
    | Some v =>
      name_entries <- findall_in "\S+" v ;;
      self <-
        match name_entries with
        | [_] =>
          ids <- getitem self "channel_ids" ;;
          n <- len ids ;;
          Ok (<["channel_names" := VList (map VStr (concat (repeat name_entries n)))]> self)
        | _ => Ok self
        end ;;
      names <- getitem self "channel_names" ;;
      n1 <- len names ;;
      ids <- getitem self "channel_ids" ;;
      n2 <- len ids ;;
      _ <- assert (n1 =? n2) "Number of channel ids does not match channel names." ;;
      Ok self
    | None =>
      ids <- getitem self "channel_ids" ;;
      n <- len ids ;;
      Ok (<["channel_names" := VList (repeat (VStr "unknown") n)]> self)
    end ;;
  Ok (self, length chid_entries).

(** [v] as the left operand of a comparison with a [Version]: any other
    value makes the comparison a [TypeError]. *)
Definition version_of (v : value) : result Version :=
  match v with
  | VVersion x => Ok x
  | _ => raise TypeError
  end.

(** The first statement of [readTimeDate] (the [if]/[elif] chain on the
    application name and version): the name [an] that the messages use
    and the chosen dictionary [hpd]. *)
Definition select_hpd (self : gmap string value) : result (string * DialectSpec) :=
  an <- getitem self "ApplicationName" ;;
  if eq_str an "Cheetah" then
    av <- getitem self "ApplicationVersion" ;;
    av <- version_of av ;;
    hpd <-
      (if Version_leb av (release [2%N]) then hpd_getitem "bv5.6.4"
       else if Version_ltb av (release [5%N]) then hpd_getitem "inHeader"
       else if Version_leb av (release [5%N; 4%N; 0%N]) then hpd_getitem "v5.4.0"
       else if Version_eqb av (release [5%N; 6%N; 0%N]) then hpd_getitem "inHeader"
       else if Version_leb av (release [5%N; 6%N; 4%N]) then hpd_getitem "bv5.6.4"
       else hpd_getitem "inProps") ;;
    Ok ("Cheetah", hpd)
  else if eq_str an "BML" then
    hpd <- hpd_getitem "inHeader" ;; Ok ("BML", hpd)
  else if eq_str an "Neuraview" then
    hpd <- hpd_getitem "neuraview2" ;; Ok ("Neuraview", hpd)
  else if eq_str an "Pegasus" then
    hpd <- hpd_getitem "inProps" ;; Ok ("Pegasus", hpd)
  else
    hpd <- hpd_getitem "inProps" ;; Ok ("Unknown", hpd).

(** [datetime.datetime.strptime(dt["date"] + " " + dt["time"], fmt)] in
    a [try] whose [except] catches everything: [None] when a key is
    missing or the text does not parse. *)
Definition try_strptime (sr : Re.rematch) (fmt : option string) : option datetime :=
  match Re.groupdict sr "date", Re.groupdict sr "time", fmt with
  | Some d, Some t, Some f => strptime (d +:+ " " +:+ t) f
  | _, _, _ => None
  end.

Definition of_datetime (d : option datetime) : value :=
  match d with
  | Some x => VDatetime x
  | None => VNone
  end.

Definition open_msg : string := "No matching header open date/time".
Definition close_msg : string := "No matching header close date/time".

Definition readTimeDate (txt_header : string) (self : gmap string value)
  : result (gmap string value) :=
  selected <- select_hpd self ;;
  let '(an, hpd) := selected in
  (* opening time *)
  sr <- re_search (datetime1_regex hpd) txt_header ;;
  self <-
    match sr with
    | None => raise (IOError open_msg an)
    | Some sr =>
      Ok (<["recording_opened" :=
             match try_strptime sr (Some (datetimeformat hpd)) with
             | Some d => VDatetime d
             | None => of_datetime (try_strptime sr (datetime2format hpd))
             end]> self)
    end ;;
  (* close time, if available *)
  match datetime2_regex hpd with
  | Some regex =>
    sr <- re_search regex txt_header ;;
    match sr with
    | None => raise (IOError close_msg an)
    | Some sr =>
      Ok (<["recording_closed" :=
             of_datetime (try_strptime sr (Some (datetimeformat hpd)))]> self)
    end
  | None => Ok self
  end.

(** [NlxHeader(filename, props_only)], [file] being the bytes of the
    file of that name. Decoding as Latin-1 maps each byte to the
    character of the same code. *)
Definition __init__ (filename : string) (file : string) (props_only : bool)
  : result (gmap string value) :=
  let self : gmap string value := ∅ in
  let txt_header := Py.take HEADER_SIZE file in
  let txt_header := Py.strip_char (ascii_of_nat 0) txt_header in
  (* must start with 8 # characters *)
  _ <- (if negb props_only && negb (Py.startswith txt_header "########")
        then discard (ValueError "Neuralynx files must start with 8 # characters.")
        else Ok tt) ;;
  self <- read_properties filename txt_header self ;;
  converted <- convert_channel_ids_names filename self ;;
  let '(self, numChidEntries) := converted in
  self <- setApplicationAndVersion self ;;
  self <- setBitToMicroVolt self ;;
  self <- setInputRanges numChidEntries self ;;
  if negb props_only then readTimeDate txt_header self else Ok self.

Section Classifier.
Context `{AcqTypeEnum}.

Definition type_of_recording (self : gmap string value) : result AcqType :=
  match self !! "NLX_Base_Class_Type" with
  | Some base =>
    if eq_str base "CscAcqEnt" then Ok PRE4
    else if eq_str base "BmlAcq" then Ok BML
    else Ok UNKNOWN
  | None =>
    match self !! "HardwareSubSystemType" with
    | Some hw =>
      if eq_str hw "DigitalLynx" then Ok DIGITALLYNX
      else if eq_str hw "DigitalLynxSX" then Ok DIGITALLYNXSX
      else if eq_str hw "Cheetah64" then Ok CHEETAH64
      else if eq_str hw "RawDataFile" then Ok RAWDATAFILE
      else Ok UNKNOWN
    | None =>
      match self !! "FileType" with
      | Some _ =>
        let listed :=
          match self !! "FileVersion" with
          | Some fv => eq_str fv "3.2" || eq_str fv "3.3" || eq_str fv "3.4"
          | None => false
          end in
        if listed then
          sys <- getitem self "AcquisitionSystem" ;;
          sys <- match sys with
                 | VStr s => Ok s
                 | _ => raise AttributeError
                 end ;;
          match Py.split sys with
          | _ :: tok :: _ =>
            match Py.upper tok with
            | Some name =>
              match AcqType_getitem name with
              | Some t => Ok t
              | None => raise (KeyError name)
              end
            | None => raise (KeyError tok)
            end
          | _ => raise IndexError
          end
        else Ok CHEETAH560
      | None => Ok UNKNOWN
      end
    end
  end.
End Classifier.
End Methods.

End NlxHeader.

(** ** A reference implementation of the library operations

    Used to run the model on concrete headers. [strptime] follows
    CPython's [_strptime]: the format is turned into a pattern, the text
    must match it entirely, and the fields must make a valid date. The
    directives are those of the formats of [header_pattern_dicts].
    [Version_of_str] reads a release [N(.N)*] with an optional [.devN]
    suffix, and [float_of_str] a decimal literal with an optional
    exponent, rounded to the nearest binary64 value; neither is meant for
    the other texts that the library accepts. *)

Module Ref.

(** *** [strptime] *)

Definition directive_regex (c : ascii) : option string :=
  if Ascii.eqb c "d" then Some "(?P<d>3[0-1]|[1-2]\d|0[1-9]|[1-9]| [1-9])"
  else if Ascii.eqb c "f" then Some "(?P<f>[0-9][0-9]?[0-9]?[0-9]?[0-9]?[0-9]?)"
  else if Ascii.eqb c "H" then Some "(?P<H>2[0-3]|[0-1]\d|\d)"
  else if Ascii.eqb c "m" then Some "(?P<m>1[0-2]|0[1-9]|[1-9])"
  else if Ascii.eqb c "M" then Some "(?P<M>[0-5]\d|\d)"
  else if Ascii.eqb c "S" then Some "(?P<S>6[0-1]|[0-5]\d|\d)"
  else if Ascii.eqb c "y" then Some "(?P<y>\d\d)"
  else if Ascii.eqb c "Y" then Some "(?P<Y>\d\d\d\d)"
  else None.

(** The pattern of a format: directives become groups, a run of
    whitespace becomes [\s+], any other character stands for itself. *)
Fixpoint format_pattern (fmt : string) : option string :=
  match fmt with
  | "" => Some ""
  | String "%" (String c rest) =>
    match directive_regex c, format_pattern rest with
    | Some d, Some p => Some (d +:+ p)
    | _, _ => None
    end
  | String c rest =>
    match format_pattern rest with
    | Some p =>
      if Py.isspace c
      then (if Py.startswith p "\s+" then Some p else Some ("\s+" +:+ p))
      else if Py.isword c then Some (String c p)
      else Some (String "\" (String c p))
    | None => None
    end
  end.

Definition field (m : Re.rematch) (name : string) (default : Z) : Z :=
  match Re.groupdict m name with
  | Some s => match Py.int s with Some z => z | None => default end
  | None => default
  end.

Definition is_leap (y : Z) : bool :=
  ((y mod 4 =? 0) && (negb (y mod 100 =? 0) || (y mod 400 =? 0)))%Z.

Definition days_in_month (y m : Z) : Z :=
  (if m =? 2 then (if is_leap y then 29 else 28)
   else if (m =? 4) || (m =? 6) || (m =? 9) || (m =? 11) then 30
   else 31)%Z.

Definition pad6 (s : string) : string :=
  s +:+ Py.take (6 - String.length s) "000000".

Definition strptime (text fmt : string) : option datetime :=
  match format_pattern fmt with
  | None => None
  | Some p =>
    match Re.compile p with
    | None => None
    | Some c =>
      match Re.match_at c false 0 text with
      | None => None
      | Some m =>
        if negb (String.length (Re.m_text m) =? String.length text) then None
        else
          let y :=
            match Re.groupdict m "Y", Re.groupdict m "y" with
            | Some _, _ => field m "Y" 1900
            | None, Some _ =>
              let yy := field m "y" 0 in
              (if yy <=? 68 then 2000 + yy else 1900 + yy)%Z
            | None, None => 1900%Z
            end in
          let us :=
            match Re.groupdict m "f" with
            | Some s => match Py.int (pad6 s) with Some z => z | None => 0%Z end
            | None => 0%Z
            end in
          let d := {| year := y; month := field m "m" 1; day := field m "d" 1;
                      hour := field m "H" 0; minute := field m "M" 0;
                      second := field m "S" 0; microsecond := us |} in
          if ((1 <=? y) && (y <=? 9999)
              && (day d <=? days_in_month y (month d))
              && (second d <=? 59))%Z
          then Some d else None
      end
    end
  end.

(** *** [Version] *)

Fixpoint digits (s : string) (acc : N) (seen : bool) : option N * string :=
  match s with
  | String c s' =>
    if Py.isdecimal c then digits s' (10 * acc + (Py.ord c - 48))%N true
    else ((if seen then Some acc else None), s)
  | "" => ((if seen then Some acc else None), s)
  end.

Fixpoint release_segments (fuel : nat) (s : string) (acc : list N)
  : option (list N * string) :=
  match fuel with
  | O => None
  | S f =>
    match digits s 0%N false with
    | (Some n, String "." rest) =>
      match digits rest 0%N false with
      | (Some _, _) => release_segments f rest (acc ++ [n])%list
      | (None, _) => Some ((acc ++ [n])%list, String "." rest)
      end
    | (Some n, rest) => Some ((acc ++ [n])%list, rest)
    | (None, _) => None
    end
  end.

Definition Version_of_str (text : string) : option Version :=
  match release_segments (S (String.length text)) (Py.strip_space text) [] with
  | Some (rel, "") => Some (release rel)
  | Some (rel, rest) =>
    if Py.startswith rest ".dev" then
      match digits (Py.drop 4 rest) 0%N false with
      | (Some n, "") =>
        Some {| v_epoch := 0; v_release := rel; v_pre := None; v_post := None;
                v_dev := Some n; v_local := None |}
      | _ => None
      end
    else None
  | None => None
  end.

(** *** [float] *)

Fixpoint digit_run (s : string) (acc : N) (count : nat) : N * nat * string :=
  match s with
  | String c s' =>
    if Py.isdecimal c then digit_run s' (10 * acc + (Py.ord c - 48))%N (S count)
    else (acc, count, s)
  | "" => (acc, count, s)
  end.

Definition exponent (s : string) : option Z :=
  match s with
  | "" => Some 0%Z
  | String c s' =>
    if Ascii.eqb c "e" || Ascii.eqb c "E" then
      match s' with
      | String "-" s'' =>
        match digits s'' 0%N false with
        | (Some n, "") => Some (- Z.of_N n)%Z
        | _ => None
        end
      | String "+" s'' =>
        match digits s'' 0%N false with
        | (Some n, "") => Some (Z.of_N n)
        | _ => None
        end
      | _ =>
        match digits s' 0%N false with
        | (Some n, "") => Some (Z.of_N n)
        | _ => None
        end
      end
    else None
  end.

(** [m * 10^e], rounded to nearest, ties to even. *)
Definition decimal_to_float (negative : bool) (m : N) (e : Z) : PrimFloat.float :=
  match m with
  | N0 => if negative then (-0)%float else 0%float
  | Npos p =>
    let '(num, den) :=
      if (0 <=? e)%Z then ((p * Z.to_pos (10 ^ e))%positive, 1%positive)
      else (p, Z.to_pos (10 ^ (- e))) in
    FloatOps.SF2Prim
      (SpecFloat.SFdiv FloatOps.prec FloatOps.emax
         (SpecFloat.S754_finite negative num 0)
         (SpecFloat.S754_finite false den 0))
  end.

Definition float_of_str (text : string) : option PrimFloat.float :=
  let s := Py.strip_space text in
  let '(negative, s) :=
    match s with
    | String "-" s' => (true, s')
    | String "+" s' => (false, s')
    | _ => (false, s)
    end in
  let '(int_part, n1, s) := digit_run s 0%N 0 in
  let '(mantissa, n2, s) :=
    match s with
    | String "." s' => digit_run s' int_part 0
    | _ => (int_part, 0, s)
    end in
  if n1 + n2 =? 0 then None
  else
    match exponent s with
    | Some e => Some (decimal_to_float negative mantissa (e - Z.of_nat n2))
    | None => None
    end.

Definition lib : PyLib := Build_PyLib float_of_str Version_of_str strptime.

(** *** [AcqType] *)

(** Modelled from the spec: [AcqType], declared in [ncssections.py] and
    not among the sources. The spec lists the tags legacy-pre-v4, BML,
    DigitalLynx, DigitalLynxSX, Cheetah64, RawDataFile, Cheetah-5.6.0-era
    and Unknown, under the names that the classifier uses, "and
    per-version variants named after the acquisition-system string",
    which it does not name and which are left out. *)

Inductive acq_type :=
| PRE4 | BML | DIGITALLYNX | DIGITALLYNXSX | CHEETAH64 | RAWDATAFILE
| CHEETAH560 | UNKNOWN.

Definition acq_type_names : list (string * acq_type) := [
  ("PRE4", PRE4); ("BML", BML); ("DIGITALLYNX", DIGITALLYNX);
  ("DIGITALLYNXSX", DIGITALLYNXSX); ("CHEETAH64", CHEETAH64);
  ("RAWDATAFILE", RAWDATAFILE); ("CHEETAH560", CHEETAH560);
  ("UNKNOWN", UNKNOWN)
].

Definition acq_type_getitem (name : string) : option acq_type :=
  snd <$> List.find (fun e => String.eqb (fst e) name) acq_type_names.

Definition acq : AcqTypeEnum :=
  Build_AcqTypeEnum acq_type PRE4 BML DIGITALLYNX DIGITALLYNXSX CHEETAH64
    RAWDATAFILE CHEETAH560 UNKNOWN acq_type_getitem.

End Ref.

(** ** Texts of headers *)

(** [c * k]: the text of [k] characters [c]. *)
Fixpoint replicate_char (c : ascii) (k : nat) : string :=
  match k with
  | O => ""
  | S k' => String c (replicate_char c k')
  end.

(** The header block of a file: the text [txt], padded with NUL
    characters, and the records that follow the block. *)
Definition padded (txt : string) (k : nat) (records : string) : string :=
  txt +:+ replicate_char (ascii_of_nat 0) k +:+ records.

(** [name "version"], the form of the [ApplicationName] property. *)
Definition quoted_version (name version : string) : string :=
  name +:+ " " +:+ Py.dquote +:+ version +:+ Py.dquote.

(** [all(P(c) for c in s)]. *)
Fixpoint all_chars (P : ascii -> bool) (s : string) : bool :=
  match s with
  | "" => true
  | String c s' => P c && all_chars P s'
  end.

(** The characters of the class [[\S ]] of [prop_pattern]: anything but
    whitespace other than the space. *)
Definition value_char (c : ascii) : bool :=
  Re.set_matches false [Re.INotSpace; Re.IChar " "] c.

(** A text as [read_properties] stores it: made of characters of the
    class [[\S ]], hence on one line, and with no space at its end. *)
Definition stored_text (t : string) : Prop :=
  all_chars value_char t = true /\ Py.rstrip_char " " t = t.

(** ** Sample headers *)

Module Sample.

(** The text made of the given lines, each ended by a newline. *)
Fixpoint lines (l : list string) : string :=
  match l with
  | [] => ""
  | x :: t => x +:+ Py.newline +:+ lines t
  end.

(** A file of the Neuraview style whose text does not start with the
    eight [#] characters. *)
Definition file_without_marker : string := lines [
  "## File Name: L:\Recording\2015-06-24_18-05-11\Events.nev";
  "## Date Opened: (mm/dd/yyy): 12/14/2015 At Time: 15:58:32";
  "## Date Closed: (mm/dd/yyy): 12/14/2015 At Time: 15:58:32";
  "-FileType Event"
].

(** A file of Cheetah 5.6.3 with four channels. *)
Definition file_cheetah_5_6_3 : string := lines [
  "######## Neuralynx Data File Header";
  "## File Name C:\CheetahData\2016-11-28_21-50-00\CSC1.ncs";
  "## Time Opened (m/d/y): 11/28/2016  (h:m:s.ms) 21:50:33.322";
  "## Time Closed (m/d/y): 11/28/2016  (h:m:s.ms) 22:44:41.145";
  "-CheetahRev 5.6.3 ";
  "-AcqEntName CSC1";
  "-FileType CSC";
  "-SamplingFrequency 32000";
  "-ADBitVolts 0.000000036621093749999997 ";
  "-ADChannel 0 1 2 3";
  "-InputRange 1200 ";
  "-InputInverted True"
].

(** A header with the legacy and the modern application fields. *)
Definition file_both_fields : string := lines [
  "######## Neuralynx Data File Header";
  "-CheetahRev 5.6.3 ";
  "-ApplicationName Cheetah " +:+ Py.dquote +:+ "5.7.4" +:+ Py.dquote;
  "-FileType CSC"
].

(** Headers with an [InputRange] field of one token and no [ADChannel]
    field. *)
Definition file_input_range (token : string) : string := lines [
  "######## Neuralynx Data File Header";
  "-FileType CSC";
  "-InputRange " +:+ token
].

(** Parsed headers of Cheetah 5.4.0, Cheetah 4.0.2, Cheetah 5.6.0 and
    BML, reduced to the entries that [readTimeDate] reads. *)
Definition application (name : string) (version : list N) : gmap string value :=
  <["ApplicationName" := VStr name]>
    (<["ApplicationVersion" := VVersion (release version)]> ∅).

Definition cheetah_5_4_0 : gmap string value := application "Cheetah" [5; 4; 0]%N.
Definition cheetah_4_0_2 : gmap string value := application "Cheetah" [4; 0; 2]%N.
Definition cheetah_5_6_0 : gmap string value := application "Cheetah" [5; 6; 0]%N.
Definition bml_2_0 : gmap string value := application "BML" [2; 0]%N.

(** Header texts: a Cheetah 5.4.0 text with an open line and no close
    line; one with a two-digit year in its open line, and a close line; a
    BML text with its open line; the Cheetah 4.0.2 example of the source,
    whose four-digit year the format of "inHeader" does not parse. *)
Definition text_open_only : string := lines [
  "######## Neuralynx Data File Header";
  "## Time Opened (m/d/y): 1/01/2001  At Time: 0:00:00.000"
].

Definition text_short_year : string := lines [
  "######## Neuralynx Data File Header";
  "## Time Opened (m/d/y): 1/01/01  At Time: 0:00:00.000";
  "## Time Closed (m/d/y): 1/01/2001  At Time: 00:00:00.000"
].

Definition text_bml : string := lines [
  "######## Neuralynx Data File Header";
  "## File Name: null";
  "## Time Opened: (m/d/y): 12/11/15  At Time: 11:37:39.000"
].

Definition text_cheetah_4_0_2 : string := lines [
  "######## Neuralynx Data File Header";
  "## File Name: D:\Cheetah_Data\2003-10-4_10-2-58\CSC14.Ncs";
  "## Time Opened: (m/d/y): 10/4/2003  At Time: 10:3:0.578"
].

(** Parsed headers for the classifier and the bit-to-microvolt pass. *)
Definition both_markers : gmap string value :=
  <["NLX_Base_Class_Type" := VStr "CscAcqEnt"]>
    (<["HardwareSubSystemType" := VStr "DigitalLynxSX"]> ∅).

Definition acquisition_system (system : string) : gmap string value :=
  <["FileType" := VStr "NCS"]>
    (<["FileVersion" := VStr "3.3"]>
       (<["AcquisitionSystem" := VStr system]> ∅)).

Definition one_factor_four_channels : gmap string value :=
  <["bit_to_microVolt" := VStr "0.000000036621093749999997"]>
    (<["channel_ids" := VList [VInt 0; VInt 1; VInt 2; VInt 3]]> ∅).

(** A header whose [InputInverted] value is no boolean. *)
Definition file_rejected_value : string := lines [
  "######## Neuralynx Data File Header";
  "-InputInverted Maybe"
].

(** A header text without properties. *)
Definition file_without_properties : string := lines [
  "######## Neuralynx Data File Header";
  "## File Name: null"
].

(** A header text whose [ProbeName] has no value. *)
Definition text_empty_value : string :=
  "######## Neuralynx Data File Header" +:+ Py.newline
  +:+ "-ProbeName " +:+ Py.newline
  +:+ "-OriginalFileName CSC1.ncs" +:+ Py.newline.

(** Headers as [read_properties] leaves them, reduced to the channel
    fields, to the application name, to a conversion factor without
    channel ids, and to an input range. *)
Definition channel_fields (ids names : string) : gmap string value :=
  <["channel_ids" := VStr ids]> (<["channel_names" := VStr names]> ∅).

Definition channel_ids_only (ids : string) : gmap string value :=
  <["channel_ids" := VStr ids]> ∅.

Definition application_name (name version : string) : gmap string value :=
  <["ApplicationName" := VStr (quoted_version name version)]> ∅.

Definition factor_only : gmap string value :=
  <["bit_to_microVolt" := VStr "0.000000036621093749999997"]> ∅.

Definition input_range (text : string) : gmap string value :=
  <["InputRange" := VStr text]> ∅.

(** A header of file version 3.3 without [AcquisitionSystem], and one of
    file version 3.1. *)
Definition file_version (version : string) : gmap string value :=
  <["FileType" := VStr "NCS"]> (<["FileVersion" := VStr version]> ∅).

(** A Pegasus header text whose close time has a fraction of a second. *)
Definition text_pegasus : string := lines [
  "######## Neuralynx Data File Header";
  "-TimeCreated 2019/06/28 17:36:50";
  "-TimeClosed 2019/06/28 17:45:48.250"
].

End Sample.

(** ** Shapes of compiled patterns *)

(** The capture slots that an expression writes: slot [idx - 1] for the
    group number [idx]. *)
Fixpoint slots (r : Re.regex) : list nat :=
  match r with
  | Re.RSeq r1 r2 | Re.RAlt r1 r2 => slots r1 ++ slots r2
  | Re.RStar r1 | Re.ROpt r1 => slots r1
  | Re.RGroup idx r1 => (idx - 1) :: slots r1
  | _ => []
  end.

(** The expression that a text of plain characters compiles to. *)
Fixpoint lit_regex (l : string) : Re.regex :=
  match l with
  | "" => Re.REps
  | String c "" => Re.RChr c
  | String c l' => Re.RSeq (Re.RChr c) (lit_regex l')
  end.

(** What [prop_pattern k1] compiles to, [name] being the expression of
    [k1]: a dash, the group [name], whitespace, the group [value]. *)
Definition value_regex : Re.regex :=
  Re.RSeq
    (Re.RSeq (Re.RSet false [Re.ISpace]) (Re.RStar (Re.RSet false [Re.ISpace])))
    (Re.RGroup 2 (Re.RStar (Re.RSet false [Re.INotSpace; Re.IChar " "]))).

Definition prop_compiled (name : Re.regex) : Re.pattern :=
  {| Re.p_regex := Re.RSeq (Re.RChr "-") (Re.RSeq (Re.RGroup 1 name) value_regex);
     Re.p_groups := 2;
     Re.p_names := [("name", 1); ("value", 2)] |}.

(** The key under which [read_properties] stores a match of a row. *)
Definition key_of (k2 : string) (match_ : Re.rematch) : string :=
  if String.eqb k2 "" then Re.group match_ 1 else k2.

(** The rows whose key is a text of plain characters: all but the
    "Feature" row. *)
Definition plain_keys : list (string * string * NlxHeader.converter) :=
  List.filter (fun row => negb (String.eqb (fst (fst row)) "Feature \w+ \d+"))
              NlxHeader.txt_header_keys.

(** The key that a row of plain characters stores its matches under. *)
Definition row_key (row : string * string * NlxHeader.converter) : string :=
  if String.eqb (snd (fst row)) "" then fst (fst row) else snd (fst row).

(** On the header text [txt], the row stores some match under the key [n]. *)
Definition assigns (txt : string) (row : string * string * NlxHeader.converter)
           (n : string) : Prop :=
  exists ms m,
    NlxHeader.re_findall (NlxHeader.prop_pattern (fst (fst row))) txt = Ok ms
    /\ In m ms /\ key_of (snd (fst row)) m = n.

(** The expression of a text of plain characters followed by [r]. *)
Fixpoint prefixed (l : string) (r : Re.regex) : Re.regex :=
  match l with
  | "" => r
  | String c l' => Re.RSeq (Re.RChr c) (prefixed l' r)
  end.

(** What the pattern of [setApplicationAndVersion] compiles to. *)
Definition app_compiled : Re.pattern :=
  {| Re.p_regex :=
       Re.RSeq (Re.RGroup 1 (Re.RStar (Re.RSet false [Re.INotSpace])))
         (Re.RSeq (Re.RChr " ")
            (Re.RSeq (Re.RChr (ascii_of_nat 34))
               (Re.RSeq
                  (Re.RGroup 2
                     (Re.RStar (Re.RSet false [Re.INotSpace; Re.IChar " "])))
                  (Re.RChr (ascii_of_nat 34)))));
     Re.p_groups := 2;
     Re.p_names := [] |}.

(** ** Relations between headers *)

(** Every key of [s] is a key of [s']. *)
Definition grows (s s' : gmap string value) : Prop :=
  forall k, is_Some (s !! k) -> is_Some (s' !! k).

(** [s'] differs from [s] at most at the keys [ks]. *)
Definition agree_except (ks : list string) (s s' : gmap string value) : Prop :=
  forall k, ~ In k ks -> s' !! k = s !! k.

(** The header text that [__init__] extracts from the bytes of a file. *)
Definition header_text (file : string) : string :=
  Py.strip_char (ascii_of_nat 0) (Py.take NlxHeader.HEADER_SIZE file).

Create HintDb grows.
Create HintDb agree.

(** * Properties *)

(** ** The result monad *)

Lemma bind_Ok {A B} (m : result A) (k : A -> result B) (b : B) :
  bind m k = Ok b -> exists a, m = Ok a /\ k a = Ok b.
Proof. destruct m as [a|e]; simpl; [eauto | discriminate]. Qed.

Lemma fails_Err {A} (e : exn) : fails (@Err A e).
Proof. exists e. reflexivity. Qed.

Lemma is_ok_succeeds {A} (r : result A) : is_ok r = true -> succeeds r.
Proof. destruct r as [a|e]; simpl; [exists a; reflexivity | discriminate]. Defined.

#[local] Hint Resolve fails_Err : core.

(** Splits a hypothesis [bind m k = Ok b] into its two steps. *)
Ltac bind_inv H :=
  let a := fresh "a" in
  let Ha := fresh "Hstep" in
  apply bind_Ok in H; destruct H as (a & Ha & H).

(** ** The acquisition-type classifier *)

Section ClassifierFacts.
Context `{AcqTypeEnum}.

(** C5. When the header holds both [NLX_Base_Class_Type] and
    [HardwareSubSystemType], [type_of_recording] returns the tag of the
    base-class branch, a function of the value of [NLX_Base_Class_Type]
    alone ("CscAcqEnt" gives [PRE4], "BmlAcq" gives [BML], anything else
    [UNKNOWN]); replacing the hardware-subsystem value by any other
    leaves the result unchanged. *)
Theorem type_of_recording_base_class_first
    (self : gmap string value) (base hw : value) :
  self !! "NLX_Base_Class_Type" = Some base ->
  self !! "HardwareSubSystemType" = Some hw ->
  NlxHeader.type_of_recording self
    = Ok (if eq_str base "CscAcqEnt" then PRE4
          else if eq_str base "BmlAcq" then BML
          else UNKNOWN)
  /\ forall hw' : value,
      NlxHeader.type_of_recording (<["HardwareSubSystemType" := hw']> self)
      = NlxHeader.type_of_recording self.
Proof.
  intros Hbase Hhw.
  assert (Hres : forall s : gmap string value,
             s !! "NLX_Base_Class_Type" = Some base ->
             NlxHeader.type_of_recording s
             = Ok (if eq_str base "CscAcqEnt" then PRE4
                   else if eq_str base "BmlAcq" then BML
                   else UNKNOWN)).
  { intros s Hs. unfold NlxHeader.type_of_recording. rewrite Hs.
    destruct (eq_str base "CscAcqEnt"); [reflexivity |].
    destruct (eq_str base "BmlAcq"); reflexivity. }
  split.
  - apply Hres, Hbase.
  - intros hw'. rewrite (Hres self Hbase). apply Hres.
    rewrite lookup_insert_ne by discriminate. exact Hbase.
Qed.

(** C6. Without base-class and hardware-subsystem markers, with
    [FileType] present and [FileVersion] one of "3.2", "3.3", "3.4",
    [type_of_recording] looks the upper-cased second
    whitespace-separated token of [AcquisitionSystem] up in the
    enumeration: it returns the member of that name, and raises
    ([KeyError]) when there is none. *)
Theorem type_of_recording_acquisition_system
    (self : gmap string value) (ft : value) (fv sys first tok : string)
    (rest : list string) :
  self !! "NLX_Base_Class_Type" = None ->
  self !! "HardwareSubSystemType" = None ->
  self !! "FileType" = Some ft ->
  self !! "FileVersion" = Some (VStr fv) ->
  fv = "3.2" \/ fv = "3.3" \/ fv = "3.4" ->
  self !! "AcquisitionSystem" = Some (VStr sys) ->
  Py.split sys = first :: tok :: rest ->
  (forall name, Py.upper tok = Some name ->
     NlxHeader.type_of_recording self
     = match AcqType_getitem name with
       | Some t => Ok t
       | None => Err (KeyError name)
       end)
  /\ (Py.upper tok = None -> fails (NlxHeader.type_of_recording self)).
Proof.
  intros Hbase Hhw Hft Hfv Hin Hsys Hsplit.
  assert (Hlisted : eq_str (VStr fv) "3.2" || eq_str (VStr fv) "3.3"
                    || eq_str (VStr fv) "3.4" = true).
  { destruct Hin as [-> | [-> | ->]]; reflexivity. }
  unfold NlxHeader.type_of_recording, NlxHeader.getitem.
  rewrite Hbase, Hhw, Hft, Hfv, Hlisted, Hsys. simpl. rewrite Hsplit.
  split.
  - intros name Hup. rewrite Hup. reflexivity.
  - intros Hup. rewrite Hup. apply fails_Err.
Qed.
End ClassifierFacts.

(** ** Version order *)

Section CompareEq.
Context {A B : Type} (ca : A -> A -> comparison) (cb : B -> B -> comparison).
Hypothesis ca_eq : forall x y, ca x y = Eq -> x = y.
Hypothesis cb_eq : forall x y, cb x y = Eq -> x = y.

Lemma list_compare_eq (l1 l2 : list A) :
  list_compare ca l1 l2 = Eq -> l1 = l2.
Proof.
  revert l2. induction l1 as [|a t IH]; intros [|b t2]; simpl;
    try discriminate; [reflexivity |].
  destruct (ca a b) eqn:Hab; try discriminate.
  intros Ht. apply ca_eq in Hab. apply IH in Ht. congruence.
Qed.

Lemma pair_compare_eq (x y : A * B) :
  pair_compare ca cb x y = Eq -> x = y.
Proof.
  destruct x as [a b], y as [a' b']. unfold pair_compare. simpl.
  destruct (ca a a') eqn:Ha; try discriminate.
  intros Hb. apply ca_eq in Ha. apply cb_eq in Hb. congruence.
Qed.

Lemma ext_compare_eq (x y : ext A) :
  ext_compare ca x y = Eq -> x = y.
Proof.
  destruct x, y; simpl; try discriminate; try reflexivity.
  intros Hc. apply ca_eq in Hc. congruence.
Qed.
End CompareEq.

Lemma pre_letter_compare_eq (a b : pre_letter) :
  pre_letter_compare a b = Eq -> a = b.
Proof. destruct a, b; simpl; try discriminate; reflexivity. Qed.

Lemma N_compare_eq (a b : N) : N.compare a b = Eq -> a = b.
Proof. apply N.compare_eq_iff. Qed.

Lemma Version_key_compare_eq (x y : Version_key_t) :
  Version_key_compare x y = Eq -> x = y.
Proof.
  unfold Version_key_compare.
  repeat first
    [ apply pair_compare_eq | apply ext_compare_eq | apply list_compare_eq
    | apply N_compare_eq | apply pre_letter_compare_eq
    | apply String.compare_eq_iff | intros ? ? ].
Qed.

(** Versions that [==] equates have the same key, hence compare alike
    with every other version. *)
Lemma Version_eqb_key (a b : Version) :
  Version_eqb a b = true -> Version_key a = Version_key b.
Proof.
  unfold Version_eqb, Version_compare. intros Heq.
  apply Version_key_compare_eq.
  destruct (Version_key_compare _ _); [reflexivity | discriminate ..].
Qed.

(** ** The dialect resolver *)

(** C4. [ApplicationName] "Cheetah" with an [ApplicationVersion] equal
    to 5.6.0 selects the dictionary "inHeader", which is not the
    dictionary "v5.4.0". *)
Theorem select_hpd_cheetah_5_6_0 (self : gmap string value) (v : Version) :
  self !! "ApplicationName" = Some (VStr "Cheetah") ->
  self !! "ApplicationVersion" = Some (VVersion v) ->
  Version_eqb v (release [5%N; 6%N; 0%N]) = true ->
  NlxHeader.select_hpd self = Ok ("Cheetah", NlxHeader.inHeader)
  /\ NlxHeader.hpd_getitem "inHeader" = Ok NlxHeader.inHeader
  /\ NlxHeader.hpd_getitem "v5.4.0" = Ok NlxHeader.v5_4_0
  /\ NlxHeader.inHeader <> NlxHeader.v5_4_0.
Proof.
  intros Han Hav Heq.
  split; [| split; [reflexivity | split; [reflexivity | discriminate]]].
  unfold NlxHeader.select_hpd, NlxHeader.getitem. rewrite Han, Hav. simpl.
  unfold Version_leb, Version_ltb, Version_compare.
  rewrite Heq, (Version_eqb_key _ _ Heq). reflexivity.
Qed.

(** ** Lists built by the passes *)

Lemma concat_repeat_singleton {A} (a : A) (n : nat) :
  concat (repeat [a] n) = repeat a n.
Proof. induction n as [|n IH]; simpl; [reflexivity | now rewrite IH]. Qed.

Lemma mapM_repeat {A B} (f : A -> result B) (a : A) (b : B) (n : nat) :
  f a = Ok b -> mapM f (repeat a n) = Ok (repeat b n).
Proof.
  intros Hf. induction n as [|n IH]; simpl; [reflexivity |].
  rewrite Hf. simpl. rewrite IH. reflexivity.
Qed.

Lemma mapM_length {A B} (f : A -> result B) (l : list A) (l' : list B) :
  mapM f l = Ok l' -> length l' = length l.
Proof.
  revert l'. induction l as [|a t IH]; simpl; intros l' Hm.
  - injection Hm as <-. reflexivity.
  - bind_inv Hm. bind_inv Hm. injection Hm as <-. simpl.
    f_equal. apply IH. assumption.
Qed.

Lemma mapM_Forall2 {A B C} (f : A -> result C) (g : B -> C)
      (P : A -> B -> Prop) (l : list A) (xs : list B) :
  (forall a b, P a b -> f a = Ok (g b)) ->
  Forall2 P l xs -> mapM f l = Ok (map g xs).
Proof.
  intros Hf Hall. induction Hall as [|a b t ts Hab _ IH]; simpl; [reflexivity |].
  rewrite (Hf a b Hab). simpl. rewrite IH. reflexivity.
Qed.

(** ** The bit-to-microvolt pass *)

Section BitToMicroVolt.
Context `{PyLib}.

Local Abbreviation scaled x := (VFloat (PrimFloat.mul x 1e6)).

(** C7. In [setBitToMicroVolt], [toks] being the whitespace-separated
    tokens of the [bit_to_microVolt] field and [ids] the list
    [channel_ids]: a single token of numeric value [x] gives the list of
    [length ids] copies of [x * 1e6], the four-element list when [ids]
    has 4 entries; several numeric tokens give their values times 1e6
    when there are as many as channel ids; and a token count other than
    1 and other than the channel count makes the pass fail. *)
Theorem setBitToMicroVolt_scales
    (self : gmap string value) (v : value) (toks : list string)
    (ids : list value) :
  self !! "bit_to_microVolt" = Some v ->
  NlxHeader.findall_in "\S+" v = Ok toks ->
  self !! "channel_ids" = Some (VList ids) ->
  (forall tok x, toks = [tok] -> float_of_str tok = Some x ->
     NlxHeader.setBitToMicroVolt self
     = Ok (<["bit_to_microVolt" := VList (repeat (scaled x) (length ids))]> self)
     /\ (length ids = 4 ->
         NlxHeader.setBitToMicroVolt self
         = Ok (<["bit_to_microVolt" :=
                  VList [scaled x; scaled x; scaled x; scaled x]]> self)))
  /\ (forall xs, length toks <> 1 ->
        Forall2 (fun tok x => float_of_str tok = Some x) toks xs ->
        length toks = length ids ->
        NlxHeader.setBitToMicroVolt self
        = Ok (<["bit_to_microVolt" := VList (map (fun x => scaled x) xs)]> self))
  /\ (length toks <> 1 -> length toks <> length ids ->
      fails (NlxHeader.setBitToMicroVolt self)).
Proof.
  intros Hbtm Htoks Hids.
  assert (Hids' : forall w, (<["bit_to_microVolt" := w]> self) !! "channel_ids"
                            = Some (VList ids)).
  { intros w. rewrite lookup_insert_ne by discriminate. exact Hids. }
  split; [| split].
  - intros tok x -> Hx.
    assert (Hrun : NlxHeader.setBitToMicroVolt self
              = Ok (<["bit_to_microVolt" :=
                       VList (repeat (scaled x) (length ids))]> self)).
    { unfold NlxHeader.setBitToMicroVolt, NlxHeader.getitem.
      rewrite Hbtm, Htoks. simpl. rewrite Hids. simpl.
      rewrite concat_repeat_singleton.
      rewrite (mapM_repeat _ tok (scaled x)) by (rewrite Hx; reflexivity).
      simpl. rewrite Hids'. simpl.
      rewrite repeat_length, Nat.eqb_refl. reflexivity. }
    split; [exact Hrun |].
    intros H4. rewrite Hrun, H4. reflexivity.
  - intros xs Hne Hall Hlen.
    unfold NlxHeader.setBitToMicroVolt, NlxHeader.getitem.
    rewrite Hbtm, Htoks. simpl.
    assert (Hsame : match toks with
                    | [_] =>
                      ids0 <- match self !! "channel_ids" with
                              | Some v0 => Ok v0
                              | None => raise (KeyError "channel_ids")
                              end ;;
                      n <- len ids0 ;; Ok (concat (repeat toks n))
                    | _ => Ok toks
                    end = Ok toks).
    { destruct toks as [|t1 [|t2 ts]]; simpl in *; [reflexivity | lia | reflexivity]. }
    rewrite Hsame. simpl.
    rewrite (mapM_Forall2 _ (fun x => scaled x) (fun tok x => float_of_str tok = Some x) toks xs).
    + simpl. rewrite Hids'. simpl.
      rewrite length_map, <- (Forall2_length _ _ _ Hall), Hlen, Nat.eqb_refl.
      reflexivity.
    + intros a b Hab. rewrite Hab. reflexivity.
    + exact Hall.
  - intros Hne Hlen.
    unfold NlxHeader.setBitToMicroVolt, NlxHeader.getitem.
    rewrite Hbtm, Htoks. simpl.
    assert (Hsame : match toks with
                    | [_] =>
                      ids0 <- match self !! "channel_ids" with
                              | Some v0 => Ok v0
                              | None => raise (KeyError "channel_ids")
                              end ;;
                      n <- len ids0 ;; Ok (concat (repeat toks n))
                    | _ => Ok toks
                    end = Ok toks).
    { destruct toks as [|t1 [|t2 ts]]; simpl in *; [reflexivity | lia | reflexivity]. }
    rewrite Hsame. simpl.
    destruct (mapM _ toks) as [scaled|e] eqn:Hmap; simpl; [| apply fails_Err].
    rewrite Hids'. simpl.
    apply mapM_length in Hmap. rewrite Hmap.
    destruct (Nat.eqb_spec (length toks) (length ids)); [contradiction |].
    simpl. apply fails_Err.
Qed.
End BitToMicroVolt.

(** ** The timestamp parser *)

Lemma re_search_compiled (p s : string) (c : Re.pattern) :
  Re.compile p = Some c ->
  NlxHeader.re_search p s = Ok (Re.search_from c false 0 s).
Proof. intros Hc. unfold NlxHeader.re_search. rewrite Hc. reflexivity. Qed.

Lemma datetime1_regex_compiles (hpd : NlxHeader.DialectSpec) :
  In (hpd) (map snd NlxHeader.header_pattern_dicts) ->
  exists c, Re.compile (NlxHeader.datetime1_regex hpd) = Some c.
Proof.
  simpl. intros Hin.
  repeat (destruct Hin as [<- | Hin];
          [eexists; vm_compute; reflexivity |]).
  destruct Hin.
Qed.

Lemma datetime2_regex_compiles (hpd : NlxHeader.DialectSpec) (regex : string) :
  In (hpd) (map snd NlxHeader.header_pattern_dicts) ->
  NlxHeader.datetime2_regex hpd = Some regex ->
  exists c, Re.compile regex = Some c.
Proof.
  simpl. intros Hin.
  repeat (destruct Hin as [<- | Hin];
          [simpl; intros Hr;
           first [discriminate Hr
                 | injection Hr as <-; eexists; vm_compute; reflexivity] |]).
  destruct Hin.
Qed.

Section TimeDate.
Context `{PyLib}.

(** The dictionary that [readTimeDate] selects is one of the table. *)
Lemma select_hpd_in_table (self : gmap string value) (an : string)
      (hpd : NlxHeader.DialectSpec) :
  NlxHeader.select_hpd self = Ok (an, hpd) ->
  In hpd (map snd NlxHeader.header_pattern_dicts).
Proof.
  unfold NlxHeader.select_hpd. intros Hsel.
  repeat match goal with
         | Hb : bind _ _ = Ok _ |- _ => bind_inv Hb
         | Hc : (if ?c then _ else _) = Ok _ |- _ => destruct c
         | Hg : NlxHeader.hpd_getitem _ = Ok _ |- _ =>
           injection Hg as <-
         | Hp : Ok (_, _) = Ok (_, _) |- _ => injection Hp as <- <-
         end; simpl; tauto.
Qed.

(** [readTimeDate] once the dictionary is chosen. *)
Lemma readTimeDate_unfold (txt : string) (self : gmap string value)
      (an : string) (hpd : NlxHeader.DialectSpec) :
  NlxHeader.select_hpd self = Ok (an, hpd) ->
  NlxHeader.readTimeDate txt self
  = (sr <- NlxHeader.re_search (NlxHeader.datetime1_regex hpd) txt ;;
     match sr with
     | None => Err (IOError NlxHeader.open_msg an)
     | Some sr =>
       let self1 :=
         <["recording_opened" :=
            match NlxHeader.try_strptime sr (Some (NlxHeader.datetimeformat hpd)) with
            | Some d => VDatetime d
            | None => NlxHeader.of_datetime
                        (NlxHeader.try_strptime sr (NlxHeader.datetime2format hpd))
            end]> self in
       match NlxHeader.datetime2_regex hpd with
       | Some regex =>
         sr2 <- NlxHeader.re_search regex txt ;;
         match sr2 with
         | None => Err (IOError NlxHeader.close_msg an)
         | Some sr2 =>
           Ok (<["recording_closed" :=
                  NlxHeader.of_datetime
                    (NlxHeader.try_strptime sr2
                       (Some (NlxHeader.datetimeformat hpd)))]> self1)
         end
       | None => Ok self1
       end
     end).
Proof.
  intros Hsel. unfold NlxHeader.readTimeDate. rewrite Hsel. simpl.
  destruct (NlxHeader.re_search _ txt) as [[sr|]|e]; reflexivity.
Qed.

(** C2. The close step of [readTimeDate], for the dictionary that it
    selects. If the dictionary defines [datetime2_regex] and the header
    text has no match for it, [readTimeDate] raises [IOError]: the one of
    the close step, once the open step has found its line. If the
    dictionary defines none, the close step raises nothing and stores
    nothing: past the open step [readTimeDate] returns with
    [recording_closed] left as it was, absent in a header that [__init__]
    built; the one error of such a dictionary is that of the open step,
    raised before the close step on a text without an open-timestamp
    line. *)
Theorem readTimeDate_close_timestamp
    (txt : string) (self : gmap string value) (an : string)
    (hpd : NlxHeader.DialectSpec) :
  NlxHeader.select_hpd self = Ok (an, hpd) ->
  (forall regex,
      NlxHeader.datetime2_regex hpd = Some regex ->
      NlxHeader.re_search regex txt = Ok None ->
      (exists msg, NlxHeader.readTimeDate txt self = Err (IOError msg an))
      /\ (forall sr,
             NlxHeader.re_search (NlxHeader.datetime1_regex hpd) txt = Ok (Some sr) ->
             NlxHeader.readTimeDate txt self = Err (IOError NlxHeader.close_msg an)))
  /\ (NlxHeader.datetime2_regex hpd = None ->
      (forall sr,
          NlxHeader.re_search (NlxHeader.datetime1_regex hpd) txt = Ok (Some sr) ->
          exists self',
            NlxHeader.readTimeDate txt self = Ok self'
            /\ self' !! "recording_closed" = self !! "recording_closed")
      /\ (NlxHeader.re_search (NlxHeader.datetime1_regex hpd) txt = Ok None ->
          NlxHeader.readTimeDate txt self = Err (IOError NlxHeader.open_msg an))
      /\ (forall e,
             NlxHeader.readTimeDate txt self = Err e ->
             e = IOError NlxHeader.open_msg an
             /\ NlxHeader.re_search (NlxHeader.datetime1_regex hpd) txt = Ok None)).
Proof.
  intros Hsel. rewrite (readTimeDate_unfold txt self an hpd Hsel).
  destruct (datetime1_regex_compiles hpd (select_hpd_in_table _ _ _ Hsel))
    as [c Hc].
  split.
  - intros regex Hd2 Hs2. split.
    + rewrite (re_search_compiled _ txt c Hc). simpl.
      destruct (Re.search_from c false 0 txt) as [sr|]; [| eauto].
      simpl. rewrite Hd2, Hs2. simpl. eauto.
    + intros sr Hs1. rewrite Hs1. simpl. rewrite Hd2, Hs2. reflexivity.
  - intros Hd2. split; [| split].
    + intros sr Hs1. rewrite Hs1. simpl. rewrite Hd2.
      eexists. split; [reflexivity |].
      rewrite lookup_insert_ne by discriminate. reflexivity.
    + intros Hs1. rewrite Hs1. reflexivity.
    + intros e. rewrite (re_search_compiled _ txt c Hc). simpl.
      destruct (Re.search_from c false 0 txt) as [sr|]; simpl.
      * rewrite Hd2. discriminate.
      * intros He. injection He as <-. split; reflexivity.
Qed.

(** C3. The open step of [readTimeDate] is lenient. When the
    open-timestamp pattern of the selected dictionary matches and the
    captured date and time parse under neither its [datetimeformat] nor,
    if it has one, its [datetime2format], the step stores [None] as
    [recording_opened] and raises nothing: every header that
    [readTimeDate] returns has that [None], and an error can only be the
    one of the close step, for a dictionary with a close-timestamp
    pattern that the text does not match. So [readTimeDate] returns when
    the dictionary defines no close-timestamp pattern or that pattern
    matches, and raises the [IOError] of the close step otherwise. *)
Theorem readTimeDate_open_timestamp_lenient
    (txt : string) (self : gmap string value) (an : string)
    (hpd : NlxHeader.DialectSpec) (sr : Re.rematch) (d t : string) :
  NlxHeader.select_hpd self = Ok (an, hpd) ->
  NlxHeader.re_search (NlxHeader.datetime1_regex hpd) txt = Ok (Some sr) ->
  Re.groupdict sr "date" = Some d ->
  Re.groupdict sr "time" = Some t ->
  strptime (d +:+ " " +:+ t) (NlxHeader.datetimeformat hpd) = None ->
  (forall fmt2, NlxHeader.datetime2format hpd = Some fmt2 ->
                strptime (d +:+ " " +:+ t) fmt2 = None) ->
  (forall self',
      NlxHeader.readTimeDate txt self = Ok self' ->
      self' !! "recording_opened" = Some VNone)
  /\ (forall e,
         NlxHeader.readTimeDate txt self = Err e ->
         e = IOError NlxHeader.close_msg an
         /\ exists regex,
             NlxHeader.datetime2_regex hpd = Some regex
             /\ NlxHeader.re_search regex txt = Ok None)
  /\ match NlxHeader.datetime2_regex hpd with
     | None =>
       exists self', NlxHeader.readTimeDate txt self = Ok self'
                     /\ self' !! "recording_opened" = Some VNone
     | Some regex =>
       (forall sr2, NlxHeader.re_search regex txt = Ok (Some sr2) ->
          exists self', NlxHeader.readTimeDate txt self = Ok self'
                        /\ self' !! "recording_opened" = Some VNone)
       /\ (NlxHeader.re_search regex txt = Ok None ->
           NlxHeader.readTimeDate txt self = Err (IOError NlxHeader.close_msg an))
     end.
Proof.
  intros Hsel Hs1 Hd Ht Hf1 Hf2.
  rewrite (readTimeDate_unfold txt self an hpd Hsel), Hs1. simpl.
  assert (Hopened :
            match NlxHeader.try_strptime sr (Some (NlxHeader.datetimeformat hpd)) with
            | Some d => VDatetime d
            | None => NlxHeader.of_datetime
                        (NlxHeader.try_strptime sr (NlxHeader.datetime2format hpd))
            end = VNone).
  { unfold NlxHeader.try_strptime. rewrite Hd, Ht, Hf1.
    destruct (NlxHeader.datetime2format hpd) as [fmt2|]; [| reflexivity].
    rewrite (Hf2 fmt2 eq_refl). reflexivity. }
  rewrite Hopened.
  destruct (NlxHeader.datetime2_regex hpd) as [regex|] eqn:Hd2.
  - destruct (datetime2_regex_compiles hpd regex
                (select_hpd_in_table _ _ _ Hsel) Hd2) as [c2 Hc2].
    split; [| split; [| split]].
    + intros self'. rewrite (re_search_compiled _ txt c2 Hc2). simpl.
      destruct (Re.search_from c2 false 0 txt) as [sr2|]; [| discriminate].
      intros Hr. injection Hr as <-.
      rewrite lookup_insert_ne by discriminate. apply lookup_insert_eq.
    + intros e. pose proof (re_search_compiled _ txt c2 Hc2) as Hs2.
      rewrite Hs2. simpl.
      destruct (Re.search_from c2 false 0 txt) as [sr2|]; [discriminate |].
      intros He. injection He as <-. split; [reflexivity |].
      exists regex. split; [reflexivity | exact Hs2].
    + intros sr2 Hs2. rewrite Hs2. simpl. eexists. split; [reflexivity |].
      rewrite lookup_insert_ne by discriminate. apply lookup_insert_eq.
    + intros Hs2. rewrite Hs2. reflexivity.
  - split; [| split].
    + intros self' Hr. injection Hr as <-. apply lookup_insert_eq.
    + intros e He. discriminate He.
    + eexists. split; [reflexivity |]. apply lookup_insert_eq.
Qed.
End TimeDate.

(** ** One row of the property table *)

Lemma re_findall_compiled (p s : string) (c : Re.pattern) :
  Re.compile p = Some c ->
  NlxHeader.re_findall p s = Ok (Re.finditer c s).
Proof. intros Hc. unfold NlxHeader.re_findall. rewrite Hc. reflexivity. Qed.

Lemma read_key_eq `{PyLib} (txt k1 k2 : string) (type_ : NlxHeader.converter)
      (self : gmap string value) :
  NlxHeader.read_key txt (k1, k2, type_) self
  = (matches <- NlxHeader.re_findall (NlxHeader.prop_pattern k1) txt ;;
     foldM (NlxHeader.read_match k2 type_) matches self).
Proof. reflexivity. Qed.

(** ** Entries are only added *)

Lemma grows_refl (s : gmap string value) : grows s s.
Proof. intros k Hk. exact Hk. Qed.

Lemma grows_trans (s1 s2 s3 : gmap string value) :
  grows s1 s2 -> grows s2 s3 -> grows s1 s3.
Proof. intros H12 H23 k Hk. apply H23, H12, Hk. Qed.

Lemma grows_insert (s : gmap string value) (k : string) (v : value) :
  grows s (<[k := v]> s).
Proof.
  intros k' Hk'. destruct (decide (k = k')) as [-> | Hne].
  - rewrite lookup_insert_eq. eauto.
  - rewrite lookup_insert_ne by exact Hne. exact Hk'.
Qed.

Lemma grows_insert_r (s s' : gmap string value) (k : string) (v : value) :
  grows s s' -> grows s (<[k := v]> s').
Proof. intros Hg. eapply grows_trans; [exact Hg | apply grows_insert]. Qed.

#[local] Hint Resolve grows_refl grows_insert grows_insert_r : grows.

Lemma foldM_grows {A} (body : A -> gmap string value -> result (gmap string value))
      (l : list A) :
  (forall a s s', body a s = Ok s' -> grows s s') ->
  forall s s', foldM body l s = Ok s' -> grows s s'.
Proof.
  intros Hbody. induction l as [|a t IH]; simpl; intros s s' Hf.
  - injection Hf as <-. apply grows_refl.
  - bind_inv Hf. eapply grows_trans; [eapply Hbody | eapply IH]; eassumption.
Qed.

(** Takes a hypothesis [m = Ok s'] apart along the binds, matches and
    conditionals of [m]. *)
Ltac run_inv :=
  repeat match goal with
         | Hb : bind _ _ = Ok _ |- _ => bind_inv Hb
         | Hr : raise _ = Ok _ |- _ => discriminate Hr
         | He : Err _ = Ok _ |- _ => discriminate He
         | Ho : Ok _ = Ok _ |- _ => injection Ho as ?; subst
         | Hm : match ?x with _ => _ end = Ok _ |- _ => destruct x eqn:?
         | Hl : (let '(_, _) := ?x in _) = Ok _ |- _ => destruct x eqn:?
         end.

Section Growth.
Context `{PyLib}.

Lemma read_properties_grows (filename txt : string) (s s' : gmap string value) :
  NlxHeader.read_properties filename txt s = Ok s' -> grows s s'.
Proof.
  apply foldM_grows. intros [[k1 k2] type_] s1 s2 Hkey.
  rewrite read_key_eq in Hkey. bind_inv Hkey.
  revert Hkey. apply foldM_grows. intros m s3 s4 Hm.
  unfold NlxHeader.read_match in Hm. bind_inv Hm. injection Hm as <-.
  apply grows_insert.
Qed.

Lemma convert_channel_ids_names_grows (filename : string)
      (s s' : gmap string value) (n : nat) :
  NlxHeader.convert_channel_ids_names filename s = Ok (s', n) -> grows s s'.
Proof.
  unfold NlxHeader.convert_channel_ids_names. intros Hc.
  run_inv; eauto 6 with grows.
Qed.

Lemma setApplicationAndVersion_grows (s s' : gmap string value) :
  NlxHeader.setApplicationAndVersion s = Ok s' -> grows s s'.
Proof.
  unfold NlxHeader.setApplicationAndVersion. intros Hc.
  run_inv; eauto 6 with grows.
Qed.

Lemma setBitToMicroVolt_grows (s s' : gmap string value) :
  NlxHeader.setBitToMicroVolt s = Ok s' -> grows s s'.
Proof.
  unfold NlxHeader.setBitToMicroVolt. intros Hc.
  run_inv; eauto 6 with grows.
Qed.

Lemma setInputRanges_grows (n : nat) (s s' : gmap string value) :
  NlxHeader.setInputRanges n s = Ok s' -> grows s s'.
Proof.
  unfold NlxHeader.setInputRanges. intros Hc.
  run_inv; eauto 6 with grows.
Qed.

Lemma readTimeDate_grows (txt : string) (s s' : gmap string value) :
  NlxHeader.readTimeDate txt s = Ok s' -> grows s s'.
Proof.
  unfold NlxHeader.readTimeDate. intros Hc.
  run_inv; eauto 6 with grows.
Qed.

(** After [setApplicationAndVersion] both entries are there. *)
Lemma setApplicationAndVersion_sets (s s' : gmap string value) :
  NlxHeader.setApplicationAndVersion s = Ok s' ->
  is_Some (s' !! "ApplicationName") /\ is_Some (s' !! "ApplicationVersion").
Proof.
  unfold NlxHeader.setApplicationAndVersion. intros Hc.
  run_inv;
    (split;
     [ rewrite lookup_insert_ne by discriminate; rewrite lookup_insert_eq; eauto
     | rewrite lookup_insert_eq; eauto ]).
Qed.

(** The passes of [__init__], one after the other. *)
Lemma init_Ok (filename file : string) (props_only : bool)
      (self : gmap string value) :
  NlxHeader.__init__ filename file props_only = Ok self ->
  let txt := header_text file in
  exists s1 s2 n s3 s4 s5,
    NlxHeader.read_properties filename txt ∅ = Ok s1
    /\ NlxHeader.convert_channel_ids_names filename s1 = Ok (s2, n)
    /\ NlxHeader.setApplicationAndVersion s2 = Ok s3
    /\ NlxHeader.setBitToMicroVolt s3 = Ok s4
    /\ NlxHeader.setInputRanges n s4 = Ok s5
    /\ (if props_only then self = s5
        else NlxHeader.readTimeDate txt s5 = Ok self).
Proof.
  intros Hi txt. unfold NlxHeader.__init__ in Hi.
  change (Py.strip_char _ _) with txt in Hi.
  bind_inv Hi. clear Hstep.
  bind_inv Hi. bind_inv Hi. destruct a1 as [s2 n].
  bind_inv Hi. bind_inv Hi. bind_inv Hi.
  exists a0, s2, n, a1, a2, a3. repeat (split; [assumption |]).
  destruct props_only; simpl in Hi; [injection Hi as <-; reflexivity | exact Hi].
Qed.

(** C9. Whenever [NlxHeader(filename, props_only)] returns, the header
    has an [ApplicationName] and an [ApplicationVersion] entry. *)
Theorem init_sets_application_name_and_version
    (filename file : string) (props_only : bool) (self : gmap string value) :
  NlxHeader.__init__ filename file props_only = Ok self ->
  is_Some (self !! "ApplicationName") /\ is_Some (self !! "ApplicationVersion").
Proof.
  intros Hi. apply init_Ok in Hi.
  destruct Hi as (s1 & s2 & n & s3 & s4 & s5 & _ & _ & Happ & Hbtm & Hir & Htd).
  apply setApplicationAndVersion_sets in Happ.
  assert (Hg : grows s3 self).
  { eapply grows_trans; [eapply setBitToMicroVolt_grows, Hbtm |].
    eapply grows_trans; [eapply setInputRanges_grows, Hir |].
    destruct props_only; [subst; apply grows_refl |].
    eapply readTimeDate_grows, Htd. }
  destruct Happ as [Hn Hv]. split; apply Hg; assumption.
Qed.
End Growth.

(** ** The matcher *)

Lemma nth_set_capture (i j : nat) (v : string) (caps : Re.captures) :
  nth i (Re.set_capture j v caps) None
  = if Nat.eqb i j then Some v else nth i caps None.
Proof.
  revert i caps. induction j as [|j IH]; intros [|i] [|h t]; simpl;
    try reflexivity.
  - destruct i; reflexivity.
  - rewrite IH. destruct (Nat.eqb i j); [reflexivity | destruct i; reflexivity].
  - apply IH.
Qed.

Section MatcherFacts.
Context {R : Type}.

(** A successful match ends in a call of the continuation, on a text no
    longer than the one it started from and with captures that differ
    only at the slots of the expression. *)
Lemma rmatch_continues (r : Re.regex) :
  forall (s : string) (caps : Re.captures)
         (k : string -> Re.captures -> option R) (x : R),
    Re.rmatch r s caps k = Some x ->
    exists s' caps',
      k s' caps' = Some x
      /\ String.length s' <= String.length s
      /\ forall i, ~ In i (slots r) -> nth i caps' None = nth i caps None.
Proof.
  induction r as [| c | | negated items | r1 IH1 r2 IH2 | r1 IH1 r2 IH2
                  | r1 IH1 | r1 IH1 | idx r1 IH1];
    intros s caps k x Hm; cbn [Re.rmatch] in Hm.
  - exists s, caps. auto.
  - destruct s as [|d s']; [discriminate |].
    destruct (Ascii.eqb c d); [| discriminate].
    exists s', caps. simpl. auto.
  - destruct s as [|d s']; [discriminate |].
    destruct (Ascii.eqb d _); [discriminate |].
    exists s', caps. simpl. auto.
  - destruct s as [|d s']; [discriminate |].
    destruct (Re.set_matches negated items d); [| discriminate].
    exists s', caps. simpl. auto.
  - apply IH1 in Hm. destruct Hm as (s1 & caps1 & Hm & Hlen1 & Hc1).
    apply IH2 in Hm. destruct Hm as (s2 & caps2 & Hm & Hlen2 & Hc2).
    exists s2, caps2. split; [exact Hm | split; [lia |]].
    intros i Hi. simpl in Hi. rewrite in_app_iff in Hi.
    rewrite Hc2, Hc1; tauto.
  - destruct (Re.rmatch r1 s caps k) eqn:H1.
    + injection Hm as ->. apply IH1 in H1.
      destruct H1 as (s1 & caps1 & Hk & Hlen & Hc).
      exists s1, caps1. split; [exact Hk | split; [exact Hlen |]].
      intros i Hi. apply Hc. simpl in Hi. rewrite in_app_iff in Hi. tauto.
    + apply IH2 in Hm. destruct Hm as (s2 & caps2 & Hk & Hlen & Hc).
      exists s2, caps2. split; [exact Hk | split; [exact Hlen |]].
      intros i Hi. apply Hc. simpl in Hi. rewrite in_app_iff in Hi. tauto.
  - revert Hm. generalize (S (String.length s)). intros n. revert s caps.
    induction n as [|n IHn]; intros s caps Hm; simpl in Hm.
    + exists s, caps. auto.
    + destruct (Re.rmatch r1 s caps _) eqn:H1.
      * injection Hm as ->. apply IH1 in H1.
        destruct H1 as (s1 & caps1 & Hk & Hlen & Hc).
        destruct (String.length s1 <? String.length s).
        -- apply IHn in Hk. destruct Hk as (s2 & caps2 & Hk & Hlen2 & Hc2).
           exists s2, caps2. split; [exact Hk | split; [lia |]].
           intros i Hi. rewrite Hc2, Hc by exact Hi. reflexivity.
        -- exists s1, caps1. auto.
      * exists s, caps. auto.
  - destruct (Re.rmatch r1 s caps k) eqn:H1.
    + injection Hm as ->. apply IH1 in H1. exact H1.
    + exists s, caps. auto.
  - apply IH1 in Hm. destruct Hm as (s1 & caps1 & Hk & Hlen & Hc).
    eexists _, _. split; [exact Hk | split; [exact Hlen |]].
    intros i Hi. simpl in Hi. rewrite nth_set_capture.
    destruct (Nat.eqb_spec i (idx - 1)) as [-> | Hne]; [tauto |].
    apply Hc. tauto.
Qed.
End MatcherFacts.

Lemma startswith_empty (s : string) : Py.startswith s "" = true.
Proof. destruct s; reflexivity. Qed.

Lemma rmatch_lit {R : Type} (l : string) :
  forall (s : string) (caps : Re.captures) (k : string -> Re.captures -> option R),
    Re.rmatch (lit_regex l) s caps k
    = if Py.startswith s l then k (Py.drop (String.length l) s) caps else None.
Proof.
  induction l as [|c l IH]; intros s caps k.
  - destruct s; reflexivity.
  - destruct l as [|c' l'].
    + cbn [lit_regex Re.rmatch]. destruct s as [|d s']; [reflexivity |].
      cbn [Py.startswith String.length Py.drop].
      destruct (Ascii.eqb c d); [| reflexivity].
      rewrite startswith_empty. destruct s'; reflexivity.
    + change (lit_regex (String c (String c' l')))
        with (Re.RSeq (Re.RChr c) (lit_regex (String c' l'))).
      cbn [Re.rmatch]. destruct s as [|d s']; [reflexivity |].
      cbn [Py.startswith String.length Py.drop].
      destruct (Ascii.eqb c d); [apply IH | reflexivity].
Qed.

Lemma length_drop_le (n : nat) (s : string) :
  String.length (Py.drop n s) <= String.length s.
Proof.
  revert s. induction n as [|n IH]; intros [|c s]; simpl; try lia.
  specialize (IH s). lia.
Qed.

(** The part of [s] in front of what is left once the prefix [l] is
    dropped is [l]. *)
Lemma take_matched_prefix (l s : string) :
  Py.startswith s l = true ->
  Py.take (String.length s - String.length (Py.drop (String.length l) s)) s = l.
Proof.
  revert s. induction l as [|c l IH]; intros s Hp.
  - simpl. destruct s; simpl; [reflexivity |].
    rewrite Nat.sub_diag. reflexivity.
  - destruct s as [|d s]; [discriminate |]. simpl in Hp.
    destruct (Ascii.eqb_spec c d) as [-> | ]; [| discriminate].
    cbn [String.length Py.drop].
    pose proof (length_drop_le (String.length l) s) as Hle.
    replace (S (String.length s) - String.length (Py.drop (String.length l) s))
      with (S (String.length s - String.length (Py.drop (String.length l) s)))
      by lia.
    cbn [Py.take]. rewrite (IH s Hp). reflexivity.
Qed.

(** Every match that [finditer] lists is a match of the pattern at some
    place of the text. *)
Lemma search_from_match_at (p : Re.pattern) (s : string) :
  forall (adv : bool) (pos : nat) (m : Re.rematch),
    Re.search_from p adv pos s = Some m ->
    exists adv' pos' s', Re.match_at p adv' pos' s' = Some m.
Proof.
  induction s as [|c s IH]; intros adv pos m Hs; simpl in Hs.
  - destruct (Re.match_at p adv pos "") eqn:Hm; [| discriminate].
    injection Hs as <-. eauto.
  - destruct (Re.match_at p adv pos (String c s)) eqn:Hm.
    + injection Hs as <-. eauto.
    + eapply IH, Hs.
Qed.

Lemma finditer_match_at (p : Re.pattern) (fuel : nat) :
  forall (adv : bool) (pos : nat) (s : string) (m : Re.rematch),
    In m (Re.finditer_fuel fuel p adv pos s) ->
    exists adv' pos' s', Re.match_at p adv' pos' s' = Some m.
Proof.
  induction fuel as [|f IH]; intros adv pos s m Hin; simpl in Hin; [destruct Hin |].
  destruct (Re.search_from p adv pos s) as [m0|] eqn:Hs; [| destruct Hin].
  destruct Hin as [<- | Hin]; [eapply search_from_match_at, Hs |].
  eapply IH, Hin.
Qed.

(** In a match of [prop_pattern k1], for a key [k1] of plain characters,
    the group [name] holds [k1]. *)
Lemma prop_match_name (k1 : string) (adv : bool) (pos : nat) (s : string)
      (m : Re.rematch) :
  Re.match_at (prop_compiled (lit_regex k1)) adv pos s = Some m ->
  Re.group m 1 = k1.
Proof.
  unfold Re.match_at. cbn [Re.p_regex prop_compiled Re.p_groups Re.rmatch].
  destruct s as [|d s1]; [discriminate |].
  destruct (Ascii.eqb "-" d); [| discriminate].
  rewrite rmatch_lit.
  destruct (Py.startswith s1 k1) eqn:Hp; [| discriminate].
  rewrite (take_matched_prefix k1 s1 Hp).
  intros Hm. apply rmatch_continues in Hm.
  destruct Hm as (s' & caps' & Hk & _ & Hc).
  destruct (adv && _); [discriminate |].
  injection Hk as <-. unfold Re.group. cbn [Re.m_groups Nat.sub].
  specialize (Hc 0). rewrite nth_set_capture in Hc. cbn in Hc.
  assert (Hslot : nth 0 caps' None = Some k1).
  { apply Hc. intros [Hx | []]. discriminate. }
  destruct caps' as [|h t]; simpl in Hslot; [discriminate |].
  subst h. reflexivity.
Qed.

(** In a match of the pattern of the "Feature" row, the group [name]
    starts with "F". *)
Lemma feature_match_name (r : Re.regex) (adv : bool) (pos : nat) (s : string)
      (m : Re.rematch) :
  Re.match_at (prop_compiled (Re.RSeq (Re.RChr "F") r)) adv pos s = Some m ->
  exists t, Re.group m 1 = String "F" t.
Proof.
  unfold Re.match_at. cbn [Re.p_regex prop_compiled Re.p_groups Re.rmatch].
  destruct s as [|d s1]; [discriminate |].
  destruct (Ascii.eqb "-" d); [| discriminate].
  destruct s1 as [|d1 s2]; [discriminate |].
  destruct (Ascii.eqb_spec "F" d1) as [<- |]; [| discriminate].
  intros Hm. apply rmatch_continues in Hm.
  destruct Hm as (s3 & caps3 & Hk & Hlen & _).
  apply rmatch_continues in Hk.
  destruct Hk as (s' & caps' & Hk & _ & Hc).
  destruct (adv && _); [discriminate |].
  injection Hk as <-. unfold Re.group. cbn [Re.m_groups Nat.sub].
  specialize (Hc 0). rewrite nth_set_capture in Hc. cbn [Nat.sub Nat.eqb] in Hc.
  cbn [String.length] in Hc.
  replace (S (String.length s2) - String.length s3)
    with (S (String.length s2 - String.length s3)) in Hc by lia.
  cbn [Py.take] in Hc.
  assert (Hslot : nth 0 caps' None
                  = Some (String "F" (Py.take (String.length s2 - String.length s3) s2))).
  { apply Hc. intros [Hx | []]. discriminate. }
  destruct caps' as [|h t]; simpl in Hslot; [discriminate |].
  subst h. eauto.
Qed.

(** ** The property table *)

Lemma plain_keys_compile :
  Forall (fun row =>
            Re.compile (NlxHeader.prop_pattern (fst (fst row)))
            = Some (prop_compiled (lit_regex (fst (fst row)))))
         plain_keys.
Proof.
  let l := eval vm_compute in plain_keys in change plain_keys with l.
  repeat (constructor; [vm_compute; reflexivity |]).
  constructor.
Qed.

Lemma feature_key_compiles :
  exists r, Re.compile (NlxHeader.prop_pattern "Feature \w+ \d+")
            = Some (prop_compiled (Re.RSeq (Re.RChr "F") r)).
Proof. eexists. vm_compute. reflexivity. Qed.

Lemma plain_keys_in_table (row : string * string * NlxHeader.converter) :
  In row plain_keys -> In row NlxHeader.txt_header_keys.
Proof. unfold plain_keys. intros Hp. apply filter_In in Hp. tauto. Qed.

Lemma table_rows (row : string * string * NlxHeader.converter) :
  In row NlxHeader.txt_header_keys ->
  In row plain_keys \/ row = ("Feature \w+ \d+", "", NlxHeader.to_none).
Proof.
  intros Hin. unfold plain_keys. rewrite filter_In.
  destruct (String.eqb_spec (fst (fst row)) "Feature \w+ \d+") as [Heq | Hne].
  - right. simpl in Hin.
    repeat (destruct Hin as [<- | Hin]; [first [reflexivity | discriminate Heq] |]).
    destruct Hin.
  - left. split; [exact Hin | reflexivity].
Qed.

(** In a match of the pattern of a row of plain characters, the group
    [name] holds the key of the row. *)
Lemma plain_match_name (k1 k2 : string) (type_ : NlxHeader.converter)
      (txt : string) (ms : list Re.rematch) (m : Re.rematch) :
  In (k1, k2, type_) plain_keys ->
  NlxHeader.re_findall (NlxHeader.prop_pattern k1) txt = Ok ms ->
  In m ms ->
  Re.group m 1 = k1.
Proof.
  intros Hplain Hfind Hin.
  pose proof plain_keys_compile as Hall.
  rewrite List.Forall_forall in Hall.
  pose proof (Hall _ Hplain) as Hc.
  change (Re.compile (NlxHeader.prop_pattern k1)
          = Some (prop_compiled (lit_regex k1))) in Hc.
  rewrite (re_findall_compiled _ txt _ Hc) in Hfind. injection Hfind as <-.
  apply finditer_match_at in Hin. destruct Hin as (adv & pos & t & Hm).
  eapply prop_match_name, Hm.
Qed.

(** A row stores its matches under its own key, the "Feature" row under
    keys that start with "F". *)
Lemma assigns_key (txt : string) (row : string * string * NlxHeader.converter)
      (n : string) :
  In row NlxHeader.txt_header_keys ->
  assigns txt row n ->
  n = row_key row \/ exists t, n = String "F" t.
Proof.
  intros Hrow (ms & m & Hfind & Hin & Hkey).
  unfold key_of in Hkey. unfold row_key.
  destruct (String.eqb (snd (fst row)) ""); [| left; congruence].
  destruct (table_rows row Hrow) as [Hplain | ->].
  - left. destruct row as [[k1 k2] type_]. cbn [fst snd] in *.
    rewrite <- Hkey.
    eapply (plain_match_name _ _ _ txt); eassumption.
  - right. destruct feature_key_compiles as [r Hr].
    cbn [fst snd] in Hfind.
    rewrite (re_findall_compiled _ txt _ Hr) in Hfind. injection Hfind as <-.
    apply finditer_match_at in Hin. destruct Hin as (adv & pos & s' & Hm).
    apply feature_match_name in Hm. destruct Hm as [t Ht].
    exists t. congruence.
Qed.

Lemma foldM_app {A S} (body : A -> S -> result S) (l1 l2 : list A) (s : S) :
  foldM body (l1 ++ l2)%list s = (s1 <- foldM body l1 s ;; foldM body l2 s1).
Proof.
  revert s. induction l1 as [|a t IH]; intros s; simpl; [reflexivity |].
  destruct (body a s) as [s1|e]; simpl; [apply IH | reflexivity].
Qed.

Section PropertyTable.
Context `{PyLib}.

Lemma read_match_lookup_other (k2 : string) (type_ : NlxHeader.converter)
      (m : Re.rematch) (s s' : gmap string value) (n : string) :
  NlxHeader.read_match k2 type_ m s = Ok s' ->
  key_of k2 m <> n -> s' !! n = s !! n.
Proof.
  unfold NlxHeader.read_match. intros Hm Hne. bind_inv Hm. injection Hm as <-.
  apply lookup_insert_ne. exact Hne.
Qed.

Lemma read_match_lookup_key (k2 : string) (type_ : NlxHeader.converter)
      (m : Re.rematch) (s s' : gmap string value) :
  NlxHeader.read_match k2 type_ m s = Ok s' ->
  s' !! key_of k2 m
  = Some (match type_ with
          | NlxHeader.to_none => VStr (Py.rstrip_char " " (Re.group m 2))
          | _ => default VNone (s' !! key_of k2 m)
          end).
Proof.
  unfold NlxHeader.read_match. intros Hm. bind_inv Hm. injection Hm as <-.
  fold (key_of k2 m). rewrite lookup_insert_eq.
  destruct type_; try reflexivity.
  simpl in Hstep. injection Hstep as <-. reflexivity.
Qed.

Lemma read_matches_lookup_other (k2 : string) (type_ : NlxHeader.converter)
      (n : string) (ms : list Re.rematch) :
  (forall m, In m ms -> key_of k2 m <> n) ->
  forall s s', foldM (NlxHeader.read_match k2 type_) ms s = Ok s' ->
               s' !! n = s !! n.
Proof.
  induction ms as [|m t IH]; intros Hne s s' Hf; simpl in Hf.
  - injection Hf as <-. reflexivity.
  - bind_inv Hf. rewrite (IH (fun m' Hm' => Hne m' (or_intror Hm')) _ _ Hf).
    eapply read_match_lookup_other; [exact Hstep | apply Hne; left; reflexivity].
Qed.

(** A row leaves alone the keys that it does not store a match under. *)
Lemma read_key_lookup_other (txt : string)
      (row : string * string * NlxHeader.converter)
      (s s' : gmap string value) (n : string) :
  NlxHeader.read_key txt row s = Ok s' ->
  ~ assigns txt row n -> s' !! n = s !! n.
Proof.
  destruct row as [[k1 k2] type_]. rewrite read_key_eq.
  intros Hk Hna. bind_inv Hk.
  eapply read_matches_lookup_other; [| exact Hk].
  intros m Hin Hkey. apply Hna. exists a, m. auto.
Qed.

Lemma read_keys_lookup_other (txt : string) (n : string)
      (rows : list (string * string * NlxHeader.converter)) :
  (forall row, In row rows -> ~ assigns txt row n) ->
  forall s s', foldM (NlxHeader.read_key txt) rows s = Ok s' ->
               s' !! n = s !! n.
Proof.
  induction rows as [|row t IH]; intros Hna s s' Hf; simpl in Hf.
  - injection Hf as <-. reflexivity.
  - bind_inv Hf. rewrite (IH (fun r Hr => Hna r (or_intror Hr)) _ _ Hf).
    eapply read_key_lookup_other; [exact Hstep | apply Hna; left; reflexivity].
Qed.

Lemma read_keys_grows (txt : string)
      (rows : list (string * string * NlxHeader.converter))
      (s s' : gmap string value) :
  foldM (NlxHeader.read_key txt) rows s = Ok s' -> grows s s'.
Proof.
  apply foldM_grows. intros [[k1 k2] type_] s1 s2 Hkey.
  rewrite read_key_eq in Hkey. bind_inv Hkey.
  revert Hkey. apply foldM_grows. intros m s3 s4 Hm.
  unfold NlxHeader.read_match in Hm. bind_inv Hm. injection Hm as <-.
  apply grows_insert.
Qed.

Lemma read_properties_split
      (l1 l2 : list (string * string * NlxHeader.converter))
      (row : string * string * NlxHeader.converter)
      (filename txt : string) (s : gmap string value) :
  NlxHeader.txt_header_keys = (l1 ++ row :: l2)%list ->
  NlxHeader.read_properties filename txt s
  = (s1 <- foldM (NlxHeader.read_key txt) l1 s ;;
     s2 <- NlxHeader.read_key txt row s1 ;;
     foldM (NlxHeader.read_key txt) l2 s2).
Proof.
  intros Htable. unfold NlxHeader.read_properties.
  generalize NlxHeader.txt_header_keys, Htable. intros l ->.
  rewrite foldM_app. reflexivity.
Qed.

(** A pass-through row of plain characters whose pattern matches stores
    the value of its last match under its key; the later rows keep it
    when none of them has that key. *)
Lemma read_properties_last_match
      (k1 : string) (l1 l2 : list (string * string * NlxHeader.converter))
      (filename txt : string) (ms0 : list Re.rematch) (m : Re.rematch)
      (s s' : gmap string value) :
  NlxHeader.txt_header_keys = (l1 ++ (k1, "", NlxHeader.to_none) :: l2)%list ->
  In (k1, "", NlxHeader.to_none) plain_keys ->
  (forall row, In row l2 -> row_key row <> k1) ->
  (forall t, k1 <> String "F" t) ->
  NlxHeader.re_findall (NlxHeader.prop_pattern k1) txt = Ok (ms0 ++ [m])%list ->
  NlxHeader.read_properties filename txt s = Ok s' ->
  s' !! k1 = Some (VStr (Py.rstrip_char " " (Re.group m 2))).
Proof.
  intros Htable Hplain Hlater HnotF Hfind Hread.
  rewrite (read_properties_split _ _ _ _ _ _ Htable) in Hread.
  bind_inv Hread. bind_inv Hread.
  assert (Hrow : a0 !! k1 = Some (VStr (Py.rstrip_char " " (Re.group m 2)))).
  { rewrite read_key_eq, Hfind in Hstep0.
    cbn [bind] in Hstep0. rewrite foldM_app in Hstep0. bind_inv Hstep0.
    cbn [foldM] in Hstep0. bind_inv Hstep0. injection Hstep0 as <-.
    assert (Hkey : key_of "" m = k1).
    { eapply (plain_match_name _ _ _ txt); [exact Hplain | exact Hfind |].
      apply in_or_app. right. left. reflexivity. }
    pose proof (read_match_lookup_key _ _ _ _ _ Hstep2) as Hl.
    rewrite Hkey in Hl. exact Hl. }
  rewrite <- Hrow. eapply read_keys_lookup_other; [| exact Hread].
  intros row Hin Hassign.
  assert (Hrow_in : In row NlxHeader.txt_header_keys).
  { rewrite Htable. apply in_or_app. right. right. exact Hin. }
  destruct (assigns_key txt row k1 Hrow_in Hassign) as [Hk | [t Ht]].
  - apply (Hlater row Hin). congruence.
  - apply (HnotF t Ht).
Qed.

(** A pass-through row of plain characters whose pattern matches leaves
    its key in the header. *)
Lemma read_properties_key_present
      (k1 : string) (type_ : NlxHeader.converter) (filename txt : string)
      (m : Re.rematch) (ms : list Re.rematch) (s s' : gmap string value) :
  In (k1, "", type_) plain_keys ->
  NlxHeader.re_findall (NlxHeader.prop_pattern k1) txt = Ok (m :: ms) ->
  NlxHeader.read_properties filename txt s = Ok s' ->
  is_Some (s' !! k1).
Proof.
  intros Hplain Hfind Hread.
  pose proof (plain_keys_in_table _ Hplain) as Hin.
  apply in_split in Hin. destruct Hin as (l1 & l2 & Htable).
  rewrite (read_properties_split _ _ _ _ _ _ Htable) in Hread.
  bind_inv Hread. bind_inv Hread.
  apply read_keys_grows in Hread. apply Hread.
  rewrite read_key_eq, Hfind in Hstep0.
  cbn [bind foldM] in Hstep0. bind_inv Hstep0.
  assert (Hg : grows a1 a0).
  { revert Hstep0. apply foldM_grows. intros m' s3 s4 Hm.
    unfold NlxHeader.read_match in Hm. bind_inv Hm. injection Hm as <-.
    apply grows_insert. }
  apply Hg.
  assert (Hkey : key_of "" m = k1).
  { eapply (plain_match_name _ _ _ txt); [exact Hplain | exact Hfind |].
    left. reflexivity. }
  pose proof (read_match_lookup_key _ _ _ _ _ Hstep1) as Hl.
  rewrite Hkey in Hl. rewrite Hl. eauto.
Qed.
End PropertyTable.

(** ** Entries that a pass leaves alone *)

Lemma agree_refl (ks : list string) (s : gmap string value) : agree_except ks s s.
Proof. intros k _. reflexivity. Qed.

Lemma agree_insert (ks : list string) (s s' : gmap string value)
      (k : string) (v : value) :
  In k ks -> agree_except ks s s' -> agree_except ks s (<[k := v]> s').
Proof.
  intros Hk Ha k' Hk'. rewrite lookup_insert_ne; [apply Ha, Hk' |].
  intros ->. contradiction.
Qed.

#[local] Hint Resolve agree_refl : agree.
#[local] Hint Extern 1 (agree_except _ _ (<[_ := _]> _)) =>
  apply agree_insert; [simpl; tauto |] : agree.

Section Agreement.
Context `{PyLib}.

Lemma convert_channel_ids_names_agree (filename : string)
      (s s' : gmap string value) (n : nat) :
  NlxHeader.convert_channel_ids_names filename s = Ok (s', n) ->
  agree_except ["channel_ids"; "channel_names"] s s'.
Proof.
  unfold NlxHeader.convert_channel_ids_names. intros Hc.
  run_inv; auto 6 with agree.
Qed.

Lemma setApplicationAndVersion_agree (s s' : gmap string value) :
  NlxHeader.setApplicationAndVersion s = Ok s' ->
  agree_except ["ApplicationName"; "ApplicationVersion"] s s'.
Proof.
  unfold NlxHeader.setApplicationAndVersion. intros Hc.
  run_inv; auto 6 with agree.
Qed.

Lemma setBitToMicroVolt_agree (s s' : gmap string value) :
  NlxHeader.setBitToMicroVolt s = Ok s' ->
  agree_except ["bit_to_microVolt"] s s'.
Proof.
  unfold NlxHeader.setBitToMicroVolt. intros Hc.
  run_inv; auto 6 with agree.
Qed.

Lemma readTimeDate_agree (txt : string) (s s' : gmap string value) :
  NlxHeader.readTimeDate txt s = Ok s' ->
  agree_except ["recording_opened"; "recording_closed"] s s'.
Proof.
  unfold NlxHeader.readTimeDate. intros Hc.
  run_inv; auto 6 with agree.
Qed.

(** Without a [channel_ids] entry, [convert_channel_ids_names] stores the
    placeholder list and counts no channel id entry. *)
Lemma convert_channel_ids_names_placeholder (filename : string)
      (s s' : gmap string value) (n : nat) :
  s !! "channel_ids" = None ->
  NlxHeader.convert_channel_ids_names filename s = Ok (s', n) ->
  n = 0 /\ s' !! "channel_ids" = Some (VList [VStr "unknown"]).
Proof.
  unfold NlxHeader.convert_channel_ids_names. intros Hnone Hc. rewrite Hnone in Hc.
  cbn [bind] in Hc.
  run_inv; (split; [reflexivity |]);
    repeat (rewrite lookup_insert_ne by discriminate);
    apply lookup_insert_eq.
Qed.

(** With no channel id entry counted, [setInputRanges] turns a field of
    one integer token into the empty list. *)
Lemma setInputRanges_single_token (s : gmap string value) (v : value)
      (tok : string) :
  s !! "InputRange" = Some v ->
  NlxHeader.findall_in "\w+" v = Ok [tok] ->
  NlxHeader.setInputRanges 0 s
  = match Py.int tok with
    | Some _ => Ok (<["InputRange" := VList []]> s)
    | None => Err (ValueError "invalid literal for int()")
    end.
Proof.
  intros Hir Htok. unfold NlxHeader.setInputRanges. rewrite Hir, Htok.
  cbn [bind]. destruct (Py.int tok); reflexivity.
Qed.

(** [setApplicationAndVersion] raises when the header has both
    [CheetahRev] and [ApplicationName]. *)
Lemma setApplicationAndVersion_rejects_both (s : gmap string value) :
  is_Some (s !! "CheetahRev") ->
  is_Some (s !! "ApplicationName") ->
  NlxHeader.setApplicationAndVersion s = Err (AssertionError "").
Proof.
  intros [rev Hrev] Han. unfold NlxHeader.setApplicationAndVersion.
  rewrite Hrev. rewrite (bool_decide_eq_true_2 _ Han). reflexivity.
Qed.

(** C8. When the header text has a match of the [CheetahRev] row and a
    match of the [ApplicationName] row, [NlxHeader(filename, props_only)]
    raises; when the two passes before [setApplicationAndVersion] return,
    what it raises is the [AssertionError] of that method's first
    branch. *)
Theorem init_rejects_CheetahRev_with_ApplicationName
    (filename file : string) (props_only : bool)
    (m1 m2 : Re.rematch) (ms1 ms2 : list Re.rematch) :
  NlxHeader.re_findall (NlxHeader.prop_pattern "CheetahRev") (header_text file)
  = Ok (m1 :: ms1) ->
  NlxHeader.re_findall (NlxHeader.prop_pattern "ApplicationName") (header_text file)
  = Ok (m2 :: ms2) ->
  fails (NlxHeader.__init__ filename file props_only)
  /\ forall s1 s2 n,
      NlxHeader.read_properties filename (header_text file) ∅ = Ok s1 ->
      NlxHeader.convert_channel_ids_names filename s1 = Ok (s2, n) ->
      NlxHeader.__init__ filename file props_only = Err (AssertionError "").
Proof.
  intros Hrev Han.
  assert (Hboth : forall s1 s2 n,
             NlxHeader.read_properties filename (header_text file) ∅ = Ok s1 ->
             NlxHeader.convert_channel_ids_names filename s1 = Ok (s2, n) ->
             NlxHeader.setApplicationAndVersion s2 = Err (AssertionError "")).
  { intros s1 s2 n Hread Hconv.
    apply convert_channel_ids_names_grows in Hconv.
    apply setApplicationAndVersion_rejects_both; apply Hconv.
    - eapply (read_properties_key_present "CheetahRev"); [| exact Hrev | exact Hread].
      unfold plain_keys. apply filter_In. split; [| reflexivity]. simpl. tauto.
    - eapply (read_properties_key_present "ApplicationName");
        [| exact Han | exact Hread].
      unfold plain_keys. apply filter_In. split; [| reflexivity]. simpl. tauto. }
  split.
  - destruct (NlxHeader.__init__ filename file props_only) as [self|e] eqn:Hi;
      [| apply fails_Err].
    exfalso. apply init_Ok in Hi.
    destruct Hi as (s1 & s2 & n & s3 & s4 & s5 & Hread & Hconv & Happ & _).
    rewrite (Hboth _ _ _ Hread Hconv) in Happ. discriminate Happ.
  - intros s1 s2 n Hread Hconv.
    pose proof (Hboth _ _ _ Hread Hconv) as Happ.
    unfold NlxHeader.__init__. fold (header_text file).
    rewrite Hread. cbn [bind]. rewrite Hconv. cbn [bind]. rewrite Happ.
    destruct (negb props_only && _); reflexivity.
Qed.

Lemma read_properties_eq (filename txt : string) (s : gmap string value) :
  NlxHeader.read_properties filename txt s
  = foldM (NlxHeader.read_key txt) NlxHeader.txt_header_keys s.
Proof. reflexivity. Qed.

(** Only the [ADChannel] row has the key [channel_ids]. *)
Lemma row_key_channel_ids (row : string * string * NlxHeader.converter) :
  In row NlxHeader.txt_header_keys ->
  row_key row = "channel_ids" ->
  row = ("ADChannel", "channel_ids", NlxHeader.to_none).
Proof.
  intros Hin Hkey. simpl in Hin.
  repeat (destruct Hin as [<- | Hin];
          [first [reflexivity | vm_compute in Hkey; discriminate Hkey] |]).
  destruct Hin.
Qed.

(** When the [ADChannel] row matches nowhere in the header text,
    [read_properties] stores no [channel_ids] entry. *)
Lemma read_properties_no_channel_ids (filename txt : string)
      (s s' : gmap string value) :
  NlxHeader.re_findall (NlxHeader.prop_pattern "ADChannel") txt = Ok [] ->
  NlxHeader.read_properties filename txt s = Ok s' ->
  s' !! "channel_ids" = s !! "channel_ids".
Proof.
  intros Hnone Hread. rewrite read_properties_eq in Hread.
  eapply read_keys_lookup_other; [| exact Hread].
  intros row Hin Hassign.
  destruct (assigns_key txt row _ Hin Hassign) as [Hk | [t Ht]];
    [| discriminate Ht].
  symmetry in Hk. apply (row_key_channel_ids row Hin) in Hk. subst row.
  destruct Hassign as (ms & m & Hfind & Hm & _).
  cbn [fst] in Hfind. rewrite Hnone in Hfind. injection Hfind as <-.
  destruct Hm.
Qed.

(** The value that [read_properties] stores for the [InputRange] row:
    that of its last match. *)
Lemma read_properties_InputRange (filename txt : string)
      (ms0 : list Re.rematch) (m : Re.rematch) (s s' : gmap string value) :
  NlxHeader.re_findall (NlxHeader.prop_pattern "InputRange") txt
  = Ok (ms0 ++ [m])%list ->
  NlxHeader.read_properties filename txt s = Ok s' ->
  s' !! "InputRange" = Some (VStr (Py.rstrip_char " " (Re.group m 2))).
Proof.
  intros Hfind Hread.
  eapply (read_properties_last_match "InputRange"
            (firstn 11 NlxHeader.txt_header_keys)
            (skipn 12 NlxHeader.txt_header_keys));
    [reflexivity | | | | exact Hfind | exact Hread].
  - unfold plain_keys. apply filter_In. split; [| reflexivity]. simpl. tauto.
  - intros row Hin. simpl in Hin.
    repeat (destruct Hin as [<- | Hin]; [vm_compute; discriminate |]).
    destruct Hin.
  - intros t Ht. discriminate Ht.
Qed.

(** C10, as amended. For a header text in which the [ADChannel] row
    matches nowhere and the last match of the [InputRange] row has a
    value of exactly one token: whenever [NlxHeader(filename, props_only)]
    returns, [InputRange] is the empty list and [channel_ids] is the
    placeholder list ["unknown"], and the token is an integer literal;
    and the input-range pass, called with 0 channel id entries on a header
    holding that value, accepts an integer literal and stores the empty
    list. *)
Theorem init_input_range_without_channel_ids
    (filename file : string) (props_only : bool)
    (ms0 : list Re.rematch) (m : Re.rematch) (tok : string) :
  NlxHeader.re_findall (NlxHeader.prop_pattern "ADChannel") (header_text file)
  = Ok [] ->
  NlxHeader.re_findall (NlxHeader.prop_pattern "InputRange") (header_text file)
  = Ok (ms0 ++ [m])%list ->
  NlxHeader.findall_in "\w+" (VStr (Py.rstrip_char " " (Re.group m 2))) = Ok [tok] ->
  (forall self,
      NlxHeader.__init__ filename file props_only = Ok self ->
      self !! "InputRange" = Some (VList [])
      /\ self !! "channel_ids" = Some (VList [VStr "unknown"])
      /\ Py.int tok <> None)
  /\ (forall s : gmap string value,
        s !! "InputRange" = Some (VStr (Py.rstrip_char " " (Re.group m 2))) ->
        Py.int tok <> None ->
        NlxHeader.setInputRanges 0 s = Ok (<["InputRange" := VList []]> s)).
Proof.
  intros Hnone Hfind Htok. split.
  - intros self Hi. apply init_Ok in Hi.
    destruct Hi as (s1 & s2 & n & s3 & s4 & s5
                    & Hread & Hconv & Happ & Hbtm & Hir & Htd).
    pose proof (read_properties_no_channel_ids _ _ _ _ Hnone Hread) as Hids1.
    rewrite lookup_empty in Hids1.
    pose proof (read_properties_InputRange _ _ _ _ _ _ Hfind Hread) as Hir1.
    destruct (convert_channel_ids_names_placeholder _ _ _ _ Hids1 Hconv)
      as [-> Hids2].
    apply convert_channel_ids_names_agree in Hconv.
    apply setApplicationAndVersion_agree in Happ.
    apply setBitToMicroVolt_agree in Hbtm.
    assert (Hir4 : s4 !! "InputRange"
                   = Some (VStr (Py.rstrip_char " " (Re.group m 2)))).
    { rewrite Hbtm, Happ, Hconv; [exact Hir1 | | |]; simpl; intuition discriminate. }
    assert (Hids4 : s4 !! "channel_ids" = Some (VList [VStr "unknown"])).
    { rewrite Hbtm, Happ; [exact Hids2 | |]; simpl; intuition discriminate. }
    rewrite (setInputRanges_single_token s4 _ tok Hir4 Htok) in Hir.
    destruct (Py.int tok) as [z|]; [| discriminate Hir].
    injection Hir as <-.
    assert (Hfinal : self !! "InputRange" = Some (VList [])
                     /\ self !! "channel_ids" = Some (VList [VStr "unknown"])).
    { destruct props_only.
      - subst self. rewrite lookup_insert_eq.
        rewrite lookup_insert_ne by discriminate. auto.
      - apply readTimeDate_agree in Htd.
        rewrite !Htd by (simpl; intuition discriminate).
        rewrite lookup_insert_eq. rewrite lookup_insert_ne by discriminate. auto. }
    destruct Hfinal as [Hf1 Hf2]. repeat split; [exact Hf1 | exact Hf2 | discriminate].
  - intros s Hs Hint.
    rewrite (setInputRanges_single_token s _ tok Hs Htok).
    destruct (Py.int tok); [reflexivity | contradiction].
Qed.
End Agreement.

(** * The model run on the sample headers *)

(** C1. [Sample.file_without_marker] does not start with eight [#]
    characters, yet [NlxHeader(filename, props_only=False)] returns a
    header: the [ValueError] of the check is built and never raised. *)
Theorem init_returns_without_marker :
  Py.startswith (header_text Sample.file_without_marker) "########" = false
  /\ succeeds (@NlxHeader.__init__ Ref.lib "Events.nev" Sample.file_without_marker false).
Proof.
  split; [vm_compute; reflexivity |].
  apply is_ok_succeeds. vm_compute. reflexivity.
Qed.

(** The check of the marker has no effect on any file: the strict call is
    the lenient one followed by [readTimeDate]. *)
Lemma init_strict_is_lenient_then_readTimeDate `{PyLib} (filename file : string) :
  NlxHeader.__init__ filename file false
  = (self <- NlxHeader.__init__ filename file true ;;
     NlxHeader.readTimeDate (header_text file) self).
Proof.
  unfold NlxHeader.__init__. fold (header_text file).
  destruct (Py.startswith (header_text file) "########"); cbn [negb andb bind discard];
    destruct (NlxHeader.read_properties _ _ _) as [s1|]; [| reflexivity | | reflexivity];
    cbn [bind];
    (destruct (NlxHeader.convert_channel_ids_names _ _) as [[s2 n]|]; [| reflexivity]);
    cbn [bind];
    (destruct (NlxHeader.setApplicationAndVersion _) as [s3|]; [| reflexivity]);
    cbn [bind];
    (destruct (NlxHeader.setBitToMicroVolt _) as [s4|]; [| reflexivity]);
    cbn [bind];
    (destruct (NlxHeader.setInputRanges _ _) as [s5|]; reflexivity).
Qed.

(** C2, witness: Cheetah 5.4.0 on a text with the open line and no close
    line raises the [IOError] of the close step; BML on a text with its
    open line returns and stores no [recording_closed]. *)
Lemma readTimeDate_close_timestamp_witness :
  @NlxHeader.readTimeDate Ref.lib Sample.text_open_only Sample.cheetah_5_4_0
  = Err (IOError NlxHeader.close_msg "Cheetah")
  /\ (exists self',
         @NlxHeader.readTimeDate Ref.lib Sample.text_bml Sample.bml_2_0 = Ok self'
         /\ self' !! "recording_closed" = Sample.bml_2_0 !! "recording_closed").
Proof.
  split.
  - destruct (@readTimeDate_close_timestamp Ref.lib Sample.text_open_only
                Sample.cheetah_5_4_0 "Cheetah" NlxHeader.v5_4_0 eq_refl)
      as [Hclose _].
    assert (Hs2 : NlxHeader.re_search
                    "## Time Closed \(m/d/y\): (?P<date>\S+)  At Time: (?P<time>\S+)"
                    Sample.text_open_only = Ok None)
      by (vm_compute; reflexivity).
    destruct (Hclose _ eq_refl Hs2) as [_ Hpast].
    eapply Hpast. vm_compute. reflexivity.
  - destruct (@readTimeDate_close_timestamp Ref.lib Sample.text_bml
                Sample.bml_2_0 "BML" NlxHeader.inHeader eq_refl)
      as [_ Hnone].
    destruct (Hnone eq_refl) as [Hopen _].
    eapply Hopen. vm_compute. reflexivity.
Defined.

(** C3, witness: the Cheetah 4.0.2 example of the source, under
    "inHeader", and the Cheetah 5.4.0 text with a close line: both return
    with [recording_opened] set to [None]. *)
Lemma readTimeDate_open_timestamp_lenient_witness :
  (exists self',
      @NlxHeader.readTimeDate Ref.lib Sample.text_cheetah_4_0_2 Sample.cheetah_4_0_2
      = Ok self'
      /\ self' !! "recording_opened" = Some VNone)
  /\ (exists self',
         @NlxHeader.readTimeDate Ref.lib Sample.text_short_year Sample.cheetah_5_4_0
         = Ok self'
         /\ self' !! "recording_opened" = Some VNone).
Proof.
  split.
  - refine (proj2 (proj2 (@readTimeDate_open_timestamp_lenient Ref.lib
              Sample.text_cheetah_4_0_2 Sample.cheetah_4_0_2 "Cheetah"
              NlxHeader.inHeader _ "10/4/2003" "10:3:0.578" eq_refl _ _ _ _ _))).
    + vm_compute. reflexivity.
    + vm_compute. reflexivity.
    + vm_compute. reflexivity.
    + vm_compute. reflexivity.
    + intros fmt2 Hfmt. discriminate Hfmt.
  - refine (proj1 (proj2 (proj2 (@readTimeDate_open_timestamp_lenient Ref.lib
              Sample.text_short_year Sample.cheetah_5_4_0 "Cheetah"
              NlxHeader.v5_4_0 _ "1/01/01" "0:00:00.000" eq_refl _ _ _ _ _))) _ _).
    + vm_compute. reflexivity.
    + vm_compute. reflexivity.
    + vm_compute. reflexivity.
    + vm_compute. reflexivity.
    + intros fmt2 Hfmt. discriminate Hfmt.
    + vm_compute. reflexivity.
Defined.

(** C4, witness: the header of Cheetah 5.6.0. *)
Lemma select_hpd_cheetah_5_6_0_witness :
  NlxHeader.select_hpd Sample.cheetah_5_6_0 = Ok ("Cheetah", NlxHeader.inHeader)
  /\ NlxHeader.hpd_getitem "inHeader" = Ok NlxHeader.inHeader
  /\ NlxHeader.hpd_getitem "v5.4.0" = Ok NlxHeader.v5_4_0
  /\ NlxHeader.inHeader <> NlxHeader.v5_4_0.
Proof.
  apply (select_hpd_cheetah_5_6_0 Sample.cheetah_5_6_0 (release [5; 6; 0]%N));
    reflexivity.
Defined.

(** C5, witness: "CscAcqEnt" with "DigitalLynxSX" classifies as [PRE4]. *)
Lemma type_of_recording_base_class_first_witness :
  @NlxHeader.type_of_recording Ref.acq Sample.both_markers = Ok Ref.PRE4.
Proof.
  exact (proj1 (@type_of_recording_base_class_first Ref.acq Sample.both_markers
                  (VStr "CscAcqEnt") (VStr "DigitalLynxSX") eq_refl eq_refl)).
Defined.

(** C6, witness: "AcqSystem1 DigitalLynxSX" gives the member
    [DIGITALLYNXSX]; "Foo BARBAZ" names no member of the reference
    enumeration and raises [KeyError]. *)
Lemma type_of_recording_acquisition_system_witness :
  @NlxHeader.type_of_recording Ref.acq
     (Sample.acquisition_system "AcqSystem1 DigitalLynxSX")
  = Ok Ref.DIGITALLYNXSX
  /\ @NlxHeader.type_of_recording Ref.acq (Sample.acquisition_system "Foo BARBAZ")
     = Err (KeyError "BARBAZ").
Proof.
  split.
  - exact (proj1 (@type_of_recording_acquisition_system Ref.acq
                    (Sample.acquisition_system "AcqSystem1 DigitalLynxSX")
                    (VStr "NCS") "3.3" "AcqSystem1 DigitalLynxSX"
                    "AcqSystem1" "DigitalLynxSX" []
                    eq_refl eq_refl eq_refl eq_refl (or_intror (or_introl eq_refl))
                    eq_refl eq_refl)
                 "DIGITALLYNXSX" eq_refl).
  - exact (proj1 (@type_of_recording_acquisition_system Ref.acq
                    (Sample.acquisition_system "Foo BARBAZ")
                    (VStr "NCS") "3.3" "Foo BARBAZ" "Foo" "BARBAZ" []
                    eq_refl eq_refl eq_refl eq_refl (or_intror (or_introl eq_refl))
                    eq_refl eq_refl)
                 "BARBAZ" eq_refl).
Defined.

(** C7, witness: one factor and four channel ids. *)
Lemma setBitToMicroVolt_scales_witness :
  @NlxHeader.setBitToMicroVolt Ref.lib Sample.one_factor_four_channels
  = Ok (<["bit_to_microVolt" :=
           VList [VFloat 0.03662109375; VFloat 0.03662109375;
                  VFloat 0.03662109375; VFloat 0.03662109375]]>
          Sample.one_factor_four_channels).
Proof.
  destruct (@setBitToMicroVolt_scales Ref.lib Sample.one_factor_four_channels
              (VStr "0.000000036621093749999997")
              ["0.000000036621093749999997"]
              [VInt 0; VInt 1; VInt 2; VInt 3]
              eq_refl eq_refl eq_refl) as [Hone _].
  destruct (Hone "0.000000036621093749999997" 0x1.3a92a30553261p-25%float
                 eq_refl eq_refl) as [_ Hfour].
  exact (Hfour eq_refl).
Defined.

(** C8, witness: [Sample.file_both_fields] is rejected. *)
Lemma init_rejects_CheetahRev_with_ApplicationName_witness :
  fails (@NlxHeader.__init__ Ref.lib "CSC1.ncs" Sample.file_both_fields true)
  /\ forall s1 s2 n,
      @NlxHeader.read_properties Ref.lib "CSC1.ncs"
         (header_text Sample.file_both_fields) ∅ = Ok s1 ->
      @NlxHeader.convert_channel_ids_names "CSC1.ncs" s1 = Ok (s2, n) ->
      @NlxHeader.__init__ Ref.lib "CSC1.ncs" Sample.file_both_fields true
      = Err (AssertionError "").
Proof.
  eapply (@init_rejects_CheetahRev_with_ApplicationName Ref.lib).
  - vm_compute. reflexivity.
  - vm_compute. reflexivity.
Defined.

(** C9, witness: the header of [Sample.file_cheetah_5_6_3]. *)
Lemma init_sets_application_name_and_version_witness :
  exists self,
    @NlxHeader.__init__ Ref.lib "CSC1.ncs" Sample.file_cheetah_5_6_3 false = Ok self
    /\ is_Some (self !! "ApplicationName")
    /\ is_Some (self !! "ApplicationVersion").
Proof.
  destruct (is_ok_succeeds
              (@NlxHeader.__init__ Ref.lib "CSC1.ncs" Sample.file_cheetah_5_6_3 false))
    as [self Hi]; [vm_compute; reflexivity |].
  exists self. split; [exact Hi |].
  exact (@init_sets_application_name_and_version Ref.lib _ _ _ _ Hi).
Defined.

(** C10, the claim as stated fails: each of the two headers has an
    [InputRange] field of one token and no [ADChannel] field; with the
    token "abc" [NlxHeader] raises [ValueError], and with the token "1000"
    the strict call raises [IOError], the text having no timestamp
    line. *)
Lemma init_fails_with_single_input_range_token :
  (NlxHeader.re_findall (NlxHeader.prop_pattern "ADChannel")
                        (header_text (Sample.file_input_range "abc")) = Ok []
   /\ (exists m,
          NlxHeader.re_findall (NlxHeader.prop_pattern "InputRange")
                               (header_text (Sample.file_input_range "abc")) = Ok [m]
          /\ NlxHeader.findall_in "\w+" (VStr (Py.rstrip_char " " (Re.group m 2)))
             = Ok ["abc"])
   /\ @NlxHeader.__init__ Ref.lib "CSC1.ncs" (Sample.file_input_range "abc") true
      = Err (ValueError "invalid literal for int()"))
  /\ (NlxHeader.re_findall (NlxHeader.prop_pattern "ADChannel")
                           (header_text (Sample.file_input_range "1000")) = Ok []
      /\ (exists m,
             NlxHeader.re_findall (NlxHeader.prop_pattern "InputRange")
                                  (header_text (Sample.file_input_range "1000"))
             = Ok [m]
             /\ NlxHeader.findall_in "\w+" (VStr (Py.rstrip_char " " (Re.group m 2)))
                = Ok ["1000"])
      /\ @NlxHeader.__init__ Ref.lib "CSC1.ncs" (Sample.file_input_range "1000") false
         = Err (IOError NlxHeader.open_msg "Neuraview")).
Proof.
  split.
  - split; [vm_compute; reflexivity |]. split; [| vm_compute; reflexivity].
    eexists. split.
    + vm_compute. reflexivity.
    + vm_compute. reflexivity.
  - split; [vm_compute; reflexivity |]. split; [| vm_compute; reflexivity].
    eexists. split.
    + vm_compute. reflexivity.
    + vm_compute. reflexivity.
Qed.

(** C10, witness: with the token "1000" the lenient call returns, with an
    empty [InputRange] and the placeholder [channel_ids]. *)
Lemma init_input_range_without_channel_ids_witness :
  exists self,
    @NlxHeader.__init__ Ref.lib "CSC1.ncs" (Sample.file_input_range "1000") true
    = Ok self
    /\ self !! "InputRange" = Some (VList [])
    /\ self !! "channel_ids" = Some (VList [VStr "unknown"])
    /\ Py.int "1000" <> None.
Proof.
  destruct (is_ok_succeeds
              (@NlxHeader.__init__ Ref.lib "CSC1.ncs"
                 (Sample.file_input_range "1000") true))
    as [self Hi]; [vm_compute; reflexivity |].
  exists self. split; [exact Hi |].
  refine (proj1 (@init_input_range_without_channel_ids Ref.lib "CSC1.ncs"
                   (Sample.file_input_range "1000") true [] _ "1000" _ _ _)
                self Hi).
  - vm_compute. reflexivity.
  - vm_compute. reflexivity.
  - vm_compute. reflexivity.
Defined.

(** * Further properties *)

(** ** Tactics *)

(** [bind_inv] with the names of the value and of its equation given. *)
Tactic Notation "bind_as" hyp(H) ident(a) ident(Ha) :=
  apply bind_Ok in H; destruct H as (a & Ha & H).

(** Rewrites a lookup in the header after a pass into one before it. *)
Tactic Notation "before_pass" constr(Hagree) :=
  rewrite Hagree by (simpl; intuition discriminate).
Tactic Notation "before_pass" constr(Hagree) "in" hyp(H) :=
  rewrite Hagree in H by (simpl; intuition discriminate).

(** Membership in [plain_keys], by evaluation of the table. *)
Ltac in_plain_keys :=
  unfold plain_keys; apply filter_In; split; [simpl; tauto | reflexivity].

(** ** Texts *)

Lemma append_nil (t : string) : "" +:+ t = t.
Proof. reflexivity. Qed.

Lemma append_cons (c : ascii) (s t : string) :
  String c s +:+ t = String c (s +:+ t).
Proof. reflexivity. Qed.

Lemma append_empty_r (s : string) : s +:+ "" = s.
Proof.
  induction s as [|c s IH]; [reflexivity |].
  rewrite append_cons, IH. reflexivity.
Qed.

Lemma append_assoc (s t u : string) : (s +:+ t) +:+ u = s +:+ (t +:+ u).
Proof.
  induction s as [|c s IH]; [reflexivity |].
  rewrite !append_cons, IH. reflexivity.
Qed.

Lemma length_append (s t : string) :
  String.length (s +:+ t) = String.length s + String.length t.
Proof.
  induction s as [|c s IH]; [reflexivity |].
  rewrite append_cons. simpl. rewrite IH. reflexivity.
Qed.

Lemma rev_onto_append (s acc : string) : Py.rev_onto s acc = Py.rev s +:+ acc.
Proof.
  unfold Py.rev. revert acc. induction s as [|c s IH]; intros acc; [reflexivity |].
  cbn [Py.rev_onto].
  rewrite (IH (String c acc)), (IH (String c "")), append_assoc. reflexivity.
Qed.

Lemma rev_cons (c : ascii) (s : string) : Py.rev (String c s) = Py.rev s +:+ String c "".
Proof. unfold Py.rev at 1. cbn [Py.rev_onto]. apply rev_onto_append. Qed.

Lemma rev_of_append (s t : string) : Py.rev (s +:+ t) = Py.rev t +:+ Py.rev s.
Proof.
  induction s as [|c s IH].
  - rewrite append_nil. change (Py.rev "") with "". rewrite append_empty_r. reflexivity.
  - rewrite append_cons, !rev_cons, IH, append_assoc. reflexivity.
Qed.

Lemma rev_twice (s : string) : Py.rev (Py.rev s) = s.
Proof.
  induction s as [|c s IH]; [reflexivity |].
  rewrite rev_cons, rev_of_append, IH. reflexivity.
Qed.

Lemma replicate_char_snoc (c : ascii) (k : nat) :
  replicate_char c k +:+ String c "" = String c (replicate_char c k).
Proof.
  induction k as [|k IH]; [reflexivity |].
  cbn [replicate_char]. rewrite append_cons, IH. reflexivity.
Qed.

Lemma rev_replicate_char (c : ascii) (k : nat) :
  Py.rev (replicate_char c k) = replicate_char c k.
Proof.
  induction k as [|k IH]; [reflexivity |].
  cbn [replicate_char]. rewrite rev_cons, IH. apply replicate_char_snoc.
Qed.

Lemma length_replicate_char (c : ascii) (k : nat) :
  String.length (replicate_char c k) = k.
Proof. induction k as [|k IH]; simpl; [reflexivity | now rewrite IH]. Qed.

Lemma lstrip_char_replicate (c : ascii) (k : nat) (s : string) :
  Py.lstrip_char c (replicate_char c k +:+ s) = Py.lstrip_char c s.
Proof.
  induction k as [|k IH]; [reflexivity |].
  cbn [replicate_char]. rewrite append_cons. cbn [Py.lstrip_char].
  rewrite Ascii.eqb_refl. exact IH.
Qed.

Lemma rstrip_char_replicate (c : ascii) (k : nat) (s : string) :
  Py.rstrip_char c (s +:+ replicate_char c k) = Py.rstrip_char c s.
Proof.
  unfold Py.rstrip_char.
  rewrite rev_of_append, rev_replicate_char, lstrip_char_replicate. reflexivity.
Qed.

Lemma lstrip_char_append_replicate (c : ascii) (k : nat) (s : string) :
  Py.lstrip_char c (s +:+ replicate_char c k)
  = match Py.lstrip_char c s with
    | "" => ""
    | t => t +:+ replicate_char c k
    end.
Proof.
  induction s as [|d s IH].
  - rewrite append_nil, <- (append_empty_r (replicate_char c k)).
    rewrite lstrip_char_replicate. reflexivity.
  - rewrite append_cons. cbn [Py.lstrip_char].
    destruct (Ascii.eqb c d); [exact IH | reflexivity].
Qed.

Lemma strip_char_replicate (c : ascii) (k : nat) (s : string) :
  Py.strip_char c (s +:+ replicate_char c k) = Py.strip_char c s.
Proof.
  unfold Py.strip_char. rewrite lstrip_char_append_replicate.
  destruct (Py.lstrip_char c s) as [|d t]; [reflexivity |].
  apply rstrip_char_replicate.
Qed.

Lemma lstrip_char_idempotent (c : ascii) (s : string) :
  Py.lstrip_char c (Py.lstrip_char c s) = Py.lstrip_char c s.
Proof.
  induction s as [|d s IH]; [reflexivity |]. simpl.
  destruct (Ascii.eqb c d) eqn:Hcd; [exact IH |].
  simpl. rewrite Hcd. reflexivity.
Qed.

Lemma rstrip_char_idempotent (c : ascii) (s : string) :
  Py.rstrip_char c (Py.rstrip_char c s) = Py.rstrip_char c s.
Proof.
  unfold Py.rstrip_char. rewrite rev_twice, lstrip_char_idempotent.
  reflexivity.
Qed.

Lemma take_append (s t : string) : Py.take (String.length s) (s +:+ t) = s.
Proof.
  induction s as [|c s IH]; [destruct t; reflexivity |].
  rewrite append_cons. simpl. rewrite IH. reflexivity.
Qed.

Lemma take_appended (pre s' : string) :
  Py.take (String.length (pre +:+ s') - String.length s') (pre +:+ s') = pre.
Proof.
  rewrite length_append.
  replace (String.length pre + String.length s' - String.length s')
    with (String.length pre) by lia.
  apply take_append.
Qed.

Lemma take_all (n : nat) (s : string) : String.length s <= n -> Py.take n s = s.
Proof.
  revert s. induction n as [|n IH]; intros [|c s] Hlen; simpl in *;
    try reflexivity; [lia |].
  rewrite IH by lia. reflexivity.
Qed.

Lemma startswith_append (l x : string) : Py.startswith (l +:+ x) l = true.
Proof.
  induction l as [|c l IH]; [apply startswith_empty |].
  rewrite append_cons. simpl. rewrite Ascii.eqb_refl. exact IH.
Qed.

Lemma startswith_take (l s : string) (n : nat) :
  Py.startswith s l = true -> String.length l <= n ->
  Py.startswith (Py.take n s) l = true.
Proof.
  revert s n. induction l as [|c l IH]; intros s n Hp Hn.
  - apply startswith_empty.
  - destruct s as [|d s]; [discriminate |]. simpl in Hp.
    destruct (Ascii.eqb c d) eqn:Hcd; [| discriminate].
    destruct n as [|n]; [simpl in Hn; lia |].
    simpl. rewrite Hcd. apply IH; [exact Hp | simpl in Hn; lia].
Qed.

Lemma startswith_length (l s : string) :
  Py.startswith s l = true -> String.length l <= String.length s.
Proof.
  revert s. induction l as [|c l IH]; intros s Hp; simpl; [lia |].
  destruct s as [|d s]; [discriminate |]. simpl in Hp.
  destruct (Ascii.eqb c d); [| discriminate].
  apply IH in Hp. simpl. lia.
Qed.

Lemma drop_append (l x : string) : Py.drop (String.length l) (l +:+ x) = x.
Proof. induction l as [|c l IH]; [reflexivity | exact IH]. Qed.

Lemma drop_whole (s : string) : Py.drop (String.length s) s = "".
Proof. induction s as [|c s IH]; [reflexivity | exact IH]. Qed.

Lemma length_drop (n : nat) (s : string) :
  String.length (Py.drop n s) = String.length s - n.
Proof.
  revert s. induction n as [|n IH]; intros [|c s]; simpl; try lia.
  apply IH.
Qed.

Lemma all_chars_ext (P Q : ascii -> bool) (s : string) :
  (forall c, P c = Q c) -> all_chars P s = all_chars Q s.
Proof.
  intros Hpq. induction s as [|c s IH]; [reflexivity |].
  simpl. rewrite Hpq, IH. reflexivity.
Qed.

Lemma all_chars_append (P : ascii -> bool) (s t : string) :
  all_chars P (s +:+ t) = all_chars P s && all_chars P t.
Proof.
  induction s as [|c s IH]; [reflexivity |].
  rewrite append_cons. simpl. rewrite IH, andb_assoc. reflexivity.
Qed.

Lemma all_chars_rev (P : ascii -> bool) (s : string) :
  all_chars P (Py.rev s) = all_chars P s.
Proof.
  induction s as [|c s IH]; [reflexivity |].
  rewrite rev_cons, all_chars_append, IH. simpl.
  rewrite andb_true_r. apply andb_comm.
Qed.

Lemma all_chars_lstrip_char (P : ascii -> bool) (c : ascii) (s : string) :
  all_chars P s = true -> all_chars P (Py.lstrip_char c s) = true.
Proof.
  induction s as [|d s IH]; [reflexivity |]. simpl.
  destruct (Ascii.eqb c d).
  - intros Hs. apply andb_true_iff in Hs. apply IH, Hs.
  - tauto.
Qed.

Lemma all_chars_rstrip_char (P : ascii -> bool) (c : ascii) (s : string) :
  all_chars P s = true -> all_chars P (Py.rstrip_char c s) = true.
Proof.
  intros Hs. unfold Py.rstrip_char.
  rewrite all_chars_rev. apply all_chars_lstrip_char.
  rewrite all_chars_rev. exact Hs.
Qed.

(** ** The header block *)

(** The header text of a padded block is the text, stripped. *)
Lemma header_text_padded (txt : string) (k : nat) (records : string) :
  String.length txt + k = NlxHeader.HEADER_SIZE ->
  header_text (padded txt k records) = Py.strip_char (ascii_of_nat 0) txt.
Proof.
  intros Hlen. unfold header_text, padded.
  rewrite <- append_assoc.
  replace NlxHeader.HEADER_SIZE
    with (String.length (txt +:+ replicate_char (ascii_of_nat 0) k))
    by (rewrite length_append, length_replicate_char; exact Hlen).
  rewrite take_append. apply strip_char_replicate.
Qed.

Lemma init_header_text `{PyLib} (filename file file' : string) (props_only : bool) :
  header_text file = header_text file' ->
  NlxHeader.__init__ filename file props_only
  = NlxHeader.__init__ filename file' props_only.
Proof.
  intros Heq. unfold NlxHeader.__init__.
  change (Py.strip_char (ascii_of_nat 0) (Py.take NlxHeader.HEADER_SIZE file))
    with (header_text file).
  change (Py.strip_char (ascii_of_nat 0) (Py.take NlxHeader.HEADER_SIZE file'))
    with (header_text file').
  rewrite Heq. reflexivity.
Qed.

(** X1. [NlxHeader] reads the header block only, and not its padding: a
    file made of a text, of NUL characters that fill the block of
    [HEADER_SIZE] bytes, and of records after the block, parses as the
    text alone does. *)
Theorem init_ignores_padding_and_records `{PyLib}
    (filename txt : string) (k : nat) (records : string) (props_only : bool) :
  String.length txt + k = NlxHeader.HEADER_SIZE ->
  NlxHeader.__init__ filename (padded txt k records) props_only
  = NlxHeader.__init__ filename txt props_only.
Proof.
  intros Hlen. apply init_header_text.
  rewrite (header_text_padded txt k records Hlen).
  unfold header_text. rewrite take_all by lia. reflexivity.
Qed.

(** ** Repetitions and searches *)

Lemma rmatch_prefixed {R : Type} (l : string) (r : Re.regex) :
  forall (s : string) (caps : Re.captures) (k : string -> Re.captures -> option R),
    Re.rmatch (prefixed l r) s caps k
    = if Py.startswith s l then Re.rmatch r (Py.drop (String.length l) s) caps k
      else None.
Proof.
  induction l as [|c l IH]; intros s caps k.
  - destruct s; reflexivity.
  - cbn [prefixed Re.rmatch]. destruct s as [|d s']; [reflexivity |].
    cbn [Py.startswith String.length Py.drop].
    destruct (Ascii.eqb c d); [apply IH | reflexivity].
Qed.

Section StarFacts.
Context {R : Type}.

(** The repetition of a set, character by character: the longer match
    first. *)
Lemma rmatch_star_set (negated : bool) (items : list Re.set_item)
      (c : ascii) (s : string) (caps : Re.captures)
      (k : string -> Re.captures -> option R) :
  Re.rmatch (Re.RStar (Re.RSet negated items)) (String c s) caps k
  = if Re.set_matches negated items c
    then match Re.rmatch (Re.RStar (Re.RSet negated items)) s caps k with
         | Some x => Some x
         | None => k (String c s) caps
         end
    else k (String c s) caps.
Proof.
  cbn [Re.rmatch]. cbn [Re.star_loop String.length].
  destruct (Re.set_matches negated items c); [| reflexivity].
  replace (String.length s <? S (String.length s)) with true
    by (symmetry; apply Nat.ltb_lt; lia).
  reflexivity.
Qed.

Lemma rmatch_star_set_empty (negated : bool) (items : list Re.set_item)
      (caps : Re.captures) (k : string -> Re.captures -> option R) :
  Re.rmatch (Re.RStar (Re.RSet negated items)) "" caps k = k "" caps.
Proof. reflexivity. Qed.

(** A successful repetition of a set has consumed characters of the set
    and left the captures alone. *)
Lemma rmatch_star_set_continues (negated : bool) (items : list Re.set_item)
      (s : string) (caps : Re.captures)
      (k : string -> Re.captures -> option R) (x : R) :
  Re.rmatch (Re.RStar (Re.RSet negated items)) s caps k = Some x ->
  exists pre s',
    s = pre +:+ s'
    /\ all_chars (Re.set_matches negated items) pre = true
    /\ k s' caps = Some x.
Proof.
  induction s as [|c s IH].
  - rewrite rmatch_star_set_empty. intros Hk. exists "", "". auto.
  - rewrite rmatch_star_set.
    destruct (Re.set_matches negated items c) eqn:Hc.
    + destruct (Re.rmatch _ s caps k) as [y|] eqn:Hs.
      * intros Hy. injection Hy as ->.
        destruct (IH eq_refl) as (pre & s' & -> & Hpre & Hk).
        exists (String c pre), s'. simpl. rewrite Hc, Hpre. auto.
      * intros Hk. exists "", (String c s). auto.
    + intros Hk. exists "", (String c s). auto.
Qed.

(** A repetition takes all the characters of the set in front of a
    character outside it, when the continuation accepts that. *)
Lemma rmatch_star_set_all (negated : bool) (items : list Re.set_item)
      (pre s' : string) (caps : Re.captures)
      (k : string -> Re.captures -> option R) (x : R) :
  all_chars (Re.set_matches negated items) pre = true ->
  match s' with
  | "" => True
  | String c _ => Re.set_matches negated items c = false
  end ->
  k s' caps = Some x ->
  Re.rmatch (Re.RStar (Re.RSet negated items)) (pre +:+ s') caps k = Some x.
Proof.
  intros Hpre Hstop Hk. induction pre as [|c pre IH].
  - rewrite append_nil. destruct s' as [|c t]; [exact Hk |].
    rewrite rmatch_star_set, Hstop. exact Hk.
  - simpl in Hpre. apply andb_true_iff in Hpre. destruct Hpre as [Hc Hpre].
    rewrite append_cons, rmatch_star_set, Hc, (IH Hpre). reflexivity.
Qed.

(** A repetition up to the end of the text gives its last character
    back to a continuation that needs it. *)
Lemma rmatch_star_set_but_last (negated : bool) (items : list Re.set_item)
      (pre : string) (q : ascii) (caps : Re.captures)
      (k : string -> Re.captures -> option R) (x : R) :
  all_chars (Re.set_matches negated items) pre = true ->
  Re.set_matches negated items q = true ->
  k "" caps = None ->
  k (String q "") caps = Some x ->
  Re.rmatch (Re.RStar (Re.RSet negated items)) (pre +:+ String q "") caps k = Some x.
Proof.
  intros Hpre Hq Hend Hk. induction pre as [|c pre IH].
  - rewrite append_nil, rmatch_star_set, Hq, rmatch_star_set_empty, Hend. exact Hk.
  - simpl in Hpre. apply andb_true_iff in Hpre. destruct Hpre as [Hc Hpre].
    rewrite append_cons, rmatch_star_set, Hc, (IH Hpre). reflexivity.
Qed.

End StarFacts.

Lemma search_from_eq (p : Re.pattern) (adv : bool) (pos : nat) (s : string) :
  Re.search_from p adv pos s
  = match Re.match_at p adv pos s with
    | Some m => Some m
    | None =>
      match s with
      | "" => None
      | String _ s' => Re.search_from p false (S pos) s'
      end
    end.
Proof. destruct s; reflexivity. Qed.

(** ** Matches of the patterns of the table *)

(** In a match of [prop_pattern] for a key that starts with the plain
    characters [l], the group [name] starts with [l]. *)
Lemma prefixed_match_name (l : string) (r : Re.regex) (adv : bool) (pos : nat)
      (s : string) (m : Re.rematch) :
  Re.match_at (prop_compiled (prefixed l r)) adv pos s = Some m ->
  Py.startswith (Re.group m 1) l = true.
Proof.
  unfold Re.match_at. cbn [Re.p_regex prop_compiled Re.p_groups Re.rmatch].
  destruct s as [|d s1]; [discriminate |].
  destruct (Ascii.eqb "-" d); [| discriminate].
  rewrite rmatch_prefixed.
  destruct (Py.startswith s1 l) eqn:Hp; [| discriminate].
  intros Hm. apply rmatch_continues in Hm.
  destruct Hm as (s3 & caps3 & Hk & Hlen & _).
  apply rmatch_continues in Hk.
  destruct Hk as (s' & caps' & Hk & _ & Hc).
  destruct (adv && _); [discriminate |].
  injection Hk as <-. unfold Re.group. cbn [Re.m_groups Nat.sub].
  specialize (Hc 0). rewrite nth_set_capture in Hc. cbn [Nat.sub Nat.eqb] in Hc.
  assert (Hslot : nth 0 caps' None
                  = Some (Py.take (String.length s1 - String.length s3) s1)).
  { apply Hc. intros [Hx | []]. discriminate. }
  destruct caps' as [|h t]; simpl in Hslot; [discriminate |].
  subst h. cbn [nth_error]. apply startswith_take; [exact Hp |].
  rewrite length_drop in Hlen. apply startswith_length in Hp. lia.
Qed.

Lemma feature_key_prefixed :
  exists r, Re.compile (NlxHeader.prop_pattern "Feature \w+ \d+")
            = Some (prop_compiled (prefixed "Feature " r)).
Proof. eexists. vm_compute. reflexivity. Qed.

(** A row stores its matches under its own key, the "Feature" row under
    keys that start with "Feature ". *)
Lemma assigns_row_key (txt : string) (row : string * string * NlxHeader.converter)
      (n : string) :
  In row NlxHeader.txt_header_keys ->
  assigns txt row n ->
  (In row plain_keys /\ n = row_key row) \/ Py.startswith n "Feature " = true.
Proof.
  intros Hrow (ms & m & Hfind & Hin & Hkey).
  destruct (table_rows row Hrow) as [Hplain | ->].
  - left. split; [exact Hplain |].
    unfold key_of in Hkey. unfold row_key.
    destruct (String.eqb (snd (fst row)) ""); [| congruence].
    destruct row as [[k1 k2] type_]. cbn [fst snd] in *.
    rewrite <- Hkey.
    eapply (plain_match_name _ _ _ txt); eassumption.
  - right. destruct feature_key_prefixed as [r Hr].
    cbn [fst snd] in Hfind, Hkey.
    rewrite (re_findall_compiled _ txt _ Hr) in Hfind. injection Hfind as <-.
    apply finditer_match_at in Hin. destruct Hin as (adv & pos & s' & Hm).
    apply (prefixed_match_name "Feature " r) in Hm. unfold key_of in Hkey. simpl in Hkey.
    rewrite <- Hkey. exact Hm.
Qed.

(** In a match of [prop_pattern] the group [value] is made of characters
    of the class [[\S ]]. *)
Lemma prop_match_value (name : Re.regex) (adv : bool) (pos : nat) (s : string)
      (m : Re.rematch) :
  Re.match_at (prop_compiled name) adv pos s = Some m ->
  all_chars value_char (Re.group m 2) = true.
Proof.
  unfold Re.match_at. cbn [Re.p_regex prop_compiled Re.p_groups].
  cbn [Re.rmatch]. destruct s as [|d s1]; [discriminate |].
  destruct (Ascii.eqb "-" d); [| discriminate].
  intros Hm. apply rmatch_continues in Hm.
  destruct Hm as (s2 & caps2 & Hm & _ & _).
  unfold value_regex in Hm. cbn [Re.rmatch] in Hm.
  change (Re.star_loop ?b ?k (S (String.length ?s)) ?s ?caps)
    with (Re.rmatch (Re.RStar (Re.RSet false [Re.ISpace])) s caps k) in Hm.
  destruct s2 as [|c2 s2]; [discriminate |].
  destruct (Re.set_matches false [Re.ISpace] c2); [| discriminate].
  apply rmatch_star_set_continues in Hm.
  destruct Hm as (_ & s3 & _ & _ & Hm).
  change (Re.star_loop ?b ?k (S (String.length ?s)) ?s ?caps)
    with (Re.rmatch (Re.RStar (Re.RSet false [Re.INotSpace; Re.IChar " "])) s caps k)
    in Hm.
  apply rmatch_star_set_continues in Hm.
  destruct Hm as (pre & s' & -> & Hpre & Hm).
  destruct (adv && _); [discriminate |].
  injection Hm as <-. unfold Re.group. cbn [Re.m_groups Nat.sub].
  rewrite take_appended.
  destruct caps2 as [|h [|h2 t]]; exact Hpre.
Qed.

Lemma table_row_compiles (row : string * string * NlxHeader.converter) :
  In row NlxHeader.txt_header_keys ->
  exists name, Re.compile (NlxHeader.prop_pattern (fst (fst row)))
               = Some (prop_compiled name).
Proof.
  intros Hrow. destruct (table_rows row Hrow) as [Hplain | ->].
  - pose proof plain_keys_compile as Hall.
    rewrite List.Forall_forall in Hall. eexists. apply (Hall _ Hplain).
  - destruct feature_key_compiles as [r Hr]. eexists. exact Hr.
Qed.

Lemma table_match_value (row : string * string * NlxHeader.converter)
      (txt : string) (ms : list Re.rematch) (m : Re.rematch) :
  In row NlxHeader.txt_header_keys ->
  NlxHeader.re_findall (NlxHeader.prop_pattern (fst (fst row))) txt = Ok ms ->
  In m ms ->
  all_chars value_char (Re.group m 2) = true.
Proof.
  intros Hrow Hfind Hin.
  destruct (table_row_compiles row Hrow) as [name Hc].
  rewrite (re_findall_compiled _ txt _ Hc) in Hfind. injection Hfind as <-.
  apply finditer_match_at in Hin. destruct Hin as (adv & pos & t & Hm).
  eapply prop_match_value, Hm.
Qed.

(** A text without a dash has no match of a pattern of the table. *)
Lemma search_from_without_dash (name : Re.regex) (s : string) :
  all_chars (fun c => negb (Ascii.eqb "-" c)) s = true ->
  forall (adv : bool) (pos : nat),
    Re.search_from (prop_compiled name) adv pos s = None.
Proof.
  induction s as [|c s IH]; intros Hs adv pos.
  - reflexivity.
  - cbn [all_chars] in Hs. apply andb_true_iff in Hs. destruct Hs as [Hc Hs].
    rewrite search_from_eq.
    assert (Hm : Re.match_at (prop_compiled name) adv pos (String c s) = None).
    { unfold Re.match_at. cbn [Re.p_regex prop_compiled Re.rmatch].
      apply negb_true_iff in Hc. rewrite Hc. reflexivity. }
    rewrite Hm. apply IH, Hs.
Qed.

Lemma finditer_without_dash (name : Re.regex) (s : string) :
  all_chars (fun c => negb (Ascii.eqb "-" c)) s = true ->
  Re.finditer (prop_compiled name) s = [].
Proof.
  intros Hs. unfold Re.finditer. rewrite Nat.add_comm. cbn [Nat.add Re.finditer_fuel].
  rewrite (search_from_without_dash name s Hs). reflexivity.
Qed.

(** A search skips the characters in front of the first dash. *)
Lemma search_from_skips (name : Re.regex) (before s : string) (pos : nat) :
  all_chars (fun d => negb (Ascii.eqb "-" d)) before = true ->
  Re.search_from (prop_compiled name) false pos (before +:+ s)
  = Re.search_from (prop_compiled name) false (pos + String.length before) s.
Proof.
  revert pos. induction before as [|c before IH]; intros pos Hb.
  - rewrite append_nil, Nat.add_0_r. reflexivity.
  - cbn [all_chars] in Hb. apply andb_true_iff in Hb. destruct Hb as [Hc Hb].
    rewrite append_cons, search_from_eq.
    assert (Hm : Re.match_at (prop_compiled name) false pos
                             (String c (before +:+ s)) = None).
    { unfold Re.match_at. cbn [Re.p_regex prop_compiled Re.rmatch].
      apply negb_true_iff in Hc. rewrite Hc. reflexivity. }
    rewrite Hm, (IH (S pos) Hb). cbn [String.length].
    rewrite Nat.add_succ_r. reflexivity.
Qed.

(** The match of the pattern of a row on a line of the header: a dash,
    the key, whitespace, and the value up to the end of the line. The
    whitespace may hold line ends. *)
Lemma prop_match_line (k1 ws val rest : string) (adv : bool) (pos : nat) :
  ws <> "" ->
  all_chars Py.isspace ws = true ->
  match val with
  | "" => False
  | String c _ => Py.isspace c = false
  end ->
  all_chars value_char val = true ->
  match rest with
  | "" => True
  | String d _ => value_char d = false
  end ->
  Re.match_at (prop_compiled (lit_regex k1)) adv pos
              ("-" +:+ k1 +:+ ws +:+ val +:+ rest)
  = Some {| Re.m_start := pos;
            Re.m_text := "-" +:+ k1 +:+ ws +:+ val;
            Re.m_groups := [Some k1; Some val];
            Re.m_names := [("name", 1); ("value", 2)] |}.
Proof.
  intros Hne Hws Hval Hcls Hrest.
  unfold Re.match_at. cbn [Re.p_regex prop_compiled Re.p_groups Re.p_names repeat].
  change ("-" +:+ k1 +:+ ws +:+ val +:+ rest)
    with (String "-" (k1 +:+ ws +:+ val +:+ rest)).
  cbn [Re.rmatch]. rewrite Ascii.eqb_refl, rmatch_lit, startswith_append, drop_append.
  rewrite take_appended.
  unfold value_regex. cbn [Re.rmatch].
  destruct ws as [|w ws]; [contradiction |].
  cbn [all_chars] in Hws. apply andb_true_iff in Hws. destruct Hws as [Hw Hws].
  rewrite append_cons.
  assert (Hset : Re.set_matches false [Re.ISpace] w = true).
  { unfold Re.set_matches. simpl. rewrite Hw. reflexivity. }
  rewrite Hset.
  change (Re.star_loop ?b ?k (S (String.length ?s)) ?s ?caps)
    with (Re.rmatch (Re.RStar (Re.RSet false [Re.ISpace])) s caps k).
  apply rmatch_star_set_all.
  - rewrite <- Hws. apply all_chars_ext. intros c. unfold Re.set_matches. simpl.
    rewrite orb_false_r. reflexivity.
  - destruct val as [|c val']; [contradiction |]. rewrite append_cons.
    unfold Re.set_matches. simpl. rewrite Hval. reflexivity.
  - change (Re.star_loop ?b ?k (S (String.length ?s)) ?s ?caps)
      with (Re.rmatch (Re.RStar (Re.RSet false [Re.INotSpace; Re.IChar " "])) s caps k).
    apply rmatch_star_set_all; [exact Hcls | exact Hrest |].
    rewrite take_appended. cbn [Re.set_capture Nat.sub].
    assert (Htext : String "-" (k1 +:+ String w (ws +:+ val +:+ rest))
                    = ("-" +:+ k1 +:+ String w ws +:+ val) +:+ rest).
    { change (String "-" ?x) with ("-" +:+ x). rewrite <- (append_cons w).
      rewrite !append_assoc. reflexivity. }
    rewrite Htext, take_appended.
    assert (Hlen : (String.length rest
                    =? String.length (("-" +:+ k1 +:+ String w ws +:+ val) +:+ rest))
                   = false).
    { apply Nat.eqb_neq. rewrite (length_append _ rest).
      change ("-" +:+ ?x) with (String "-" x). cbn [String.length]. lia. }
    rewrite Hlen, andb_false_r. reflexivity.
Qed.

(** The one match of the pattern of a row on a text that holds a line of
    the row and has no dash in front of the line, nor after its
    value. *)
Lemma prop_finditer_line (k1 before ws val rest : string) :
  all_chars (fun d => negb (Ascii.eqb "-" d)) before = true ->
  ws <> "" ->
  all_chars Py.isspace ws = true ->
  match val with
  | "" => False
  | String c _ => Py.isspace c = false
  end ->
  all_chars value_char val = true ->
  match rest with
  | "" => True
  | String d _ => value_char d = false
  end ->
  all_chars (fun d => negb (Ascii.eqb "-" d)) rest = true ->
  Re.finditer (prop_compiled (lit_regex k1))
              (before +:+ "-" +:+ k1 +:+ ws +:+ val +:+ rest)
  = [{| Re.m_start := String.length before;
        Re.m_text := "-" +:+ k1 +:+ ws +:+ val;
        Re.m_groups := [Some k1; Some val];
        Re.m_names := [("name", 1); ("value", 2)] |}].
Proof.
  intros Hbefore Hne Hws Hval Hcls Hrest Hdash. unfold Re.finditer.
  rewrite Nat.add_comm. cbn [Nat.add Re.finditer_fuel].
  rewrite (search_from_skips _ before _ 0 Hbefore), search_from_eq.
  rewrite (prop_match_line k1 ws val rest false) by assumption.
  cbn [Re.m_text Re.m_start Nat.sub Nat.add]. rewrite Nat.sub_0_r.
  assert (Hdrop : Py.drop (String.length before
                           + String.length ("-" +:+ k1 +:+ ws +:+ val))
                          (before +:+ "-" +:+ k1 +:+ ws +:+ val +:+ rest) = rest).
  { rewrite <- (drop_append (before +:+ "-" +:+ k1 +:+ ws +:+ val) rest) at 2.
    rewrite <- (length_append before), !append_assoc. reflexivity. }
  rewrite Hdrop, (search_from_without_dash _ rest Hdash). reflexivity.
Qed.

(** ** The rows of the table *)

Lemma table_NoDup : List.NoDup NlxHeader.txt_header_keys.
Proof.
  apply (List.NoDup_map_inv (fun row => fst (fst row))).
  apply NoDup_ListNoDup, (bool_decide_unpack _). vm_compute. reflexivity.
Qed.

Lemma plain_row_keys_NoDup : List.NoDup (map row_key plain_keys).
Proof. apply NoDup_ListNoDup, (bool_decide_unpack _). vm_compute. reflexivity. Qed.

Lemma plain_row_keys_not_feature (row : string * string * NlxHeader.converter) :
  In row plain_keys -> Py.startswith (row_key row) "Feature " = false.
Proof.
  revert row. apply List.Forall_forall.
  let l := eval vm_compute in plain_keys in change plain_keys with l.
  repeat (constructor; [vm_compute; reflexivity |]).
  constructor.
Qed.

Lemma NoDup_map_eq {A B} (f : A -> B) (l : list A) (a b : A) :
  List.NoDup (map f l) -> In a l -> In b l -> f a = f b -> a = b.
Proof.
  induction l as [|x t IH]; simpl; intros Hnd Ha Hb Hf; [destruct Ha |].
  apply List.NoDup_cons_iff in Hnd. destruct Hnd as [Hx Hnd].
  destruct Ha as [-> | Ha], Hb as [-> | Hb].
  - reflexivity.
  - exfalso. apply Hx. rewrite Hf. apply in_map, Hb.
  - exfalso. apply Hx. rewrite <- Hf. apply in_map, Ha.
  - apply IH; assumption.
Qed.

(** Only the row itself stores a match under the key of a row of plain
    characters. *)
Lemma assigns_own_key (txt : string) (row row' : string * string * NlxHeader.converter) :
  In row plain_keys ->
  In row' NlxHeader.txt_header_keys ->
  assigns txt row' (row_key row) ->
  row' = row.
Proof.
  intros Hplain Hin Hassign.
  destruct (assigns_row_key txt row' _ Hin Hassign) as [[Hplain' Hk] | Hf].
  - symmetry in Hk. apply (NoDup_map_eq row_key plain_keys); auto using plain_row_keys_NoDup.
  - rewrite (plain_row_keys_not_feature row Hplain) in Hf. discriminate Hf.
Qed.

Lemma foldM_fails_at {A S} (body : A -> S -> result S) (l : list A) (a : A) :
  In a l -> (forall s, fails (body a s)) -> forall s, fails (foldM body l s).
Proof.
  intros Hin Hbad. induction l as [|x t IH]; intros s; [destruct Hin |].
  simpl. destruct Hin as [-> | Hin].
  - destruct (Hbad s) as [e ->]. apply fails_Err.
  - destruct (body x s) as [s1|e]; simpl; [apply IH, Hin | apply fails_Err].
Qed.

Section Rows.
Context `{PyLib}.

Lemma read_match_entry (k2 : string) (type_ : NlxHeader.converter)
      (m : Re.rematch) (s s' : gmap string value) :
  NlxHeader.read_match k2 type_ m s = Ok s' ->
  exists v, NlxHeader.convert type_ (Py.rstrip_char " " (Re.group m 2)) = Ok v
            /\ s' = <[key_of k2 m := v]> s.
Proof.
  unfold NlxHeader.read_match. intros Hm. bind_inv Hm. injection Hm as <-.
  exists a. split; [exact Hstep | reflexivity].
Qed.

(** What one row does to its own key. *)
Lemma read_key_entry (k1 k2 : string) (type_ : NlxHeader.converter)
      (txt : string) (ms : list Re.rematch) (s s' : gmap string value) :
  In (k1, k2, type_) plain_keys ->
  NlxHeader.re_findall (NlxHeader.prop_pattern k1) txt = Ok ms ->
  NlxHeader.read_key txt (k1, k2, type_) s = Ok s' ->
  match last ms with
  | None => s' = s
  | Some m =>
    exists v, NlxHeader.convert type_ (Py.rstrip_char " " (Re.group m 2)) = Ok v
              /\ s' !! row_key (k1, k2, type_) = Some v
  end.
Proof.
  intros Hplain Hfind Hkey. rewrite read_key_eq, Hfind in Hkey. cbn [bind] in Hkey.
  destruct (last ms) as [m|] eqn:Hlast.
  - apply last_Some in Hlast. destruct Hlast as [ms0 ->].
    rewrite foldM_app in Hkey. bind_inv Hkey. cbn [foldM] in Hkey. bind_inv Hkey.
    injection Hkey as <-.
    apply read_match_entry in Hstep0. destruct Hstep0 as (v & Hv & ->).
    exists v. split; [exact Hv |].
    assert (Hk : key_of k2 m = row_key (k1, k2, type_)).
    { unfold key_of, row_key. cbn [fst snd].
      destruct (String.eqb k2 ""); [| reflexivity].
      eapply (plain_match_name _ _ _ txt); [exact Hplain | exact Hfind |].
      apply in_or_app. right. left. reflexivity. }
    rewrite Hk. apply lookup_insert_eq.
  - apply last_None in Hlast. subst ms. injection Hkey as <-. reflexivity.
Qed.

(** The rows other than the row of a key leave the entry of the key
    alone. *)
Lemma read_properties_own_row
      (k1 k2 : string) (type_ : NlxHeader.converter) (filename txt : string)
      (s s' : gmap string value) :
  In (k1, k2, type_) plain_keys ->
  NlxHeader.read_properties filename txt s = Ok s' ->
  exists s1 s2,
    s1 !! row_key (k1, k2, type_) = s !! row_key (k1, k2, type_)
    /\ NlxHeader.read_key txt (k1, k2, type_) s1 = Ok s2
    /\ s' !! row_key (k1, k2, type_) = s2 !! row_key (k1, k2, type_).
Proof.
  intros Hplain Hread.
  pose proof (plain_keys_in_table _ Hplain) as Hin.
  destruct (in_split _ _ Hin) as (l1 & l2 & Htable).
  pose proof table_NoDup as Hnd. rewrite Htable in Hnd.
  apply List.NoDup_remove_2 in Hnd.
  assert (Hother : forall rows, (forall r, In r rows -> In r (l1 ++ l2)%list) ->
             forall r, In r rows -> ~ assigns txt r (row_key (k1, k2, type_))).
  { intros rows Hsub r Hr Hassign.
    assert (Hr' : In r NlxHeader.txt_header_keys).
    { rewrite Htable. apply Hsub in Hr. apply in_app_or in Hr.
      apply in_or_app. simpl. tauto. }
    apply (assigns_own_key txt _ r Hplain Hr') in Hassign. subst r.
    apply Hnd, Hsub, Hr. }
  rewrite (read_properties_split _ _ _ _ _ _ Htable) in Hread.
  bind_as Hread s1 Hbefore. bind_as Hread s2 Hrow.
  exists s1, s2. split; [| split; [exact Hrow |]].
  - apply (read_keys_lookup_other txt _ l1); [| exact Hbefore].
    apply Hother. intros r Hr. apply in_or_app. tauto.
  - apply (read_keys_lookup_other txt _ l2); [| exact Hread].
    apply Hother. intros r Hr. apply in_or_app. tauto.
Qed.

(** X2. The entry that [read_properties] leaves under the key of a row of
    plain characters is that of the last match of the row's pattern in
    the header text, converted by the row's converter; without a match
    the entry is as it was before the call. *)
Theorem read_properties_row_entry
    (k1 k2 : string) (type_ : NlxHeader.converter) (filename txt : string)
    (ms : list Re.rematch) (s s' : gmap string value) :
  In (k1, k2, type_) plain_keys ->
  NlxHeader.re_findall (NlxHeader.prop_pattern k1) txt = Ok ms ->
  NlxHeader.read_properties filename txt s = Ok s' ->
  match last ms with
  | None => s' !! row_key (k1, k2, type_) = s !! row_key (k1, k2, type_)
  | Some m =>
    exists v, NlxHeader.convert type_ (Py.rstrip_char " " (Re.group m 2)) = Ok v
              /\ s' !! row_key (k1, k2, type_) = Some v
  end.
Proof.
  intros Hplain Hfind Hread.
  destruct (read_properties_own_row _ _ _ _ _ _ _ Hplain Hread)
    as (s1 & s2 & Hbefore & Hrow & Hafter).
  pose proof (read_key_entry _ _ _ _ _ _ _ Hplain Hfind Hrow) as Hentry.
  destruct (last ms) as [m|].
  - destruct Hentry as (v & Hv & Hl). exists v. split; [exact Hv |].
    rewrite Hafter. exact Hl.
  - subst s2. rewrite Hafter. exact Hbefore.
Qed.

(** X3. A line of the header gives its key the text after the whitespace
    that follows the key, up to the end of the line. For a header text
    made of a part without a dash, of a dash and the key of a row of
    plain characters, of whitespace, of a value of characters other than
    line ends, and of a rest without a dash, [read_properties] stores the
    converted value, its trailing spaces removed, under the key of the
    row. The whitespace may hold line ends: a property without a value
    takes the next line as its value. *)
Theorem read_properties_value_of_line
    (k1 k2 : string) (type_ : NlxHeader.converter) (filename : string)
    (before ws val rest : string) (s s' : gmap string value) :
  In (k1, k2, type_) plain_keys ->
  all_chars (fun d => negb (Ascii.eqb "-" d)) before = true ->
  ws <> "" ->
  all_chars Py.isspace ws = true ->
  match val with
  | "" => False
  | String c _ => Py.isspace c = false
  end ->
  all_chars value_char val = true ->
  match rest with
  | "" => True
  | String d _ => value_char d = false
  end ->
  all_chars (fun d => negb (Ascii.eqb "-" d)) rest = true ->
  NlxHeader.read_properties filename
    (before +:+ "-" +:+ k1 +:+ ws +:+ val +:+ rest) s = Ok s' ->
  exists v,
    NlxHeader.convert type_ (Py.rstrip_char " " val) = Ok v
    /\ s' !! row_key (k1, k2, type_) = Some v.
Proof.
  intros Hplain Hbefore Hne Hws Hval Hcls Hrest Hdash Hread.
  destruct (read_properties_own_row _ _ _ _ _ _ _ Hplain Hread)
    as (s1 & s2 & _ & Hrow & Hsame).
  pose proof plain_keys_compile as Hall.
  rewrite List.Forall_forall in Hall. pose proof (Hall _ Hplain) as Hc.
  cbn [fst] in Hc.
  assert (Hfind : NlxHeader.re_findall (NlxHeader.prop_pattern k1)
                    (before +:+ "-" +:+ k1 +:+ ws +:+ val +:+ rest)
                  = Ok [{| Re.m_start := String.length before;
                           Re.m_text := "-" +:+ k1 +:+ ws +:+ val;
                           Re.m_groups := [Some k1; Some val];
                           Re.m_names := [("name", 1); ("value", 2)] |}]).
  { rewrite (re_findall_compiled _ _ _ Hc), prop_finditer_line by assumption.
    reflexivity. }
  pose proof (read_key_entry _ _ _ _ _ _ _ Hplain Hfind Hrow) as Hentry.
  cbn [last] in Hentry. destruct Hentry as (v & Hv & Hl).
  exists v. split; [exact Hv |]. rewrite Hsame. exact Hl.
Qed.

(** Every key of the header after [read_properties] was there before, is
    the key of a row of plain characters, or starts with "Feature ". *)
Lemma read_properties_keys (filename txt : string) (s s' : gmap string value)
      (k : string) :
  NlxHeader.read_properties filename txt s = Ok s' ->
  is_Some (s' !! k) ->
  is_Some (s !! k) \/ In k (map row_key plain_keys)
  \/ Py.startswith k "Feature " = true.
Proof.
  intros Hread Hk.
  destruct (in_dec string_dec k (map row_key plain_keys)) as [Hin | Hnin];
    [tauto |].
  destruct (Py.startswith k "Feature ") eqn:Hf; [tauto |].
  left. rewrite read_properties_eq in Hread.
  assert (Hnone : forall row, In row NlxHeader.txt_header_keys -> ~ assigns txt row k).
  { intros row Hrow Hassign.
    destruct (assigns_row_key txt row k Hrow Hassign) as [[Hplain ->] | Hf'].
    - apply Hnin, in_map, Hplain.
    - congruence. }
  rewrite <- (read_keys_lookup_other txt k _ Hnone _ _ Hread). exact Hk.
Qed.

(** X4. The texts that [read_properties] stores are on one line and end
    with no space: a text found in the header after the call was there
    before it, or is made of characters other than whitespace and of
    spaces only, the last one no space. *)
Theorem read_properties_stores_lines
    (filename txt : string) (s s' : gmap string value) (k t : string) :
  NlxHeader.read_properties filename txt s = Ok s' ->
  s' !! k = Some (VStr t) ->
  s !! k = Some (VStr t) \/ stored_text t.
Proof.
  rewrite read_properties_eq.
  assert (Hrows : forall rows, (forall row, In row rows -> In row NlxHeader.txt_header_keys) ->
            forall s0 s1, foldM (NlxHeader.read_key txt) rows s0 = Ok s1 ->
                          s1 !! k = Some (VStr t) ->
                          s0 !! k = Some (VStr t) \/ stored_text t).
  { induction rows as [|row rows IH]; intros Hsub s0 s1 Hf Hk; simpl in Hf.
    - injection Hf as <-. tauto.
    - bind_as Hf s2 Hrow.
      destruct (IH (fun r Hr => Hsub r (or_intror Hr)) _ _ Hf Hk) as [Hk2 | Hst];
        [| tauto].
      clear IH Hf Hk. pose proof (Hsub row (or_introl eq_refl)) as Hin.
      destruct row as [[k1 k2] type_]. rewrite read_key_eq in Hrow.
      bind_as Hrow ms Hfind.
      assert (Hms : forall m, In m ms ->
                all_chars value_char (Re.group m 2) = true).
      { intros m Hm. eapply (table_match_value (k1, k2, type_)); eassumption. }
      clear Hfind Hin Hsub. revert s0 Hrow.
      induction ms as [|m ms IHm]; intros s0 Hrow; simpl in Hrow.
      + injection Hrow as <-. tauto.
      + bind_as Hrow s3 Hm.
        destruct (IHm (fun m' Hm' => Hms m' (or_intror Hm')) _ Hrow) as [Hk3 | Hst];
          [| tauto].
        apply read_match_entry in Hm. destruct Hm as (v & Hv & ->).
        destruct (string_dec (key_of k2 m) k) as [<- | Hne].
        * rewrite lookup_insert_eq in Hk3. injection Hk3 as ->.
          right. destruct type_; simpl in Hv.
          -- injection Hv as <-. split.
             ++ apply all_chars_rstrip_char, Hms. left. reflexivity.
             ++ apply rstrip_char_idempotent.
          -- destruct (float_of_str _); discriminate Hv.
          -- destruct (Py.int _); discriminate Hv.
          -- destruct (String.eqb _ "True"); [discriminate Hv |].
             destruct (String.eqb _ "False"); discriminate Hv.
        * rewrite lookup_insert_ne in Hk3 by exact Hne. tauto. }
  intros Hf Hk. eapply Hrows; [| exact Hf | exact Hk]. auto.
Qed.

Lemma read_properties_fails_at (k1 k2 : string) (type_ : NlxHeader.converter)
      (filename txt : string) (ms : list Re.rematch) (m : Re.rematch)
      (s : gmap string value) :
  In (k1, k2, type_) NlxHeader.txt_header_keys ->
  NlxHeader.re_findall (NlxHeader.prop_pattern k1) txt = Ok ms ->
  In m ms ->
  fails (NlxHeader.convert type_ (Py.rstrip_char " " (Re.group m 2))) ->
  fails (NlxHeader.read_properties filename txt s).
Proof.
  intros Hrow Hfind Hin Hbad. rewrite read_properties_eq.
  revert s. apply (foldM_fails_at _ _ _ Hrow). intros s.
  rewrite read_key_eq, Hfind. cbn [bind].
  revert s. apply (foldM_fails_at _ _ _ Hin). intros s.
  unfold NlxHeader.read_match. destruct Hbad as [e ->]. apply fails_Err.
Qed.

(** X5. A property whose value its converter rejects makes the whole
    parse fail: when some match of a row of [txt_header_keys] in the
    header text has a value on which the row's converter raises,
    [NlxHeader(filename, props_only)] raises. *)
Theorem init_fails_on_rejected_value
    (k1 k2 : string) (type_ : NlxHeader.converter)
    (filename file : string) (props_only : bool)
    (ms : list Re.rematch) (m : Re.rematch) :
  In (k1, k2, type_) NlxHeader.txt_header_keys ->
  NlxHeader.re_findall (NlxHeader.prop_pattern k1) (header_text file) = Ok ms ->
  In m ms ->
  fails (NlxHeader.convert type_ (Py.rstrip_char " " (Re.group m 2))) ->
  fails (NlxHeader.__init__ filename file props_only).
Proof.
  intros Hrow Hfind Hin Hbad.
  destruct (read_properties_fails_at _ _ _ filename _ _ _ ∅ Hrow Hfind Hin Hbad)
    as [e He].
  exists e. unfold NlxHeader.__init__. fold (header_text file).
  rewrite He. destruct (negb props_only && _); reflexivity.
Qed.

Lemma read_properties_without_dash (filename txt : string) (s : gmap string value) :
  all_chars (fun c => negb (Ascii.eqb "-" c)) txt = true ->
  NlxHeader.read_properties filename txt s = Ok s.
Proof.
  intros Htxt. rewrite read_properties_eq.
  assert (Hrows : forall rows,
             (forall row, In row rows -> In row NlxHeader.txt_header_keys) ->
             foldM (NlxHeader.read_key txt) rows s = Ok s).
  { induction rows as [|row rows IH]; intros Hsub; [reflexivity |].
    cbn [foldM].
    destruct (table_row_compiles row (Hsub row (or_introl eq_refl))) as [name Hc].
    destruct row as [[k1 k2] type_]. cbn [fst] in Hc.
    rewrite read_key_eq, (re_findall_compiled _ txt _ Hc).
    rewrite (finditer_without_dash name txt Htxt). cbn [bind foldM].
    apply IH. intros r Hr. apply Hsub. right. exact Hr. }
  apply Hrows. auto.
Qed.

(** X6. A header text without a dash holds no property, and the lenient
    call gives it the header of a Neuraview file with one channel of
    unknown id and name: exactly the four entries [channel_ids],
    [channel_names], [ApplicationName] and [ApplicationVersion]. This is
    so for an empty file. *)
Theorem init_without_properties
    (filename file : string) (v : Version) :
  all_chars (fun c => negb (Ascii.eqb "-" c)) (header_text file) = true ->
  Version_of_str "2" = Some v ->
  NlxHeader.__init__ filename file true
  = Ok (<["ApplicationVersion" := VVersion v]>
          (<["ApplicationName" := VStr "Neuraview"]>
             (<["channel_names" := VList [VStr "unknown"]]>
                (<["channel_ids" := VList [VStr "unknown"]]> ∅)))).
Proof.
  intros Htxt Hv. unfold NlxHeader.__init__. fold (header_text file).
  cbn [negb andb bind].
  rewrite (read_properties_without_dash filename _ ∅ Htxt). cbn [bind].
  assert (Hconv : NlxHeader.convert_channel_ids_names filename ∅
                  = Ok (<["channel_names" := VList [VStr "unknown"]]>
                          (<["channel_ids" := VList [VStr "unknown"]]> ∅), 0)).
  { unfold NlxHeader.convert_channel_ids_names, NlxHeader.getitem.
    rewrite lookup_empty. cbn [bind].
    rewrite lookup_insert_ne by discriminate. rewrite lookup_empty.
    rewrite lookup_insert_eq. reflexivity. }
  rewrite Hconv. cbn [bind].
  assert (Hnone : forall k, k <> "channel_names" -> k <> "channel_ids" ->
             (<["channel_names" := VList [VStr "unknown"]]>
                (<["channel_ids" := VList [VStr "unknown"]]> (∅ : gmap string value)))
               !! k = None).
  { intros k H1 H2. rewrite !lookup_insert_ne by congruence. apply lookup_empty. }
  unfold NlxHeader.setApplicationAndVersion.
  rewrite !Hnone by discriminate. cbn [bind NlxHeader.str_of].
  change (Py.contains "2" " Development") with false. cbv iota. rewrite Hv.
  cbn [bind]. unfold NlxHeader.setBitToMicroVolt.
  rewrite lookup_insert_ne, lookup_insert_ne, Hnone by discriminate.
  cbn [bind]. unfold NlxHeader.setInputRanges.
  rewrite lookup_insert_ne, lookup_insert_ne, Hnone by discriminate.
  reflexivity.
Qed.

End Rows.

(** ** The passes after the table *)

Lemma mapM_image {A B C} (f : A -> result B) (g : C -> B) (l : list A) (l' : list B) :
  (forall a b, f a = Ok b -> exists c, b = g c) ->
  mapM f l = Ok l' -> exists cs, l' = map g cs /\ length cs = length l.
Proof.
  intros Hf. revert l'. induction l as [|a t IH]; simpl; intros l' Hm.
  - injection Hm as <-. exists []. auto.
  - bind_inv Hm. bind_inv Hm. injection Hm as <-.
    destruct (Hf _ _ Hstep) as [c ->].
    destruct (IH _ Hstep0) as (cs & -> & Hlen).
    exists (c :: cs). simpl. auto.
Qed.

Lemma mapM_Err_cases {A B} (f : A -> result B) (l : list A) (e e0 : exn) :
  (forall a e', f a = Err e' -> e' = e0) -> mapM f l = Err e -> e = e0.
Proof.
  intros Hf. induction l as [|a t IH]; simpl; [discriminate |].
  destruct (f a) as [b|e'] eqn:Ha; simpl.
  - destruct (mapM f t) as [bs|e'']; simpl; [discriminate |].
    intros He. injection He as <-. apply IH. reflexivity.
  - intros He. injection He as <-. eapply Hf, Ha.
Qed.

Lemma app_pattern_compiles :
  Re.compile ("(\S*) " +:+ Py.dquote +:+ "([\S ]*)" +:+ Py.dquote)
  = Some app_compiled.
Proof. vm_compute. reflexivity. Qed.

(** The match of the pattern on [name "version"]. *)
Lemma app_match_at (name version : string) :
  all_chars (fun c => negb (Py.isspace c)) name = true ->
  all_chars value_char version = true ->
  Re.match_at app_compiled false 0 (quoted_version name version)
  = Some {| Re.m_start := 0;
            Re.m_text := quoted_version name version;
            Re.m_groups := [Some name; Some version];
            Re.m_names := [] |}.
Proof.
  intros Hname Hversion.
  unfold Re.match_at. cbn [Re.p_regex app_compiled Re.p_groups Re.p_names].
  cbn [Re.rmatch repeat]. 
  change (Re.star_loop ?b ?k (S (String.length ?s)) ?s ?caps)
    with (Re.rmatch (Re.RStar (Re.RSet false [Re.INotSpace])) s caps k).
  unfold quoted_version.
  erewrite rmatch_star_set_all; [reflexivity | | reflexivity |].
  - rewrite <- Hname. apply all_chars_ext. intros c. unfold Re.set_matches.
    simpl. rewrite orb_false_r. reflexivity.
  - rewrite take_appended.
    change (" " +:+ Py.dquote +:+ version +:+ Py.dquote)
      with (String " " (String (ascii_of_nat 34) (version +:+ Py.dquote))).
    cbn [Ascii.eqb Bool.eqb ascii_of_nat ascii_of_pos ascii_of_N Re.set_capture Nat.sub].
    rewrite Ascii.eqb_refl.
    change (Re.star_loop ?b ?k (S (String.length ?s)) ?s ?caps)
      with (Re.rmatch (Re.RStar (Re.RSet false [Re.INotSpace; Re.IChar " "])) s caps k).
    unfold Py.dquote.
    apply rmatch_star_set_but_last; [exact Hversion | reflexivity | reflexivity |].
    rewrite Ascii.eqb_refl. cbn [andb Re.set_capture].
    rewrite (take_appended version (String (ascii_of_nat 34) "")).
    cbn [String.length]. rewrite Nat.sub_0_r, take_all by lia. reflexivity.
Qed.

Lemma app_finditer (name version : string) :
  all_chars (fun c => negb (Py.isspace c)) name = true ->
  all_chars value_char version = true ->
  Re.finditer app_compiled (quoted_version name version)
  = [{| Re.m_start := 0;
        Re.m_text := quoted_version name version;
        Re.m_groups := [Some name; Some version];
        Re.m_names := [] |}].
Proof.
  intros Hname Hversion. unfold Re.finditer.
  rewrite Nat.add_comm. cbn [Nat.add Re.finditer_fuel].
  rewrite search_from_eq, (app_match_at name version Hname Hversion).
  cbn [Re.m_text Re.m_start Nat.sub Nat.add]. rewrite drop_whole.
  destruct (2 * String.length (quoted_version name version)) as [|f];
    reflexivity.
Qed.

Lemma findall_in_nonspace (text : string) :
  exists toks, NlxHeader.findall_in "\S+" (VStr text) = Ok toks.
Proof.
  unfold NlxHeader.findall_in.
  assert (Hc : exists c, Re.compile "\S+" = Some c) by (eexists; vm_compute; reflexivity).
  destruct Hc as [c Hc]. rewrite (re_findall_compiled _ text c Hc).
  eexists. reflexivity.
Qed.

Section Passes.
Context `{PyLib}.

Local Abbreviation int_value c :=
  (match Py.int c with
   | Some z => Ok (VInt z)
   | None => raise (ValueError "invalid literal for int()")
   end).

Lemma setInputRanges_agree (n : nat) (s s' : gmap string value) :
  NlxHeader.setInputRanges n s = Ok s' -> agree_except ["InputRange"] s s'.
Proof.
  unfold NlxHeader.setInputRanges. intros Hc.
  run_inv; auto 6 with agree.
Qed.

(** The channel lists after [convert_channel_ids_names]: [channel_ids]
    is the list of the integers of the field, as many as the count that
    the method returns, or the placeholder with the count 0; and
    [channel_names] has the length of [channel_ids]. *)
Lemma convert_channel_ids_names_lists (filename : string)
      (s s' : gmap string value) (n : nat) :
  NlxHeader.convert_channel_ids_names filename s = Ok (s', n) ->
  exists ids names,
    s' !! "channel_ids" = Some (VList ids)
    /\ s' !! "channel_names" = Some names
    /\ len names = Ok (length ids)
    /\ ((exists zs, ids = map VInt zs /\ n = length zs)
        \/ (ids = [VStr "unknown"] /\ n = 0)).
Proof.
  unfold NlxHeader.convert_channel_ids_names. intros Hc.
  bind_inv Hc. destruct a as [s1 chid_entries]. bind_inv Hc.
  injection Hc as <- <-.
  assert (Hids : exists ids,
             s1 !! "channel_ids" = Some (VList ids)
             /\ ((exists zs, ids = map VInt zs /\ length chid_entries = length zs)
                 \/ (ids = [VStr "unknown"] /\ length chid_entries = 0))).
  { destruct (s !! "channel_ids") as [v|].
    - bind_inv Hstep. bind_inv Hstep. injection Hstep as <- <-.
      exists a1. split; [apply lookup_insert_eq |]. left.
      apply (mapM_image _ VInt) in Hstep2.
      + destruct Hstep2 as (zs & -> & Hlen). exists zs. auto.
      + intros c b Hb. destruct (Py.int c) as [z|]; [| discriminate Hb].
        injection Hb as <-. eauto.
    - injection Hstep as <- <-. exists [VStr "unknown"].
      split; [apply lookup_insert_eq |]. right. auto. }
  destruct Hids as (ids & Hids & Hshape).
  exists ids.
  unfold NlxHeader.getitem in Hstep0.
  destruct (s1 !! "channel_names") as [v|] eqn:Hnames.
  - bind_as Hstep0 toks Htoks. bind_as Hstep0 s2 Hs2.
    bind_as Hstep0 names Hn. bind_as Hstep0 n1 Hn1.
    bind_as Hstep0 ids' Hi. bind_as Hstep0 n2 Hn2.
    bind_as Hstep0 u Hassert. injection Hstep0 as <-.
    destruct (s2 !! "channel_names") as [names'|] eqn:Hnames'; [| discriminate Hn].
    injection Hn as <-.
    assert (Hids' : s2 !! "channel_ids" = Some (VList ids)).
    { destruct toks as [|e1 [|e2 t]].
      - injection Hs2 as <-. exact Hids.
      - rewrite Hids in Hs2. cbn in Hs2. injection Hs2 as <-.
        rewrite lookup_insert_ne by discriminate. exact Hids.
      - injection Hs2 as <-. exact Hids. }
    rewrite Hids' in Hi. injection Hi as <-.
    cbn in Hn2. injection Hn2 as <-.
    exists names'. repeat split; [exact Hids' | | exact Hshape].
    unfold assert in Hassert.
    destruct (Nat.eqb_spec n1 (length ids)) as [<- |]; [exact Hn1 | discriminate].
  - rewrite Hids in Hstep0. cbn in Hstep0. injection Hstep0 as <-.
    exists (VList (repeat (VStr "unknown") (length ids))).
    repeat split; [| apply lookup_insert_eq | | exact Hshape].
    + rewrite lookup_insert_ne by discriminate. exact Hids.
    + simpl. rewrite repeat_length. reflexivity.
Qed.

Lemma setApplicationAndVersion_typed (s s' : gmap string value) :
  NlxHeader.setApplicationAndVersion s = Ok s' ->
  exists name v,
    s' = <["ApplicationVersion" := VVersion v]> (<["ApplicationName" := VStr name]> s).
Proof.
  unfold NlxHeader.setApplicationAndVersion. intros Hc.
  run_inv; eauto.
Qed.

Lemma mapM_Forall2_inv {A B C} (f : A -> result C) (g : B -> C)
      (P : A -> B -> Prop) (l : list A) (l' : list C) :
  (forall a c, f a = Ok c -> exists b, P a b /\ c = g b) ->
  mapM f l = Ok l' -> exists xs, Forall2 P l xs /\ l' = map g xs.
Proof.
  intros Hf. revert l'. induction l as [|a t IH]; simpl; intros l' Hm.
  - injection Hm as <-. exists []. split; [constructor | reflexivity].
  - bind_inv Hm. bind_inv Hm. injection Hm as <-.
    destruct (Hf _ _ Hstep) as (b & Hb & ->).
    destruct (IH _ Hstep0) as (xs & Hall & ->).
    exists (b :: xs). split; [constructor; assumption | reflexivity].
Qed.

(** The pass on a header with the field: the tokens of the field, one
    token standing for every channel, are read as floats and scaled. *)
Lemma setBitToMicroVolt_list (s s' : gmap string value) :
  NlxHeader.setBitToMicroVolt s = Ok s' ->
  (s !! "bit_to_microVolt" = None /\ s' = s)
  \/ exists field toks xs ids,
      s !! "bit_to_microVolt" = Some (VStr field)
      /\ NlxHeader.findall_in "\S+" (VStr field) = Ok toks
      /\ Forall2 (fun tok x => float_of_str tok = Some x)
                 match toks with
                 | [tok] => repeat tok (length xs)
                 | _ => toks
                 end xs
      /\ s' = <["bit_to_microVolt" :=
                 VList (map (fun x => VFloat (PrimFloat.mul x 1e6)) xs)]> s
      /\ s !! "channel_ids" = Some ids
      /\ len ids = Ok (length xs).
Proof.
  unfold NlxHeader.setBitToMicroVolt. intros Hc.
  destruct (s !! "bit_to_microVolt") as [v|]; [right | left; injection Hc as <-; auto].
  bind_as Hc toks Htoks. bind_as Hc entries Hentries. bind_as Hc scaled Hscaled.
  bind_as Hc ids Hids. bind_as Hc n Hn. bind_as Hc u Hassert.
  injection Hc as <-.
  assert (Hfield : exists field, v = VStr field).
  { destruct v; try discriminate Htoks. eauto. }
  destruct Hfield as [field ->].
  apply (mapM_Forall2_inv _ (fun x => VFloat (PrimFloat.mul x 1e6))
                          (fun tok x => float_of_str tok = Some x)) in Hscaled.
  - destruct Hscaled as (xs & Hall & ->).
    unfold NlxHeader.getitem in Hids.
    rewrite lookup_insert_ne in Hids by discriminate.
    destruct (s !! "channel_ids") as [ids0|] eqn:Hids0; [| discriminate Hids].
    injection Hids as <-.
    unfold assert in Hassert. rewrite length_map in Hassert.
    destruct (Nat.eqb_spec (length xs) n) as [<- |]; [| discriminate Hassert].
    exists field, toks, xs, ids0.
    split; [reflexivity |]. split; [exact Htoks |].
    split; [| split; [reflexivity | split; [reflexivity | exact Hn]]].
    destruct toks as [|tok [|tok2 rest]].
    + injection Hentries as <-. exact Hall.
    + unfold NlxHeader.getitem in Hentries. rewrite Hids0 in Hentries.
      cbn [bind] in Hentries. rewrite Hn in Hentries. cbn [bind] in Hentries.
      injection Hentries as <-. rewrite concat_repeat_singleton in Hall. exact Hall.
    + injection Hentries as <-. exact Hall.
  - intros e c Hb. destruct (float_of_str e) as [x|]; [| discriminate Hb].
    injection Hb as <-. eauto.
Qed.

Lemma setInputRanges_list (n : nat) (s s' : gmap string value) :
  NlxHeader.setInputRanges n s = Ok s' ->
  (s !! "InputRange" = None /\ s' = s)
  \/ exists zs, s' = <["InputRange" := VList (map VInt zs)]> s /\ length zs = n.
Proof.
  unfold NlxHeader.setInputRanges. intros Hc.
  destruct (s !! "InputRange") as [v|]; [right | left; injection Hc as <-; auto].
  bind_inv Hc. bind_inv Hc. bind_inv Hc. injection Hc as <-.
  assert (Hz : exists zs, a0 = map VInt zs).
  { destruct a as [|e [|e2 t]].
    - apply (mapM_image _ VInt) in Hstep0.
      + destruct Hstep0 as (zs & -> & _). eauto.
      + intros c b Hb. destruct (Py.int c) as [z|]; [| discriminate Hb].
        injection Hb as <-. eauto.
    - bind_inv Hstep0. injection Hstep0 as <-.
      destruct (Py.int e) as [z|]; [| discriminate Hstep2].
      injection Hstep2 as <-. exists (repeat z n).
      clear. induction n as [|n IH]; simpl; [reflexivity | now rewrite IH].
    - apply (mapM_image _ VInt) in Hstep0.
      + destruct Hstep0 as (zs & -> & _). eauto.
      + intros c b Hb. destruct (Py.int c) as [z|]; [| discriminate Hb].
        injection Hb as <-. eauto. }
  destruct Hz as [zs ->]. exists zs. split; [reflexivity |].
  unfold assert in Hstep1. rewrite length_map in Hstep1.
  destruct (Nat.eqb_spec (length zs) n); [assumption | discriminate].
Qed.

(** X7. With a [channel_names] field of one name, or none,
    [convert_channel_ids_names] gives every channel id a name: the one
    name of the field, or "unknown". [zs] are the integers of the tokens
    [chids] of the [channel_ids] field. *)
Theorem convert_channel_ids_names_replicates
    (filename : string) (s : gmap string value) (v : value)
    (chids : list string) (zs : list Z) :
  s !! "channel_ids" = Some v ->
  NlxHeader.findall_in "\S+" v = Ok chids ->
  Forall2 (fun c z => Py.int c = Some z) chids zs ->
  (forall names name,
      s !! "channel_names" = Some names ->
      NlxHeader.findall_in "\S+" names = Ok [name] ->
      NlxHeader.convert_channel_ids_names filename s
      = Ok (<["channel_names" := VList (repeat (VStr name) (length zs))]>
              (<["channel_ids" := VList (map VInt zs)]> s),
            length zs))
  /\ (s !! "channel_names" = None ->
      NlxHeader.convert_channel_ids_names filename s
      = Ok (<["channel_names" := VList (repeat (VStr "unknown") (length zs))]>
              (<["channel_ids" := VList (map VInt zs)]> s),
            length zs)).
Proof.
  intros Hids Hchids Hall.
  assert (Hmap : mapM (fun c => int_value c) chids = Ok (map VInt zs)).
  { apply (mapM_Forall2 _ VInt (fun c z => Py.int c = Some z)); [| exact Hall].
    intros c z Hc. rewrite Hc. reflexivity. }
  pose proof (Forall2_length _ _ _ Hall) as Hlen.
  split.
  - intros names name Hnames Hname.
    unfold NlxHeader.convert_channel_ids_names, NlxHeader.getitem.
    rewrite Hids, Hchids. cbn [bind]. rewrite Hmap. cbn [bind].
    rewrite lookup_insert_ne by discriminate. rewrite Hnames, Hname. cbn [bind].
    rewrite lookup_insert_eq. cbn [bind len].
    rewrite lookup_insert_eq. cbn [bind len].
    rewrite lookup_insert_ne by discriminate. rewrite lookup_insert_eq. cbn [bind len].
    rewrite concat_repeat_singleton, !length_map.
    assert (Hr : map VStr (repeat name (length zs)) = repeat (VStr name) (length zs)).
    { clear. induction (length zs) as [|n IH]; simpl; [reflexivity | now rewrite IH]. }
    rewrite Hr, repeat_length, Nat.eqb_refl, Hlen. reflexivity.
  - intros Hnames.
    unfold NlxHeader.convert_channel_ids_names, NlxHeader.getitem.
    rewrite Hids, Hchids. cbn [bind]. rewrite Hmap. cbn [bind].
    rewrite lookup_insert_ne by discriminate. rewrite Hnames.
    rewrite lookup_insert_eq. cbn [bind len].
    rewrite length_map, Hlen. reflexivity.
Qed.

(** X8. A [channel_names] field of several names, or of none, is not
    turned into a list: [convert_channel_ids_names] leaves the text of
    the field in place and compares its number of characters with the
    number of channel ids; it returns when the two are equal and raises
    [AssertionError] otherwise. *)
Theorem convert_channel_ids_names_several_names
    (filename : string) (s : gmap string value) (v : value)
    (chids : list string) (zs : list Z) (names : string) (toks : list string) :
  s !! "channel_ids" = Some v ->
  NlxHeader.findall_in "\S+" v = Ok chids ->
  Forall2 (fun c z => Py.int c = Some z) chids zs ->
  s !! "channel_names" = Some (VStr names) ->
  NlxHeader.findall_in "\S+" (VStr names) = Ok toks ->
  length toks <> 1 ->
  NlxHeader.convert_channel_ids_names filename s
  = if String.length names =? length zs
    then Ok (<["channel_ids" := VList (map VInt zs)]> s, length zs)
    else Err (AssertionError "Number of channel ids does not match channel names.").
Proof.
  intros Hids Hchids Hall Hnames Htoks Hne.
  assert (Hmap : mapM (fun c => int_value c) chids = Ok (map VInt zs)).
  { apply (mapM_Forall2 _ VInt (fun c z => Py.int c = Some z)); [| exact Hall].
    intros c z Hc. rewrite Hc. reflexivity. }
  pose proof (Forall2_length _ _ _ Hall) as Hlen.
  unfold NlxHeader.convert_channel_ids_names, NlxHeader.getitem.
  rewrite Hids, Hchids. cbn [bind]. rewrite Hmap. cbn [bind].
  rewrite lookup_insert_ne by discriminate. rewrite Hnames, Htoks. cbn [bind].
  assert (Hsame : forall (s0 : gmap string value) (k : result (gmap string value)),
             match toks with
             | [_] => k
             | _ => Ok s0
             end = Ok s0).
  { intros s0 k. destruct toks as [|t1 [|t2 ts]]; simpl in *;
      [reflexivity | lia | reflexivity]. }
  rewrite Hsame. cbn [bind].
  rewrite lookup_insert_ne by discriminate. rewrite Hnames. cbn [bind len].
  rewrite lookup_insert_eq. cbn [bind len]. rewrite length_map.
  destruct (String.length names =? length zs); cbn [assert bind];
    [rewrite Hlen |]; reflexivity.
Qed.

(** X9. The four ways in which [setApplicationAndVersion] names the
    application, in the order of the code: "Cheetah" with the text of
    [CheetahRev], which then excludes an [ApplicationName] entry; the two
    groups of the single match of the pattern in [ApplicationName]; "BML"
    and "2.0" for a header with [NLX_Base_Class_Type]; "Neuraview" and "2"
    otherwise. The version is that of the text, " Development" replaced
    by ".dev0"; nothing else changes in the header. *)
Theorem setApplicationAndVersion_result (s s' : gmap string value) :
  NlxHeader.setApplicationAndVersion s = Ok s' ->
  exists name text v,
    Version_of_str
      (if Py.contains text " Development"
       then Py.replace text " Development" ".dev0" else text) = Some v
    /\ s' = <["ApplicationVersion" := VVersion v]>
              (<["ApplicationName" := VStr name]> s)
    /\ match s !! "CheetahRev", s !! "ApplicationName" with
       | Some rev, an => an = None /\ name = "Cheetah" /\ rev = VStr text
       | None, Some an =>
         exists a m,
           an = VStr a
           /\ NlxHeader.re_findall
                ("(\S*) " +:+ Py.dquote +:+ "([\S ]*)" +:+ Py.dquote) a = Ok [m]
           /\ name = Re.group m 1 /\ text = Re.group m 2
       | None, None =>
         match s !! "NLX_Base_Class_Type" with
         | Some _ => name = "BML" /\ text = "2.0"
         | None => name = "Neuraview" /\ text = "2"
         end
       end.
Proof.
  unfold NlxHeader.setApplicationAndVersion. intros Hc.
  bind_as Hc named Hnamed. destruct named as [s1 app_version].
  bind_as Hc text Htext. destruct app_version as [text0| | | | | | |];
    try discriminate Htext. injection Htext as <-.
  destruct (Version_of_str _) as [v|] eqn:Hv; [| discriminate Hc].
  injection Hc as <-.
  destruct (s !! "CheetahRev") as [rev|].
  - bind_as Hnamed u Hassert. injection Hnamed as <- ->.
    exists "Cheetah", text0, v. split; [exact Hv |]. split; [reflexivity |].
    unfold assert in Hassert.
    destruct (s !! "ApplicationName") as [an|]; [discriminate Hassert | auto].
  - destruct (s !! "ApplicationName") as [an|].
    + bind_as Hnamed a Ha. bind_as Hnamed ms Hms. bind_as Hnamed u Hassert.
      destruct an as [a0| | | | | | |]; try discriminate Ha. injection Ha as <-.
      destruct ms as [|m [|m2 t]]; try discriminate Hassert.
      injection Hnamed as <- <-.
      exists (Re.group m 1), (Re.group m 2), v.
      split; [exact Hv |]. split; [reflexivity |].
      exists a0, m. auto.
    + destruct (s !! "NLX_Base_Class_Type") as [base|];
        injection Hnamed as <- <-.
      * exists "BML", "2.0", v. auto.
      * exists "Neuraview", "2", v. auto.
Qed.

(** X10. The modern form of the application name: on a header without
    [CheetahRev] whose [ApplicationName] is [name "version"], the name
    free of whitespace and the version on one line,
    [setApplicationAndVersion] stores the name as [ApplicationName] and
    the version of the quoted text, " Development" replaced by ".dev0",
    as [ApplicationVersion]. *)
Theorem setApplicationAndVersion_splits_quoted_version
    (s : gmap string value) (name version : string) (v : Version) :
  s !! "CheetahRev" = None ->
  s !! "ApplicationName" = Some (VStr (quoted_version name version)) ->
  all_chars (fun c => negb (Py.isspace c)) name = true ->
  all_chars value_char version = true ->
  Version_of_str
    (if Py.contains version " Development"
     then Py.replace version " Development" ".dev0" else version) = Some v ->
  NlxHeader.setApplicationAndVersion s
  = Ok (<["ApplicationVersion" := VVersion v]>
          (<["ApplicationName" := VStr name]> s)).
Proof.
  intros Hrev Han Hname Hversion Hv.
  unfold NlxHeader.setApplicationAndVersion. rewrite Hrev, Han.
  cbn [NlxHeader.str_of bind].
  rewrite (re_findall_compiled _ _ _ app_pattern_compiles).
  rewrite (app_finditer name version Hname Hversion).
  cbn [bind length Nat.eqb assert NlxHeader.str_of Re.group Re.m_groups
       Nat.sub nth_error].
  rewrite Hv. reflexivity.
Qed.

(** X11. [setBitToMicroVolt] needs the channel ids: on a header with a
    text under [bit_to_microVolt] and no [channel_ids] entry it raises,
    [KeyError] for a field of one token, and otherwise [KeyError] or,
    when a token is no float, [ValueError]. *)
Theorem setBitToMicroVolt_without_channel_ids
    (s : gmap string value) (text : string) :
  s !! "bit_to_microVolt" = Some (VStr text) ->
  s !! "channel_ids" = None ->
  exists toks,
    NlxHeader.findall_in "\S+" (VStr text) = Ok toks
    /\ (length toks = 1 ->
        NlxHeader.setBitToMicroVolt s = Err (KeyError "channel_ids"))
    /\ (NlxHeader.setBitToMicroVolt s = Err (KeyError "channel_ids")
        \/ NlxHeader.setBitToMicroVolt s
           = Err (ValueError "could not convert string to float")).
Proof.
  intros Hbtm Hids. destruct (findall_in_nonspace text) as [toks Htoks].
  exists toks. split; [exact Htoks |].
  unfold NlxHeader.setBitToMicroVolt, NlxHeader.getitem.
  rewrite Hbtm, Htoks, Hids. cbn [bind].
  destruct toks as [|t1 [|t2 ts]].
  - split; [discriminate |]. left. cbn [bind mapM].
    rewrite lookup_insert_ne by discriminate. rewrite Hids. reflexivity.
  - split; [reflexivity | left; reflexivity].
  - split; [discriminate |]. cbn [bind].
    destruct (mapM _ (t1 :: t2 :: ts)) as [scaled|e] eqn:Hmap; cbn [bind].
    + left. rewrite lookup_insert_ne by discriminate. rewrite Hids. reflexivity.
    + right. f_equal. revert Hmap. apply mapM_Err_cases.
      intros a e'. destruct (float_of_str a); [discriminate |].
      intros He. injection He as <-. reflexivity.
Qed.

(** X12. [setInputRanges] gives every channel id entry a range: a field of
    one integer stands for all of them, and a field of several integers
    must have one for each, or the pass raises [AssertionError]. [n] is
    the count of channel id entries. *)
Theorem setInputRanges_per_entry
    (n : nat) (s : gmap string value) (v : value) (toks : list string) :
  s !! "InputRange" = Some v ->
  NlxHeader.findall_in "\w+" v = Ok toks ->
  (forall tok z, toks = [tok] -> Py.int tok = Some z ->
     NlxHeader.setInputRanges n s
     = Ok (<["InputRange" := VList (repeat (VInt z) n)]> s))
  /\ (forall zs, length toks <> 1 ->
        Forall2 (fun tok z => Py.int tok = Some z) toks zs ->
        NlxHeader.setInputRanges n s
        = if length zs =? n
          then Ok (<["InputRange" := VList (map VInt zs)]> s)
          else Err (AssertionError
                      "Number of channel ids does not match input range values.")).
Proof.
  intros Hir Htoks. split.
  - intros tok z -> Hz. unfold NlxHeader.setInputRanges.
    rewrite Hir, Htoks. cbn [bind]. rewrite Hz. cbn [bind].
    rewrite repeat_length, Nat.eqb_refl. reflexivity.
  - intros zs Hne Hall. unfold NlxHeader.setInputRanges.
    rewrite Hir, Htoks. cbn [bind].
    assert (Hmap : mapM (fun c => int_value c) toks = Ok (map VInt zs)).
    { apply (mapM_Forall2 _ VInt (fun c z => Py.int c = Some z)); [| exact Hall].
      intros c z Hc. rewrite Hc. reflexivity. }
    assert (Hsame : match toks with
                    | [e] => x <- int_value e ;; Ok (repeat x n)
                    | _ => mapM (fun c => int_value c) toks
                    end = Ok (map VInt zs)).
    { destruct toks as [|t1 [|t2 ts]]; simpl in Hne; [exact Hmap | lia | exact Hmap]. }
    rewrite Hsame. cbn [bind]. rewrite length_map.
    destruct (length zs =? n); reflexivity.
Qed.

End Passes.

(** ** The parsed header *)

Section Parsed.
Context `{PyLib}.

(** The passes of [__init__] after [read_properties] change the entries
    of eight keys at most. *)
Lemma init_passes (filename file : string) (props_only : bool)
      (self : gmap string value) :
  NlxHeader.__init__ filename file props_only = Ok self ->
  exists s1 s2 n s3 s4 s5,
    NlxHeader.read_properties filename (header_text file) ∅ = Ok s1
    /\ NlxHeader.convert_channel_ids_names filename s1 = Ok (s2, n)
    /\ NlxHeader.setApplicationAndVersion s2 = Ok s3
    /\ NlxHeader.setBitToMicroVolt s3 = Ok s4
    /\ NlxHeader.setInputRanges n s4 = Ok s5
    /\ agree_except ["channel_ids"; "channel_names"] s1 s2
    /\ agree_except ["ApplicationName"; "ApplicationVersion"] s2 s3
    /\ agree_except ["bit_to_microVolt"] s3 s4
    /\ agree_except ["InputRange"] s4 s5
    /\ agree_except ["recording_opened"; "recording_closed"] s5 self
    /\ (props_only = true -> self = s5).
Proof.
  intros Hi. apply init_Ok in Hi.
  destruct Hi as (s1 & s2 & n & s3 & s4 & s5
                  & Hread & Hconv & Happ & Hbtm & Hir & Htd).
  exists s1, s2, n, s3, s4, s5.
  repeat (split; [assumption |]).
  split; [eapply convert_channel_ids_names_agree, Hconv |].
  split; [eapply setApplicationAndVersion_agree, Happ |].
  split; [eapply setBitToMicroVolt_agree, Hbtm |].
  split; [eapply setInputRanges_agree, Hir |].
  destruct props_only.
  - subst self. split; [apply agree_refl | reflexivity].
  - split; [eapply readTimeDate_agree, Htd | discriminate].
Qed.

(** The keys of the header that the lenient call returns. *)
Lemma init_lenient_keys (filename file : string) (self : gmap string value)
      (k : string) :
  NlxHeader.__init__ filename file true = Ok self ->
  is_Some (self !! k) ->
  In k (map row_key plain_keys) \/ Py.startswith k "Feature " = true
  \/ k = "ApplicationVersion".
Proof.
  intros Hi Hk. apply init_passes in Hi.
  destruct Hi as (s1 & s2 & n & s3 & s4 & s5 & Hread & _ & _ & _ & _
                  & H12 & H23 & H34 & H45 & _ & Heq).
  rewrite (Heq eq_refl) in Hk. clear Heq.
  assert (Hrow : forall k', In k' ["channel_ids"; "channel_names"; "ApplicationName";
                                   "bit_to_microVolt"; "InputRange"] ->
                            In k' (map row_key plain_keys)).
  { intros k' Hin. simpl in Hin.
    repeat (destruct Hin as [<- | Hin]; [vm_compute; tauto |]). destruct Hin. }
  destruct (in_dec string_dec k ["channel_ids"; "channel_names"; "ApplicationName";
                                 "bit_to_microVolt"; "InputRange"]) as [Hin | Hnin];
    [left; apply Hrow, Hin |].
  destruct (string_dec k "ApplicationVersion") as [-> | Hne]; [tauto |].
  rewrite H45, H34, H23, H12 in Hk by (simpl in *; intuition).
  destruct (read_properties_keys _ _ _ _ _ Hread Hk) as [Hempty | Hkeys];
    [| tauto].
  rewrite lookup_empty in Hempty. destruct Hempty as [x Hx]. discriminate Hx.
Qed.

(** X13. The keys of a header that [NlxHeader(filename, props_only)]
    returns: the keys of the rows of plain characters of
    [txt_header_keys], keys that start with "Feature ",
    "ApplicationVersion" and, for a strict call only, "recording_opened"
    and "recording_closed". *)
Theorem init_keys
    (filename file : string) (props_only : bool) (self : gmap string value)
    (k : string) :
  NlxHeader.__init__ filename file props_only = Ok self ->
  is_Some (self !! k) ->
  In k (map row_key plain_keys)
  \/ Py.startswith k "Feature " = true
  \/ k = "ApplicationVersion"
  \/ (props_only = false /\ (k = "recording_opened" \/ k = "recording_closed")).
Proof.
  intros Hi Hk. destruct props_only.
  - destruct (init_lenient_keys _ _ _ _ Hi Hk) as [Hr | [Hf | Hv]]; tauto.
  - rewrite init_strict_is_lenient_then_readTimeDate in Hi. bind_inv Hi.
    apply readTimeDate_agree in Hi.
    destruct (string_dec k "recording_opened") as [-> | Hno]; [tauto |].
    destruct (string_dec k "recording_closed") as [-> | Hnc]; [tauto |].
    rewrite Hi in Hk by (simpl; intuition).
    destruct (init_lenient_keys _ _ _ _ Hstep Hk) as [Hr | [Hf | Hv]]; tauto.
Qed.

(** X14. Whenever [NlxHeader(filename, props_only)] returns, the header has
    a [channel_ids] entry, a list that is either the placeholder
    ["unknown"] or made of integers, and a [channel_names] entry whose
    length is the length of [channel_ids]. *)
Theorem init_channel_lists
    (filename file : string) (props_only : bool) (self : gmap string value) :
  NlxHeader.__init__ filename file props_only = Ok self ->
  exists ids names,
    self !! "channel_ids" = Some (VList ids)
    /\ self !! "channel_names" = Some names
    /\ len names = Ok (length ids)
    /\ ((exists zs, ids = map VInt zs) \/ ids = [VStr "unknown"]).
Proof.
  intros Hi. apply init_passes in Hi.
  destruct Hi as (s1 & s2 & n & s3 & s4 & s5 & _ & Hconv & _ & _ & _
                  & _ & H23 & H34 & H45 & H5 & _).
  apply convert_channel_ids_names_lists in Hconv.
  destruct Hconv as (ids & names & Hids & Hnames & Hlen & Hshape).
  exists ids, names.
  split; [before_pass H5; before_pass H45; before_pass H34; before_pass H23;
          exact Hids |].
  split; [before_pass H5; before_pass H45; before_pass H34; before_pass H23;
          exact Hnames |].
  split; [exact Hlen |].
  destruct Hshape as [(zs & -> & _) | [-> _]]; eauto.
Qed.

(** X15. Whenever [NlxHeader(filename, props_only)] returns, a
    [bit_to_microVolt] entry of the header is a list of floats with one
    element for each element of [channel_ids]: the field that
    [read_properties] stored under that key is cut into its tokens, a
    single token stands for every channel, and each element is the float
    that [float] reads from its token, times 1e6. *)
Theorem init_bit_to_microVolt_per_channel
    (filename file : string) (props_only : bool) (self : gmap string value)
    (v : value) :
  NlxHeader.__init__ filename file props_only = Ok self ->
  self !! "bit_to_microVolt" = Some v ->
  exists props field toks xs ids,
    NlxHeader.read_properties filename (header_text file) ∅ = Ok props
    /\ props !! "bit_to_microVolt" = Some (VStr field)
    /\ NlxHeader.findall_in "\S+" (VStr field) = Ok toks
    /\ Forall2 (fun tok x => float_of_str tok = Some x)
               match toks with
               | [tok] => repeat tok (length ids)
               | _ => toks
               end xs
    /\ v = VList (map (fun x => VFloat (PrimFloat.mul x 1e6)) xs)
    /\ self !! "channel_ids" = Some (VList ids)
    /\ length xs = length ids.
Proof.
  intros Hi Hv. apply init_passes in Hi.
  destruct Hi as (s1 & s2 & n & s3 & s4 & s5 & Hread & Hconv & _ & Hbtm & _
                  & H12 & H23 & H34 & H45 & H5 & _).
  apply convert_channel_ids_names_lists in Hconv.
  destruct Hconv as (ids & names & Hids & _).
  assert (Hids3 : s3 !! "channel_ids" = Some (VList ids))
    by (before_pass H23; exact Hids).
  before_pass H5 in Hv. before_pass H45 in Hv.
  apply setBitToMicroVolt_list in Hbtm.
  destruct Hbtm as [[Hnone ->]
                   | (field & toks & xs & ids0 & Hfield & Htoks & Hall & ->
                      & Hids0 & Hlen)].
  - rewrite Hnone in Hv. discriminate Hv.
  - rewrite lookup_insert_eq in Hv. injection Hv as <-.
    rewrite Hids3 in Hids0. injection Hids0 as <-.
    simpl in Hlen. injection Hlen as Hlen.
    before_pass H23 in Hfield. before_pass H12 in Hfield.
    exists s1, field, toks, xs, ids.
    split; [exact Hread |]. split; [exact Hfield |]. split; [exact Htoks |].
    split; [rewrite Hlen; exact Hall |]. split; [reflexivity |].
    split; [| symmetry; exact Hlen].
    before_pass H5. before_pass H45. rewrite lookup_insert_ne by discriminate.
    exact Hids3.
Qed.

(** X16. Whenever [NlxHeader(filename, props_only)] returns, an
    [InputRange] entry of the header is a list of integers: one for each
    element of [channel_ids] when these are the integers of the
    [ADChannel] field, and none when [channel_ids] is the placeholder
    ["unknown"]. *)
Theorem init_InputRange_per_channel
    (filename file : string) (props_only : bool) (self : gmap string value)
    (v : value) :
  NlxHeader.__init__ filename file props_only = Ok self ->
  self !! "InputRange" = Some v ->
  exists zs ids,
    v = VList (map VInt zs)
    /\ self !! "channel_ids" = Some (VList ids)
    /\ ((exists cs, ids = map VInt cs /\ length zs = length cs)
        \/ (ids = [VStr "unknown"] /\ zs = [])).
Proof.
  intros Hi Hv. apply init_passes in Hi.
  destruct Hi as (s1 & s2 & n & s3 & s4 & s5 & _ & Hconv & _ & _ & Hir
                  & _ & H23 & H34 & H45 & H5 & _).
  apply convert_channel_ids_names_lists in Hconv.
  destruct Hconv as (ids & names & Hids & _ & _ & Hshape).
  before_pass H5 in Hv.
  apply setInputRanges_list in Hir.
  destruct Hir as [[Hnone ->] | (zs & -> & Hlen)].
  - rewrite Hnone in Hv. discriminate Hv.
  - rewrite lookup_insert_eq in Hv. injection Hv as <-.
    exists zs, ids. split; [reflexivity |]. split.
    + before_pass H5. rewrite lookup_insert_ne by discriminate.
      before_pass H34. before_pass H23. exact Hids.
    + destruct Hshape as [(cs & -> & ->) | [-> ->]].
      * left. exists cs. auto.
      * right. split; [reflexivity |]. destruct zs; [reflexivity | discriminate Hlen].
Qed.

End Parsed.

(** ** The dictionaries and the timestamps *)

Lemma strip_leading_zeros_snoc (l : list N) (m : N) :
  m <> 0%N -> strip_leading_zeros (l ++ [m]) = (strip_leading_zeros l ++ [m])%list.
Proof.
  intros Hm. induction l as [|x t IH]; simpl.
  - destruct m; [contradiction | reflexivity].
  - destruct x; [exact IH | reflexivity].
Qed.

Lemma strip_leading_zeros_snoc_zero (l : list N) :
  strip_leading_zeros (l ++ [0%N]) = []
  \/ exists l', strip_leading_zeros (l ++ [0%N]) = (l' ++ [0%N])%list.
Proof.
  induction l as [|x t IH]; simpl; [left; reflexivity |].
  destruct x; [exact IH |]. right. exists (N.pos p :: t). reflexivity.
Qed.

(** The release segment of the comparison key starts with the major
    number, or is empty when all the numbers are 0. *)
Lemma release_key_head (m : N) (rest : list N) :
  (m <> 0%N /\ exists t, List.rev (strip_leading_zeros (List.rev (m :: rest))) = m :: t)
  \/ (m = 0%N
      /\ (List.rev (strip_leading_zeros (List.rev (m :: rest))) = []
          \/ exists t, List.rev (strip_leading_zeros (List.rev (m :: rest))) = 0%N :: t)).
Proof.
  simpl. destruct (N.eq_dec m 0%N) as [-> | Hm].
  - right. split; [reflexivity |].
    destruct (strip_leading_zeros_snoc_zero (List.rev rest)) as [-> | [l' ->]].
    + left. reflexivity.
    + right. rewrite rev_app_distr. simpl. eauto.
  - left. split; [exact Hm |].
    rewrite strip_leading_zeros_snoc by exact Hm.
    rewrite rev_app_distr. simpl. eauto.
Qed.

(** Versions of the same epoch whose release segments differ compare as
    these do. *)
Lemma Version_compare_release (a b : Version) (c : comparison) :
  v_epoch a = v_epoch b ->
  list_compare N.compare
    (List.rev (strip_leading_zeros (List.rev (v_release a))))
    (List.rev (strip_leading_zeros (List.rev (v_release b)))) = c ->
  c <> Eq ->
  Version_compare a b = c.
Proof.
  intros He Hl Hc. unfold Version_compare, Version_key_compare, Version_key.
  unfold pair_compare at 1 2 3 4 5. cbn [fst snd].
  rewrite He, N.compare_refl, Hl. destruct c; [contradiction | reflexivity ..].
Qed.

(** A version of epoch 0 compares with a release of another, positive
    major number as the major numbers do. *)
Lemma Version_compare_major (v : Version) (m x : N) (rest l2 : list N) :
  v_epoch v = 0%N -> v_release v = m :: rest -> x <> 0%N -> m <> x ->
  Version_compare v (release (x :: l2)) = N.compare m x.
Proof.
  intros He Hr Hx Hmx.
  assert (Hne : N.compare m x <> Eq) by (rewrite N.compare_eq_iff; exact Hmx).
  apply Version_compare_release; [exact He | | exact Hne].
  rewrite Hr. cbn [v_release release].
  destruct (release_key_head x l2) as [[_ [t2 ->]] | [Hx0 _]]; [| contradiction].
  destruct (release_key_head m rest) as [[_ [t ->]] | [-> [-> | [t ->]]]].
  - simpl. destruct (N.compare m x); [contradiction | reflexivity ..].
  - simpl. destruct x; [contradiction | reflexivity].
  - simpl. destruct x; [contradiction | reflexivity].
Qed.

(** Plain releases compare as the release segments of their keys. *)
Lemma Version_compare_plain (l1 l2 : list N) :
  Version_compare (release l1) (release l2)
  = list_compare N.compare
      (List.rev (strip_leading_zeros (List.rev l1)))
      (List.rev (strip_leading_zeros (List.rev l2))).
Proof.
  unfold Version_compare, Version_key_compare, Version_key.
  unfold pair_compare at 1 2 3 4 5. cbn [fst snd release v_epoch v_release
    v_pre v_post v_dev v_local N.compare].
  destruct (list_compare N.compare _ _); reflexivity.
Qed.

(** The release segment of the key of a release of three numbers. *)
Lemma release_key_three (a b c : N) :
  a <> 0%N ->
  List.rev (strip_leading_zeros (List.rev [a; b; c]))
  = if (c =? 0)%N then (if (b =? 0)%N then [a] else [a; b]) else [a; b; c].
Proof.
  intros Ha. destruct c as [|pc]; [| reflexivity].
  destruct b as [|pb]; [| reflexivity].
  destruct a as [|pa]; [contradiction | reflexivity].
Qed.

Section Resolver.
Context `{PyLib}.

(** X17. The range of the resolver: the name that the messages use and the
    dictionary are one of eight pairs; the dictionary "bml" of
    [header_pattern_dicts] is never selected, the application "BML"
    reading its timestamp with "inHeader". *)
Theorem select_hpd_range
    (self : gmap string value) (an : string) (hpd : NlxHeader.DialectSpec) :
  NlxHeader.select_hpd self = Ok (an, hpd) ->
  In (an, hpd)
     [("Cheetah", NlxHeader.bv5_6_4); ("Cheetah", NlxHeader.inHeader);
      ("Cheetah", NlxHeader.v5_4_0); ("Cheetah", NlxHeader.inProps);
      ("BML", NlxHeader.inHeader); ("Neuraview", NlxHeader.neuraview2);
      ("Pegasus", NlxHeader.inProps); ("Unknown", NlxHeader.inProps)]
  /\ hpd <> NlxHeader.bml.
Proof.
  unfold NlxHeader.select_hpd. intros Hsel.
  repeat match goal with
         | Hb : bind _ _ = Ok _ |- _ => bind_inv Hb
         | Hc : (if ?c then _ else _) = Ok _ |- _ => destruct c
         | Hg : NlxHeader.hpd_getitem _ = Ok _ |- _ =>
           injection Hg as <-
         | Hp : Ok (_, _) = Ok (_, _) |- _ => injection Hp as <- <-
         end; (split; [simpl; tauto | discriminate]).
Qed.

(** X18. For the application "Cheetah" and a version of epoch 0 whose major
    number is neither 2 nor 5, the major number alone selects the
    dictionary: "bv5.6.4" below 2, "inHeader" for 3 and 4, and "inProps"
    from 6 on. *)
Theorem select_hpd_cheetah_major
    (self : gmap string value) (v : Version) (major : N) (rest : list N) :
  self !! "ApplicationName" = Some (VStr "Cheetah") ->
  self !! "ApplicationVersion" = Some (VVersion v) ->
  v_epoch v = 0%N ->
  v_release v = major :: rest ->
  major <> 2%N -> major <> 5%N ->
  NlxHeader.select_hpd self
  = Ok ("Cheetah",
        if (major <? 2)%N then NlxHeader.bv5_6_4
        else if (major <? 5)%N then NlxHeader.inHeader
        else NlxHeader.inProps).
Proof.
  intros Han Hav He Hr H2 H5.
  unfold NlxHeader.select_hpd, NlxHeader.getitem. rewrite Han, Hav.
  cbn [bind eq_str String.eqb Ascii.eqb Bool.eqb NlxHeader.version_of].
  unfold Version_leb, Version_ltb, Version_eqb.
  rewrite !(Version_compare_major v major _ rest _ He Hr) by (try discriminate; assumption).
  unfold N.ltb.
  destruct (N.compare_spec major 2) as [-> | Hlt | Hgt]; [contradiction | reflexivity |].
  destruct (N.compare_spec major 5) as [-> | Hlt5 | Hgt5]; [contradiction | reflexivity ..].
Qed.

(** X19. The dictionaries of Cheetah 5: for the application "Cheetah" and
    a version 5.b.c, the chain of comparisons selects "v5.4.0" up to
    5.4.0, "inHeader" for 5.6.0, "bv5.6.4" for the other versions up to
    5.6.4, and "inProps" after 5.6.4. *)
Theorem select_hpd_cheetah_5
    (self : gmap string value) (b c : N) :
  self !! "ApplicationName" = Some (VStr "Cheetah") ->
  self !! "ApplicationVersion" = Some (VVersion (release [5; b; c]%N)) ->
  NlxHeader.select_hpd self
  = Ok ("Cheetah",
        if ((b <? 4) || (b =? 4) && (c =? 0))%N then NlxHeader.v5_4_0
        else if ((b =? 6) && (c =? 0))%N then NlxHeader.inHeader
        else if ((b <? 6) || (b =? 6) && (c <=? 4))%N then NlxHeader.bv5_6_4
        else NlxHeader.inProps).
Proof.
  intros Han Hav.
  unfold NlxHeader.select_hpd, NlxHeader.getitem. rewrite Han, Hav.
  cbn [bind eq_str String.eqb Ascii.eqb Bool.eqb NlxHeader.version_of].
  unfold Version_leb, Version_ltb, Version_eqb.
  rewrite !Version_compare_plain, release_key_three by discriminate.
  change (List.rev (strip_leading_zeros (List.rev [2%N]))) with [2%N].
  change (List.rev (strip_leading_zeros (List.rev [5%N]))) with [5%N].
  change (List.rev (strip_leading_zeros (List.rev [5; 4; 0]%N))) with [5; 4]%N.
  change (List.rev (strip_leading_zeros (List.rev [5; 6; 0]%N))) with [5; 6]%N.
  change (List.rev (strip_leading_zeros (List.rev [5; 6; 4]%N))) with [5; 6; 4]%N.
  unfold N.ltb, N.leb. rewrite !N.eqb_compare.
  repeat (cbn [list_compare];
          match goal with
          | |- context [(?x ?= ?y)%N] =>
            destruct (N.compare_spec x y); subst; try lia
          end);
    reflexivity.
Qed.

Lemma select_hpd_returns (self : gmap string value) (name : string) (v : Version) :
  self !! "ApplicationName" = Some (VStr name) ->
  self !! "ApplicationVersion" = Some (VVersion v) ->
  exists an hpd, NlxHeader.select_hpd self = Ok (an, hpd).
Proof.
  intros Han Hav. unfold NlxHeader.select_hpd, NlxHeader.getitem.
  rewrite Han, Hav. cbn [bind NlxHeader.version_of].
  destruct (eq_str (VStr name) "Cheetah").
  - destruct (Version_leb v _); [eexists _, _; reflexivity |].
    destruct (Version_ltb v _); [eexists _, _; reflexivity |].
    destruct (Version_leb v _); [eexists _, _; reflexivity |].
    destruct (Version_eqb v _); [eexists _, _; reflexivity |].
    destruct (Version_leb v _); eexists _, _; reflexivity.
  - destruct (eq_str (VStr name) "BML"); [eexists _, _; reflexivity |].
    destruct (eq_str (VStr name) "Neuraview"); [eexists _, _; reflexivity |].
    destruct (eq_str (VStr name) "Pegasus"); eexists _, _; reflexivity.
Qed.

(** X20. What [readTimeDate] stores: when it returns, [recording_opened]
    is a datetime or [None], [recording_closed] is a datetime or [None]
    when the selected dictionary has a close-timestamp pattern and is left
    as it was when it has none, and no other entry changes. *)
Theorem readTimeDate_result
    (txt : string) (self self' : gmap string value) :
  NlxHeader.readTimeDate txt self = Ok self' ->
  exists an hpd opened,
    NlxHeader.select_hpd self = Ok (an, hpd)
    /\ (opened = VNone \/ exists d, opened = VDatetime d)
    /\ match NlxHeader.datetime2_regex hpd with
       | None => self' = <["recording_opened" := opened]> self
       | Some _ =>
         exists closed,
           (closed = VNone \/ exists d, closed = VDatetime d)
           /\ self' = <["recording_closed" := closed]>
                        (<["recording_opened" := opened]> self)
       end.
Proof.
  intros Hr.
  destruct (NlxHeader.select_hpd self) as [[an hpd]|e] eqn:Hsel;
    [| unfold NlxHeader.readTimeDate in Hr; rewrite Hsel in Hr; discriminate Hr].
  rewrite (readTimeDate_unfold txt self an hpd Hsel) in Hr.
  bind_inv Hr. destruct a as [sr|]; [| discriminate Hr].
  assert (Hshape : forall o : option datetime,
             NlxHeader.of_datetime o = VNone
             \/ exists d, NlxHeader.of_datetime o = VDatetime d).
  { intros [d|]; simpl; eauto. }
  exists an, hpd,
    (match NlxHeader.try_strptime sr (Some (NlxHeader.datetimeformat hpd)) with
     | Some d => VDatetime d
     | None => NlxHeader.of_datetime
                 (NlxHeader.try_strptime sr (NlxHeader.datetime2format hpd))
     end).
  split; [reflexivity |]. split.
  - destruct (NlxHeader.try_strptime sr (Some _)) as [d|]; [eauto | apply Hshape].
  - cbv zeta in Hr. destruct (NlxHeader.datetime2_regex hpd) as [regex|].
    + bind_inv Hr. destruct a as [sr2|]; [| discriminate Hr].
      injection Hr as <-. eexists. split; [apply Hshape | reflexivity].
    + injection Hr as <-. reflexivity.
Qed.

(** X21. The close timestamp is read with the first format only: when the
    close-timestamp pattern of the selected dictionary matches and the
    captured date and time do not parse under [datetimeformat],
    [readTimeDate] stores [None] as [recording_closed], whether or not
    the dictionary has a [datetime2format] under which they parse. *)
Theorem readTimeDate_close_timestamp_first_format
    (txt : string) (self : gmap string value) (an : string)
    (hpd : NlxHeader.DialectSpec) (regex : string) (sr sr2 : Re.rematch)
    (d t : string) :
  NlxHeader.select_hpd self = Ok (an, hpd) ->
  NlxHeader.re_search (NlxHeader.datetime1_regex hpd) txt = Ok (Some sr) ->
  NlxHeader.datetime2_regex hpd = Some regex ->
  NlxHeader.re_search regex txt = Ok (Some sr2) ->
  Re.groupdict sr2 "date" = Some d ->
  Re.groupdict sr2 "time" = Some t ->
  strptime (d +:+ " " +:+ t) (NlxHeader.datetimeformat hpd) = None ->
  exists self',
    NlxHeader.readTimeDate txt self = Ok self'
    /\ self' !! "recording_closed" = Some VNone.
Proof.
  intros Hsel Hs1 Hd2 Hs2 Hd Ht Hf.
  rewrite (readTimeDate_unfold txt self an hpd Hsel), Hs1. cbn [bind].
  cbv zeta. rewrite Hd2, Hs2. cbn [bind].
  eexists. split; [reflexivity |].
  rewrite lookup_insert_eq. unfold NlxHeader.try_strptime. rewrite Hd, Ht, Hf.
  reflexivity.
Qed.

(** On a header with the application name and version in place,
    [readTimeDate] returns or raises one of its two [IOError]s. *)
Lemma readTimeDate_outcome (txt : string) (self : gmap string value)
      (name : string) (v : Version) :
  self !! "ApplicationName" = Some (VStr name) ->
  self !! "ApplicationVersion" = Some (VVersion v) ->
  exists an,
    succeeds (NlxHeader.readTimeDate txt self)
    \/ NlxHeader.readTimeDate txt self = Err (IOError NlxHeader.open_msg an)
    \/ NlxHeader.readTimeDate txt self = Err (IOError NlxHeader.close_msg an).
Proof.
  intros Han Hav.
  destruct (select_hpd_returns self name v Han Hav) as (an & hpd & Hsel).
  exists an. rewrite (readTimeDate_unfold txt self an hpd Hsel).
  pose proof (select_hpd_in_table _ _ _ Hsel) as Hin.
  destruct (datetime1_regex_compiles hpd Hin) as [c Hc].
  rewrite (re_search_compiled _ txt c Hc). cbn [bind].
  destruct (Re.search_from c false 0 txt) as [sr|]; [| tauto].
  cbv zeta.
  destruct (NlxHeader.datetime2_regex hpd) as [regex|] eqn:Hd2.
  - destruct (datetime2_regex_compiles hpd regex Hin Hd2) as [c2 Hc2].
    rewrite (re_search_compiled _ txt c2 Hc2). cbn [bind].
    destruct (Re.search_from c2 false 0 txt) as [sr2|]; [| tauto].
    left. eexists. reflexivity.
  - left. eexists. reflexivity.
Qed.

(** X22. On a file that the lenient call accepts, the strict call returns
    or raises an [IOError] of [readTimeDate], for want of a line with the
    open or the close timestamp: the name and the version that the
    resolver reads are always there, and every pattern of the table
    compiles. *)
Theorem init_strict_after_lenient
    (filename file : string) (lenient : gmap string value) :
  NlxHeader.__init__ filename file true = Ok lenient ->
  exists an,
    succeeds (NlxHeader.__init__ filename file false)
    \/ NlxHeader.__init__ filename file false = Err (IOError NlxHeader.open_msg an)
    \/ NlxHeader.__init__ filename file false = Err (IOError NlxHeader.close_msg an).
Proof.
  intros Hi. rewrite init_strict_is_lenient_then_readTimeDate, Hi. cbn [bind].
  apply init_passes in Hi.
  destruct Hi as (s1 & s2 & n & s3 & s4 & s5 & _ & _ & Happ & _ & _
                  & _ & _ & H34 & H45 & _ & Heq).
  rewrite (Heq eq_refl). clear Heq.
  apply setApplicationAndVersion_typed in Happ. destruct Happ as (name & v & ->).
  apply (readTimeDate_outcome _ _ name v).
  - before_pass H45. before_pass H34.
    rewrite lookup_insert_ne by discriminate. apply lookup_insert_eq.
  - before_pass H45. before_pass H34. apply lookup_insert_eq.
Qed.

(** X23. The strict call returns the header of the lenient call with the
    entries [recording_opened], always, and [recording_closed] stored:
    when [NlxHeader(filename, props_only=False)] returns, so does the
    lenient call, its header has neither of the two entries, and the two
    headers agree at every other key. *)
Theorem init_strict_extends_lenient
    (filename file : string) (self : gmap string value) :
  NlxHeader.__init__ filename file false = Ok self ->
  exists lenient,
    NlxHeader.__init__ filename file true = Ok lenient
    /\ lenient !! "recording_opened" = None
    /\ lenient !! "recording_closed" = None
    /\ is_Some (self !! "recording_opened")
    /\ forall k, k <> "recording_opened" -> k <> "recording_closed" ->
                 self !! k = lenient !! k.
Proof.
  intros Hi. rewrite init_strict_is_lenient_then_readTimeDate in Hi. bind_inv Hi.
  exists a. split; [exact Hstep |].
  assert (Hnot : forall k, ~ In k (map row_key plain_keys) ->
                           Py.startswith k "Feature " = false ->
                           k <> "ApplicationVersion" -> a !! k = None).
  { intros k Hr Hf Hv. destruct (a !! k) as [x|] eqn:Hx; [| reflexivity].
    exfalso. destruct (init_lenient_keys _ _ _ k Hstep) as [Hr' | [Hf' | Hv']];
      [rewrite Hx; eauto | tauto | congruence | tauto]. }
  split; [apply Hnot; [vm_compute; intuition discriminate | reflexivity | discriminate] |].
  split; [apply Hnot; [vm_compute; intuition discriminate | reflexivity | discriminate] |].
  split.
  - unfold NlxHeader.readTimeDate in Hi. bind_inv Hi. destruct a0 as [an hpd].
    bind_inv Hi. bind_inv Hi.
    destruct a0 as [sr|]; [| discriminate Hstep2]. injection Hstep2 as <-.
    destruct (NlxHeader.datetime2_regex hpd) as [regex|].
    + bind_inv Hi. destruct a0 as [sr2|]; [| discriminate Hi]. injection Hi as <-.
      rewrite lookup_insert_ne by discriminate. rewrite lookup_insert_eq. eauto.
    + injection Hi as <-. rewrite lookup_insert_eq. eauto.
  - intros k Hno Hnc. apply readTimeDate_agree in Hi. apply Hi.
    simpl. intuition.
Qed.

End Resolver.

(** ** The classifier and the passes *)

Section Classified.
Context `{PyLib} `{AcqTypeEnum}.

(** X24. In the branch of the file versions 3.2 to 3.4 the classifier
    needs an [AcquisitionSystem] of two tokens at least: without the
    entry it raises [KeyError], and on a text of fewer tokens
    [IndexError]. *)
Theorem type_of_recording_needs_acquisition_system
    (self : gmap string value) (ft : value) (fv : string) :
  self !! "NLX_Base_Class_Type" = None ->
  self !! "HardwareSubSystemType" = None ->
  self !! "FileType" = Some ft ->
  self !! "FileVersion" = Some (VStr fv) ->
  fv = "3.2" \/ fv = "3.3" \/ fv = "3.4" ->
  (self !! "AcquisitionSystem" = None ->
   NlxHeader.type_of_recording self = Err (KeyError "AcquisitionSystem"))
  /\ (forall sys, self !! "AcquisitionSystem" = Some (VStr sys) ->
                  length (Py.split sys) < 2 ->
                  NlxHeader.type_of_recording self = Err IndexError).
Proof.
  intros Hbase Hhw Hft Hfv Hin.
  assert (Hlisted : eq_str (VStr fv) "3.2" || eq_str (VStr fv) "3.3"
                    || eq_str (VStr fv) "3.4" = true).
  { destruct Hin as [-> | [-> | ->]]; reflexivity. }
  unfold NlxHeader.type_of_recording, NlxHeader.getitem.
  rewrite Hbase, Hhw, Hft, Hfv, Hlisted. split.
  - intros ->. reflexivity.
  - intros sys -> Hlen. cbn [bind].
    destruct (Py.split sys) as [|t1 [|t2 ts]]; [reflexivity ..|].
    simpl in Hlen. lia.
Qed.

(** X25. Outside the branch of the file versions 3.2 to 3.4 the classifier
    always returns: with a [NLX_Base_Class_Type] or a
    [HardwareSubSystemType] entry, without a [FileType] entry, or with a
    [FileVersion] that is absent or none of "3.2", "3.3" and "3.4"; in
    the last case, with [FileType] alone deciding, the result is
    [CHEETAH560]. *)
Theorem type_of_recording_returns (self : gmap string value) :
  (is_Some (self !! "NLX_Base_Class_Type")
   \/ is_Some (self !! "HardwareSubSystemType")
   \/ self !! "FileType" = None
   \/ (forall fv, self !! "FileVersion" = Some (VStr fv) ->
                  fv <> "3.2" /\ fv <> "3.3" /\ fv <> "3.4")) ->
  succeeds (NlxHeader.type_of_recording self)
  /\ (self !! "NLX_Base_Class_Type" = None ->
      self !! "HardwareSubSystemType" = None ->
      is_Some (self !! "FileType") ->
      (forall fv, self !! "FileVersion" = Some (VStr fv) ->
                  fv <> "3.2" /\ fv <> "3.3" /\ fv <> "3.4") ->
      NlxHeader.type_of_recording self = Ok CHEETAH560).
Proof.
  assert (Hother : (forall fv, self !! "FileVersion" = Some (VStr fv) ->
                               fv <> "3.2" /\ fv <> "3.3" /\ fv <> "3.4") ->
                   match self !! "FileVersion" with
                   | Some fv => eq_str fv "3.2" || eq_str fv "3.3" || eq_str fv "3.4"
                   | None => false
                   end = false).
  { intros Hfv. destruct (self !! "FileVersion") as [[fv| | | | | | |]|];
      try reflexivity.
    destruct (Hfv fv eq_refl) as (H2 & H3 & H4). simpl.
    apply String.eqb_neq in H2, H3, H4. rewrite H2, H3, H4. reflexivity. }
  intros Hcase. split.
  - unfold NlxHeader.type_of_recording.
    destruct (self !! "NLX_Base_Class_Type") as [base|].
    { destruct (eq_str base "CscAcqEnt"); [eexists; reflexivity |].
      destruct (eq_str base "BmlAcq"); eexists; reflexivity. }
    destruct (self !! "HardwareSubSystemType") as [hw|].
    { destruct (eq_str hw "DigitalLynx"); [eexists; reflexivity |].
      destruct (eq_str hw "DigitalLynxSX"); [eexists; reflexivity |].
      destruct (eq_str hw "Cheetah64"); [eexists; reflexivity |].
      destruct (eq_str hw "RawDataFile"); eexists; reflexivity. }
    destruct (self !! "FileType") as [ft|]; [| eexists; reflexivity].
    destruct Hcase as [[x Hx] | [[x Hx] | [Hx | Hfv]]]; try discriminate Hx.
    rewrite (Hother Hfv). eexists. reflexivity.
  - intros Hbase Hhw [ft Hft] Hfv. unfold NlxHeader.type_of_recording.
    rewrite Hbase, Hhw, Hft, (Hother Hfv). reflexivity.
Qed.

(** The classifier reads five entries of the header. *)
Lemma type_of_recording_reads (s s' : gmap string value) :
  (forall k, In k ["NLX_Base_Class_Type"; "HardwareSubSystemType"; "FileType";
                   "FileVersion"; "AcquisitionSystem"] -> s' !! k = s !! k) ->
  NlxHeader.type_of_recording s' = NlxHeader.type_of_recording s.
Proof.
  intros Hsame. unfold NlxHeader.type_of_recording, NlxHeader.getitem.
  rewrite !Hsame by (simpl; tauto). reflexivity.
Qed.

(** X26. The classification of a parsed header is that of the properties
    as read from the text: the passes of [__init__] that follow
    [read_properties] do not bear on [type_of_recording]. *)
Theorem type_of_recording_after_init
    (filename file : string) (props_only : bool) (self : gmap string value) :
  NlxHeader.__init__ filename file props_only = Ok self ->
  exists s1,
    NlxHeader.read_properties filename (header_text file) ∅ = Ok s1
    /\ NlxHeader.type_of_recording self = NlxHeader.type_of_recording s1.
Proof.
  intros Hi. apply init_passes in Hi.
  destruct Hi as (s1 & s2 & n & s3 & s4 & s5 & Hread & _ & _ & _ & _
                  & H12 & H23 & H34 & H45 & H5 & _).
  exists s1. split; [exact Hread |].
  apply type_of_recording_reads. intros k Hk.
  rewrite H5, H45, H34, H23, H12; [reflexivity | | | | |];
    simpl in *; intuition (subst; discriminate).
Qed.

End Classified.

(** * The model run on further headers *)

(** X1, witness: the padded file of Cheetah 5.6.3 with records after the
    header block. *)
Lemma init_ignores_padding_and_records_witness :
  @NlxHeader.__init__ Ref.lib "CSC1.ncs"
     (padded Sample.file_cheetah_5_6_3
             (NlxHeader.HEADER_SIZE - String.length Sample.file_cheetah_5_6_3)
             "records")
     false
  = @NlxHeader.__init__ Ref.lib "CSC1.ncs" Sample.file_cheetah_5_6_3 false.
Proof.
  apply (@init_ignores_padding_and_records Ref.lib). vm_compute. reflexivity.
Defined.

(** X2, witness: in the header of Cheetah 5.6.3 the sampling frequency is
    the float of its one match, and there is no probe name. *)
Lemma read_properties_row_entry_witness :
  exists s',
    @NlxHeader.read_properties Ref.lib "CSC1.ncs"
       (header_text Sample.file_cheetah_5_6_3) ∅ = Ok s'
    /\ s' !! "sampling_rate" = Some (VFloat 32000)
    /\ s' !! "ProbeName" = None.
Proof.
  destruct (is_ok_succeeds
              (@NlxHeader.read_properties Ref.lib "CSC1.ncs"
                 (header_text Sample.file_cheetah_5_6_3) ∅))
    as [s' Hs]; [vm_compute; reflexivity |].
  exists s'. split; [exact Hs |]. split.
  - assert (Hm : exists m,
               NlxHeader.re_findall (NlxHeader.prop_pattern "SamplingFrequency")
                                    (header_text Sample.file_cheetah_5_6_3) = Ok [m]
               /\ Py.rstrip_char " " (Re.group m 2) = "32000").
    { eexists. split.
      - vm_compute. reflexivity.
      - vm_compute. reflexivity. }
    destruct Hm as (m & Hfind & Hvalue).
    destruct (@read_properties_row_entry Ref.lib "SamplingFrequency" "sampling_rate"
                NlxHeader.to_float "CSC1.ncs" (header_text Sample.file_cheetah_5_6_3)
                [m] ∅ s' ltac:(in_plain_keys) Hfind Hs) as (v & Hv & Hl).
    rewrite Hvalue in Hv. vm_compute in Hv. injection Hv as <-. exact Hl.
  - assert (Hfind : NlxHeader.re_findall (NlxHeader.prop_pattern "ProbeName")
                        (header_text Sample.file_cheetah_5_6_3) = Ok [])
      by (vm_compute; reflexivity).
    exact (@read_properties_row_entry Ref.lib "ProbeName" ""
             NlxHeader.to_none "CSC1.ncs" (header_text Sample.file_cheetah_5_6_3)
             [] ∅ s' ltac:(in_plain_keys) Hfind Hs).
Defined.

(** X3, witness: the [ProbeName] without a value takes the line that
    follows as its value. *)
Lemma read_properties_value_of_line_witness :
  exists s',
    @NlxHeader.read_properties Ref.lib "CSC1.ncs" Sample.text_empty_value ∅ = Ok s'
    /\ s' !! "ProbeName" = Some (VStr "-OriginalFileName CSC1.ncs").
Proof.
  destruct (is_ok_succeeds
              (@NlxHeader.read_properties Ref.lib "CSC1.ncs"
                 Sample.text_empty_value ∅))
    as [s' Hs]; [vm_compute; reflexivity |].
  exists s'. split; [exact Hs |].
  destruct (@read_properties_value_of_line Ref.lib "ProbeName" "" NlxHeader.to_none
              "CSC1.ncs" ("######## Neuralynx Data File Header" +:+ Py.newline)
              (" " +:+ Py.newline) "-OriginalFileName CSC1.ncs"
              Py.newline ∅ s')
    as (v & Hv & Hl).
  - in_plain_keys.
  - reflexivity.
  - discriminate.
  - reflexivity.
  - reflexivity.
  - reflexivity.
  - reflexivity.
  - reflexivity.
  - exact Hs.
  - injection Hv as <-. exact Hl.
Defined.

(** X4, witness: the values of the header of Cheetah 5.6.3 are texts on
    one line. *)
Lemma read_properties_stores_lines_witness :
  exists s',
    @NlxHeader.read_properties Ref.lib "CSC1.ncs"
       (header_text Sample.file_cheetah_5_6_3) ∅ = Ok s'
    /\ s' !! "CheetahRev" = Some (VStr "5.6.3")
    /\ stored_text "5.6.3".
Proof.
  destruct (is_ok_succeeds
              (@NlxHeader.read_properties Ref.lib "CSC1.ncs"
                 (header_text Sample.file_cheetah_5_6_3) ∅))
    as [s' Hs]; [vm_compute; reflexivity |].
  assert (Hl : match @NlxHeader.read_properties Ref.lib "CSC1.ncs"
                       (header_text Sample.file_cheetah_5_6_3) ∅ with
               | Ok s => s !! "CheetahRev"
               | Err _ => None
               end = Some (VStr "5.6.3")) by (vm_compute; reflexivity).
  rewrite Hs in Hl.
  exists s'. split; [exact Hs |]. split; [exact Hl |].
  destruct (@read_properties_stores_lines Ref.lib "CSC1.ncs"
              (header_text Sample.file_cheetah_5_6_3) ∅ s' "CheetahRev" "5.6.3"
              Hs Hl) as [Hempty | Hstored]; [| exact Hstored].
  rewrite lookup_empty in Hempty. discriminate Hempty.
Defined.

(** X5, witness: "Maybe" is no boolean. *)
Lemma init_fails_on_rejected_value_witness :
  fails (@NlxHeader.__init__ Ref.lib "CSC1.ncs" Sample.file_rejected_value true).
Proof.
  assert (Hm : exists m,
             NlxHeader.re_findall (NlxHeader.prop_pattern "InputInverted")
                                  (header_text Sample.file_rejected_value) = Ok [m]
             /\ Py.rstrip_char " " (Re.group m 2) = "Maybe").
  { eexists. split.
    - vm_compute. reflexivity.
    - vm_compute. reflexivity. }
  destruct Hm as (m & Hfind & Hvalue).
  apply (@init_fails_on_rejected_value Ref.lib "InputInverted" "input_inverted"
           NlxHeader._to_bool "CSC1.ncs" Sample.file_rejected_value true [m] m).
  - simpl. tauto.
  - exact Hfind.
  - left. reflexivity.
  - rewrite Hvalue. eexists. reflexivity.
Defined.

(** X6, witness: a header text without a dash. *)
Lemma init_without_properties_witness :
  @NlxHeader.__init__ Ref.lib "Events.nev" Sample.file_without_properties true
  = Ok (<["ApplicationVersion" := VVersion (release [2%N])]>
          (<["ApplicationName" := VStr "Neuraview"]>
             (<["channel_names" := VList [VStr "unknown"]]>
                (<["channel_ids" := VList [VStr "unknown"]]> ∅)))).
Proof.
  apply (@init_without_properties Ref.lib); vm_compute; reflexivity.
Defined.

(** X7, witness: four channel ids and one name. *)
Lemma convert_channel_ids_names_replicates_witness :
  @NlxHeader.convert_channel_ids_names "CSC1.ncs"
     (Sample.channel_fields "0 1 2 3" "CSC1")
  = Ok (<["channel_names" := VList [VStr "CSC1"; VStr "CSC1"; VStr "CSC1"; VStr "CSC1"]]>
          (<["channel_ids" := VList [VInt 0; VInt 1; VInt 2; VInt 3]]>
             (Sample.channel_fields "0 1 2 3" "CSC1")),
        4)
  /\ @NlxHeader.convert_channel_ids_names "CSC1.ncs" (Sample.channel_ids_only "0 1")
     = Ok (<["channel_names" := VList [VStr "unknown"; VStr "unknown"]]>
             (<["channel_ids" := VList [VInt 0; VInt 1]]>
                (Sample.channel_ids_only "0 1")),
           2).
Proof.
  split.
  - refine (proj1 (@convert_channel_ids_names_replicates "CSC1.ncs"
                     (Sample.channel_fields "0 1 2 3" "CSC1") (VStr "0 1 2 3")
                     ["0"; "1"; "2"; "3"] [0; 1; 2; 3]%Z eq_refl eq_refl _)
                  (VStr "CSC1") "CSC1" eq_refl eq_refl).
    repeat constructor.
  - refine (proj2 (@convert_channel_ids_names_replicates "CSC1.ncs"
                     (Sample.channel_ids_only "0 1") (VStr "0 1")
                     ["0"; "1"] [0; 1]%Z eq_refl eq_refl _)
                  eq_refl).
    repeat constructor.
Defined.

(** X8, witness: the two names "A B", three characters, pass for three
    channels and stay a text; the two names "CSC1 CSC2" are rejected for
    two channels. *)
Lemma convert_channel_ids_names_several_names_witness :
  @NlxHeader.convert_channel_ids_names "CSC1.ncs"
     (Sample.channel_fields "0 1 2" "A B")
  = Ok (<["channel_ids" := VList [VInt 0; VInt 1; VInt 2]]>
          (Sample.channel_fields "0 1 2" "A B"), 3)
  /\ @NlxHeader.convert_channel_ids_names "CSC1.ncs"
       (Sample.channel_fields "0 1" "CSC1 CSC2")
     = Err (AssertionError "Number of channel ids does not match channel names.").
Proof.
  split.
  - refine (@convert_channel_ids_names_several_names "CSC1.ncs"
              (Sample.channel_fields "0 1 2" "A B") (VStr "0 1 2")
              ["0"; "1"; "2"] [0; 1; 2]%Z "A B" ["A"; "B"]
              eq_refl eq_refl _ eq_refl eq_refl _).
    + repeat constructor.
    + discriminate.
  - refine (@convert_channel_ids_names_several_names "CSC1.ncs"
              (Sample.channel_fields "0 1" "CSC1 CSC2") (VStr "0 1")
              ["0"; "1"] [0; 1]%Z "CSC1 CSC2" ["CSC1"; "CSC2"]
              eq_refl eq_refl _ eq_refl eq_refl _).
    + repeat constructor.
    + discriminate.
Defined.

(** X9, witness: a header without application fields is named
    "Neuraview", version 2. *)
Lemma setApplicationAndVersion_result_witness :
  exists s',
    @NlxHeader.setApplicationAndVersion Ref.lib (Sample.input_range "1200") = Ok s'
    /\ exists name text v,
        Ref.Version_of_str
          (if Py.contains text " Development"
           then Py.replace text " Development" ".dev0" else text) = Some v
        /\ s' = <["ApplicationVersion" := VVersion v]>
                  (<["ApplicationName" := VStr name]> (Sample.input_range "1200"))
        /\ name = "Neuraview" /\ text = "2".
Proof.
  destruct (is_ok_succeeds
              (@NlxHeader.setApplicationAndVersion Ref.lib (Sample.input_range "1200")))
    as [s' Hs]; [vm_compute; reflexivity |].
  exists s'. split; [exact Hs |].
  exact (@setApplicationAndVersion_result Ref.lib (Sample.input_range "1200") s' Hs).
Defined.

(** X10, witness: the application name of Cheetah 6.4.1, a development
    version. *)
Lemma setApplicationAndVersion_splits_quoted_version_witness :
  @NlxHeader.setApplicationAndVersion Ref.lib
     (Sample.application_name "Cheetah" "6.4.1 Development")
  = Ok (<["ApplicationVersion" :=
           VVersion {| v_epoch := 0; v_release := [6; 4; 1]%N; v_pre := None;
                       v_post := None; v_dev := Some 0%N; v_local := None |}]>
          (<["ApplicationName" := VStr "Cheetah"]>
             (Sample.application_name "Cheetah" "6.4.1 Development"))).
Proof.
  apply (@setApplicationAndVersion_splits_quoted_version Ref.lib
           (Sample.application_name "Cheetah" "6.4.1 Development")
           "Cheetah" "6.4.1 Development"); reflexivity.
Defined.

(** X11, witness: a conversion factor without channel ids. *)
Lemma setBitToMicroVolt_without_channel_ids_witness :
  @NlxHeader.setBitToMicroVolt Ref.lib Sample.factor_only
  = Err (KeyError "channel_ids").
Proof.
  destruct (@setBitToMicroVolt_without_channel_ids Ref.lib Sample.factor_only
              "0.000000036621093749999997" eq_refl eq_refl)
    as (toks & Htoks & Hone & _).
  apply Hone.
  assert (Hrun : NlxHeader.findall_in "\S+" (VStr "0.000000036621093749999997")
                 = Ok ["0.000000036621093749999997"]) by reflexivity.
  rewrite Hrun in Htoks. injection Htoks as <-. reflexivity.
Defined.

(** X12, witness: one range for three channel id entries; two ranges for
    two entries, and for three. *)
Lemma setInputRanges_per_entry_witness :
  @NlxHeader.setInputRanges 3 (Sample.input_range "1200")
  = Ok (<["InputRange" := VList [VInt 1200; VInt 1200; VInt 1200]]>
          (Sample.input_range "1200"))
  /\ @NlxHeader.setInputRanges 2 (Sample.input_range "1200 1500")
     = Ok (<["InputRange" := VList [VInt 1200; VInt 1500]]>
             (Sample.input_range "1200 1500"))
  /\ @NlxHeader.setInputRanges 3 (Sample.input_range "1200 1500")
     = Err (AssertionError "Number of channel ids does not match input range values.").
Proof.
  split; [| split].
  - exact (proj1 (@setInputRanges_per_entry 3 (Sample.input_range "1200")
                    (VStr "1200") ["1200"] eq_refl eq_refl)
                 "1200" 1200%Z eq_refl eq_refl).
  - refine (proj2 (@setInputRanges_per_entry 2 (Sample.input_range "1200 1500")
                     (VStr "1200 1500") ["1200"; "1500"] eq_refl eq_refl)
                  [1200; 1500]%Z _ _).
    + discriminate.
    + repeat constructor.
  - refine (proj2 (@setInputRanges_per_entry 3 (Sample.input_range "1200 1500")
                     (VStr "1200 1500") ["1200"; "1500"] eq_refl eq_refl)
                  [1200; 1500]%Z _ _).
    + discriminate.
    + repeat constructor.
Defined.

(** X13, witness: the keys of the header of Cheetah 5.6.3. *)
Lemma init_keys_witness :
  exists self,
    @NlxHeader.__init__ Ref.lib "CSC1.ncs" Sample.file_cheetah_5_6_3 false = Ok self
    /\ is_Some (self !! "sampling_rate")
    /\ (In "sampling_rate" (map row_key plain_keys)
        \/ Py.startswith "sampling_rate" "Feature " = true
        \/ "sampling_rate" = "ApplicationVersion"
        \/ (false = false
            /\ ("sampling_rate" = "recording_opened"
                \/ "sampling_rate" = "recording_closed"))).
Proof.
  destruct (is_ok_succeeds
              (@NlxHeader.__init__ Ref.lib "CSC1.ncs" Sample.file_cheetah_5_6_3 false))
    as [self Hi]; [vm_compute; reflexivity |].
  assert (Hl : match @NlxHeader.__init__ Ref.lib "CSC1.ncs"
                       Sample.file_cheetah_5_6_3 false with
               | Ok s => s !! "sampling_rate"
               | Err _ => None
               end = Some (VFloat 32000)) by (vm_compute; reflexivity).
  rewrite Hi in Hl.
  assert (Hk : is_Some (self !! "sampling_rate")) by (rewrite Hl; eauto).
  exists self. split; [exact Hi |]. split; [exact Hk |].
  exact (@init_keys Ref.lib "CSC1.ncs" Sample.file_cheetah_5_6_3 false self
           "sampling_rate" Hi Hk).
Defined.

(** X14, witness: the channel lists of the header of Cheetah 5.6.3. *)
Lemma init_channel_lists_witness :
  exists self,
    @NlxHeader.__init__ Ref.lib "CSC1.ncs" Sample.file_cheetah_5_6_3 false = Ok self
    /\ exists ids names,
        self !! "channel_ids" = Some (VList ids)
        /\ self !! "channel_names" = Some names
        /\ len names = Ok (length ids)
        /\ ((exists zs, ids = map VInt zs) \/ ids = [VStr "unknown"]).
Proof.
  destruct (is_ok_succeeds
              (@NlxHeader.__init__ Ref.lib "CSC1.ncs" Sample.file_cheetah_5_6_3 false))
    as [self Hi]; [vm_compute; reflexivity |].
  exists self. split; [exact Hi |].
  exact (@init_channel_lists Ref.lib "CSC1.ncs" Sample.file_cheetah_5_6_3 false self Hi).
Defined.

(** X15, witness: the conversion factors of the header of Cheetah 5.6.3,
    one for each of its four channels, all read from the one token of its
    [ADBitVolts] field. *)
Lemma init_bit_to_microVolt_per_channel_witness :
  exists self v,
    @NlxHeader.__init__ Ref.lib "CSC1.ncs" Sample.file_cheetah_5_6_3 false = Ok self
    /\ self !! "bit_to_microVolt" = Some v
    /\ exists props field toks xs ids,
        @NlxHeader.read_properties Ref.lib "CSC1.ncs"
          (header_text Sample.file_cheetah_5_6_3) ∅ = Ok props
        /\ props !! "bit_to_microVolt" = Some (VStr field)
        /\ NlxHeader.findall_in "\S+" (VStr field) = Ok toks
        /\ Forall2 (fun tok x => Ref.float_of_str tok = Some x)
                   match toks with
                   | [tok] => repeat tok (length ids)
                   | _ => toks
                   end xs
        /\ v = VList (map (fun x => VFloat (PrimFloat.mul x 1e6)) xs)
        /\ self !! "channel_ids" = Some (VList ids)
        /\ length xs = length ids.
Proof.
  destruct (is_ok_succeeds
              (@NlxHeader.__init__ Ref.lib "CSC1.ncs" Sample.file_cheetah_5_6_3 false))
    as [self Hi]; [vm_compute; reflexivity |].
  assert (Hl : match @NlxHeader.__init__ Ref.lib "CSC1.ncs"
                       Sample.file_cheetah_5_6_3 false with
               | Ok s => s !! "bit_to_microVolt"
               | Err _ => None
               end = Some (VList [VFloat 0.03662109375; VFloat 0.03662109375;
                                  VFloat 0.03662109375; VFloat 0.03662109375]))
    by (vm_compute; reflexivity).
  rewrite Hi in Hl.
  exists self. eexists. split; [exact Hi |]. split; [exact Hl |].
  exact (@init_bit_to_microVolt_per_channel Ref.lib "CSC1.ncs"
           Sample.file_cheetah_5_6_3 false self _ Hi Hl).
Defined.

(** X16, witness: the input range of the header of Cheetah 5.6.3. *)
Lemma init_InputRange_per_channel_witness :
  exists self v,
    @NlxHeader.__init__ Ref.lib "CSC1.ncs" Sample.file_cheetah_5_6_3 false = Ok self
    /\ self !! "InputRange" = Some v
    /\ exists zs ids,
        v = VList (map VInt zs)
        /\ self !! "channel_ids" = Some (VList ids)
        /\ ((exists cs, ids = map VInt cs /\ length zs = length cs)
            \/ (ids = [VStr "unknown"] /\ zs = [])).
Proof.
  destruct (is_ok_succeeds
              (@NlxHeader.__init__ Ref.lib "CSC1.ncs" Sample.file_cheetah_5_6_3 false))
    as [self Hi]; [vm_compute; reflexivity |].
  assert (Hl : match @NlxHeader.__init__ Ref.lib "CSC1.ncs"
                       Sample.file_cheetah_5_6_3 false with
               | Ok s => s !! "InputRange"
               | Err _ => None
               end = Some (VList [VInt 1200; VInt 1200; VInt 1200; VInt 1200]))
    by (vm_compute; reflexivity).
  rewrite Hi in Hl.
  exists self. eexists. split; [exact Hi |]. split; [exact Hl |].
  exact (@init_InputRange_per_channel Ref.lib "CSC1.ncs"
           Sample.file_cheetah_5_6_3 false self _ Hi Hl).
Defined.

(** X17, witness: the application "BML". *)
Lemma select_hpd_range_witness :
  In ("BML", NlxHeader.inHeader)
     [("Cheetah", NlxHeader.bv5_6_4); ("Cheetah", NlxHeader.inHeader);
      ("Cheetah", NlxHeader.v5_4_0); ("Cheetah", NlxHeader.inProps);
      ("BML", NlxHeader.inHeader); ("Neuraview", NlxHeader.neuraview2);
      ("Pegasus", NlxHeader.inProps); ("Unknown", NlxHeader.inProps)]
  /\ NlxHeader.inHeader <> NlxHeader.bml.
Proof.
  exact (select_hpd_range Sample.bml_2_0 "BML" NlxHeader.inHeader eq_refl).
Defined.

(** X18, witness: Cheetah 6.3.2 and Cheetah 4.0.2. *)
Lemma select_hpd_cheetah_major_witness :
  NlxHeader.select_hpd (Sample.application "Cheetah" [6; 3; 2]%N)
  = Ok ("Cheetah", NlxHeader.inProps)
  /\ NlxHeader.select_hpd Sample.cheetah_4_0_2 = Ok ("Cheetah", NlxHeader.inHeader).
Proof.
  split.
  - refine (select_hpd_cheetah_major (Sample.application "Cheetah" [6; 3; 2]%N)
              (release [6; 3; 2]%N) 6%N [3; 2]%N eq_refl eq_refl eq_refl eq_refl _ _);
      discriminate.
  - refine (select_hpd_cheetah_major Sample.cheetah_4_0_2
              (release [4; 0; 2]%N) 4%N [0; 2]%N eq_refl eq_refl eq_refl eq_refl _ _);
      discriminate.
Defined.

(** X19, witness: the versions 5.5.1, 5.6.3 and 5.7.4 of the examples of
    the source, and 5.6.0. *)
Lemma select_hpd_cheetah_5_witness :
  NlxHeader.select_hpd (Sample.application "Cheetah" [5; 5; 1]%N)
  = Ok ("Cheetah", NlxHeader.bv5_6_4)
  /\ NlxHeader.select_hpd (Sample.application "Cheetah" [5; 6; 3]%N)
     = Ok ("Cheetah", NlxHeader.bv5_6_4)
  /\ NlxHeader.select_hpd (Sample.application "Cheetah" [5; 7; 4]%N)
     = Ok ("Cheetah", NlxHeader.inProps)
  /\ NlxHeader.select_hpd Sample.cheetah_5_6_0 = Ok ("Cheetah", NlxHeader.inHeader).
Proof.
  split; [| split; [| split]].
  - exact (select_hpd_cheetah_5 (Sample.application "Cheetah" [5; 5; 1]%N)
             5%N 1%N eq_refl eq_refl).
  - exact (select_hpd_cheetah_5 (Sample.application "Cheetah" [5; 6; 3]%N)
             6%N 3%N eq_refl eq_refl).
  - exact (select_hpd_cheetah_5 (Sample.application "Cheetah" [5; 7; 4]%N)
             7%N 4%N eq_refl eq_refl).
  - exact (select_hpd_cheetah_5 Sample.cheetah_5_6_0 6%N 0%N eq_refl eq_refl).
Defined.

(** X20, witness: the BML text, whose dictionary has no close-timestamp
    pattern. *)
Lemma readTimeDate_result_witness :
  exists self',
    @NlxHeader.readTimeDate Ref.lib Sample.text_bml Sample.bml_2_0 = Ok self'
    /\ exists an hpd opened,
        NlxHeader.select_hpd Sample.bml_2_0 = Ok (an, hpd)
        /\ (opened = VNone \/ exists d, opened = VDatetime d)
        /\ match NlxHeader.datetime2_regex hpd with
           | None => self' = <["recording_opened" := opened]> Sample.bml_2_0
           | Some _ =>
             exists closed,
               (closed = VNone \/ exists d, closed = VDatetime d)
               /\ self' = <["recording_closed" := closed]>
                            (<["recording_opened" := opened]> Sample.bml_2_0)
           end.
Proof.
  destruct (is_ok_succeeds
              (@NlxHeader.readTimeDate Ref.lib Sample.text_bml Sample.bml_2_0))
    as [self' Hr]; [vm_compute; reflexivity |].
  exists self'. split; [exact Hr |].
  exact (@readTimeDate_result Ref.lib Sample.text_bml Sample.bml_2_0 self' Hr).
Defined.

(** X21, witness: the close time of the Pegasus text has a fraction of a
    second, which the second format of "inProps" would parse. *)
Lemma readTimeDate_close_timestamp_first_format_witness :
  Ref.strptime "2019/06/28 17:45:48.250" "%Y/%m/%d %H:%M:%S.%f"
  = Some {| year := 2019; month := 6; day := 28; hour := 17; minute := 45;
            second := 48; microsecond := 250000 |}
  /\ exists self',
      @NlxHeader.readTimeDate Ref.lib Sample.text_pegasus
         (Sample.application "Pegasus" [2; 1; 1]%N) = Ok self'
      /\ self' !! "recording_closed" = Some VNone.
Proof.
  split; [vm_compute; reflexivity |].
  assert (H1 : exists sr,
             NlxHeader.re_search (NlxHeader.datetime1_regex NlxHeader.inProps)
                                 Sample.text_pegasus = Ok (Some sr)).
  { eexists. vm_compute. reflexivity. }
  destruct H1 as [sr H1].
  assert (H2 : exists sr2,
             NlxHeader.re_search "-TimeClosed (?P<date>\S+) (?P<time>\S+)"
                                 Sample.text_pegasus = Ok (Some sr2)
             /\ Re.groupdict sr2 "date" = Some "2019/06/28"
             /\ Re.groupdict sr2 "time" = Some "17:45:48.250").
  { eexists. split.
    - vm_compute. reflexivity.
    - split; vm_compute; reflexivity. }
  destruct H2 as (sr2 & H2 & Hd & Ht).
  refine (@readTimeDate_close_timestamp_first_format Ref.lib Sample.text_pegasus
            (Sample.application "Pegasus" [2; 1; 1]%N) "Pegasus" NlxHeader.inProps
            "-TimeClosed (?P<date>\S+) (?P<time>\S+)" sr sr2
            "2019/06/28" "17:45:48.250" eq_refl H1 eq_refl H2 Hd Ht _).
  vm_compute. reflexivity.
Defined.

(** X22, witness: the header with an input range and no timestamp line is
    accepted by the lenient call. *)
Lemma init_strict_after_lenient_witness :
  exists an,
    succeeds (@NlxHeader.__init__ Ref.lib "CSC1.ncs"
                (Sample.file_input_range "1000") false)
    \/ @NlxHeader.__init__ Ref.lib "CSC1.ncs" (Sample.file_input_range "1000") false
       = Err (IOError NlxHeader.open_msg an)
    \/ @NlxHeader.__init__ Ref.lib "CSC1.ncs" (Sample.file_input_range "1000") false
       = Err (IOError NlxHeader.close_msg an).
Proof.
  destruct (is_ok_succeeds
              (@NlxHeader.__init__ Ref.lib "CSC1.ncs"
                 (Sample.file_input_range "1000") true))
    as [lenient Hi]; [vm_compute; reflexivity |].
  exact (@init_strict_after_lenient Ref.lib "CSC1.ncs"
           (Sample.file_input_range "1000") lenient Hi).
Defined.

(** X23, witness: the two headers of the file of Cheetah 5.6.3. *)
Lemma init_strict_extends_lenient_witness :
  exists self lenient,
    @NlxHeader.__init__ Ref.lib "CSC1.ncs" Sample.file_cheetah_5_6_3 false = Ok self
    /\ @NlxHeader.__init__ Ref.lib "CSC1.ncs" Sample.file_cheetah_5_6_3 true
       = Ok lenient
    /\ lenient !! "recording_opened" = None
    /\ lenient !! "recording_closed" = None
    /\ is_Some (self !! "recording_opened")
    /\ forall k, k <> "recording_opened" -> k <> "recording_closed" ->
                 self !! k = lenient !! k.
Proof.
  destruct (is_ok_succeeds
              (@NlxHeader.__init__ Ref.lib "CSC1.ncs" Sample.file_cheetah_5_6_3 false))
    as [self Hi]; [vm_compute; reflexivity |].
  destruct (@init_strict_extends_lenient Ref.lib "CSC1.ncs"
              Sample.file_cheetah_5_6_3 self Hi) as (lenient & Hl & Hrest).
  exists self, lenient. split; [exact Hi |]. split; [exact Hl | exact Hrest].
Defined.

(** X24, witness: file version 3.3 without [AcquisitionSystem], and with
    one of a single token. *)
Lemma type_of_recording_needs_acquisition_system_witness :
  @NlxHeader.type_of_recording Ref.acq (Sample.file_version "3.3")
  = Err (KeyError "AcquisitionSystem")
  /\ @NlxHeader.type_of_recording Ref.acq (Sample.acquisition_system "Foo")
     = Err IndexError.
Proof.
  split.
  - refine (proj1 (@type_of_recording_needs_acquisition_system Ref.acq
                     (Sample.file_version "3.3") (VStr "NCS") "3.3"
                     eq_refl eq_refl eq_refl eq_refl (or_intror (or_introl eq_refl)))
                  eq_refl).
  - refine (proj2 (@type_of_recording_needs_acquisition_system Ref.acq
                     (Sample.acquisition_system "Foo") (VStr "NCS") "3.3"
                     eq_refl eq_refl eq_refl eq_refl (or_intror (or_introl eq_refl)))
                  "Foo" eq_refl _).
    vm_compute. lia.
Defined.

(** X25, witness: file version 3.1. *)
Lemma type_of_recording_returns_witness :
  @NlxHeader.type_of_recording Ref.acq (Sample.file_version "3.1")
  = Ok Ref.CHEETAH560.
Proof.
  assert (Hfv : forall fv,
             Sample.file_version "3.1" !! "FileVersion" = Some (VStr fv) ->
             fv <> "3.2" /\ fv <> "3.3" /\ fv <> "3.4").
  { intros fv Hfv. injection Hfv as <-. repeat split; discriminate. }
  refine (proj2 (@type_of_recording_returns Ref.acq (Sample.file_version "3.1")
                   (or_intror (or_intror (or_intror Hfv))))
                eq_refl eq_refl _ Hfv).
  eexists. reflexivity.
Defined.

(** X26, witness: the header of Cheetah 5.6.3 classifies as its properties
    do. *)
Lemma type_of_recording_after_init_witness :
  exists self s1,
    @NlxHeader.__init__ Ref.lib "CSC1.ncs" Sample.file_cheetah_5_6_3 false = Ok self
    /\ @NlxHeader.read_properties Ref.lib "CSC1.ncs"
         (header_text Sample.file_cheetah_5_6_3) ∅ = Ok s1
    /\ @NlxHeader.type_of_recording Ref.acq self
       = @NlxHeader.type_of_recording Ref.acq s1.
Proof.
  destruct (is_ok_succeeds
              (@NlxHeader.__init__ Ref.lib "CSC1.ncs" Sample.file_cheetah_5_6_3 false))
    as [self Hi]; [vm_compute; reflexivity |].
  destruct (@type_of_recording_after_init Ref.lib Ref.acq "CSC1.ncs"
              Sample.file_cheetah_5_6_3 false self Hi) as (s1 & Hread & Hsame).
  exists self, s1. auto.
Defined.
